(** * Advanced Coding XBlock: Studio form and student workspace

    A shallow embedding of the two browser components of the repository:

    - [Studio]: the instructor form of [advanced_coding_studio.js]
      (repeated test-case and language blocks, field and form validation);
    - [Workspace]: the student workspace script (file map, tabs, editor,
      run and submit life cycle, result rendering).

    JavaScript strings are sequences of UTF-16 code units; they are
    embedded as lists of code units.  The page is embedded as a record of
    the DOM parts the scripts read and write.  A handler call is an item of
    the list of effects an operation returns; its continuation is run later,
    on the state of that later time, by [Workspace.settle].  An operation
    of the workspace returns or throws; the promise of a handler call is
    the one of jQuery. *)

From Stdlib Require Import String Ascii NArith ZArith List Bool Lia.
From Stdlib Require Import DecimalNat.
Import ListNotations.

Set Implicit Arguments.

(** ** JavaScript strings and values *)

Module JS.

Definition codeunit := N.
Definition jsstring := list codeunit.

(** A literal of the script, written with Rocq's string notation. *)
Definition str (s : string) : jsstring :=
  map N_of_ascii (list_ascii_of_string s).

(** The double quote, and an attribute value between double quotes. *)
Definition dq : jsstring := [34%N].
Definition q (s : string) : jsstring := dq ++ str s ++ dq.

(** A line break of a template literal followed by its indentation. *)
Definition nl (indent : nat) : jsstring := 10%N :: repeat 32%N indent.

Fixpoint streq (a b : jsstring) : bool :=
  match a, b with
  | [], [] => true
  | x :: a', y :: b' => N.eqb x y && streq a' b'
  | _, _ => false
  end.

Definition isEmpty (s : jsstring) : bool :=
  match s with [] => true | _ => false end.

Fixpoint startsWith (p s : jsstring) : bool :=
  match p, s with
  | [], _ => true
  | x :: p', y :: s' => N.eqb x y && startsWith p' s'
  | _ :: _, [] => false
  end.

(** [String.prototype.includes]. *)
Fixpoint includes (s sub : jsstring) : bool :=
  startsWith sub s ||
  match s with
  | [] => false
  | _ :: t => includes t sub
  end.

(** [String.prototype.split] with a separator of one code unit. *)
Fixpoint split (sep : codeunit) (s : jsstring) : list jsstring :=
  match s with
  | [] => [[]]
  | c :: t =>
      if N.eqb c sep then [] :: split sep t
      else match split sep t with
           | h :: r => (c :: h) :: r
           | [] => [[c]]
           end
  end.

(** [Array.prototype.includes] on an array of strings. *)
Definition arrayIncludes (l : list jsstring) (x : jsstring) : bool :=
  existsb (streq x) l.

(** WhiteSpace and LineTerminator of ECMAScript, the code units removed by
    [String.prototype.trim] and skipped by [Number] around a literal. *)
Definition isLineTerminator (c : codeunit) : bool :=
  (N.eqb c 10 || N.eqb c 13 || N.eqb c 8232 || N.eqb c 8233)%N.

Definition isWhiteSpace (c : codeunit) : bool :=
  (N.eqb c 9 || N.eqb c 11 || N.eqb c 12 || N.eqb c 32 || N.eqb c 160
   || N.eqb c 5760 || (N.leb 8192 c && N.leb c 8202) || N.eqb c 8239
   || N.eqb c 8287 || N.eqb c 12288 || N.eqb c 65279)%N
  || isLineTerminator c.

Fixpoint trimStart (s : jsstring) : jsstring :=
  match s with
  | c :: t => if isWhiteSpace c then trimStart t else s
  | [] => []
  end.

Definition trim (s : jsstring) : jsstring :=
  rev (trimStart (rev (trimStart s))).

(** *** Decimal numerals *)

Definition isDigit (c : codeunit) : bool := (N.leb 48 c && N.leb c 57)%N.

Fixpoint digitsOf (d : Decimal.uint) : jsstring :=
  match d with
  | Decimal.Nil => []
  | Decimal.D0 d => 48%N :: digitsOf d
  | Decimal.D1 d => 49%N :: digitsOf d
  | Decimal.D2 d => 50%N :: digitsOf d
  | Decimal.D3 d => 51%N :: digitsOf d
  | Decimal.D4 d => 52%N :: digitsOf d
  | Decimal.D5 d => 53%N :: digitsOf d
  | Decimal.D6 d => 54%N :: digitsOf d
  | Decimal.D7 d => 55%N :: digitsOf d
  | Decimal.D8 d => 56%N :: digitsOf d
  | Decimal.D9 d => 57%N :: digitsOf d
  end.

(** The numeral a template literal produces for a count or an index. *)
Definition decimal (n : nat) : jsstring := digitsOf (Nat.to_uint n).

Definition digitOf (c : codeunit) : option (Decimal.uint -> Decimal.uint) :=
  (if N.eqb c 48 then Some Decimal.D0
   else if N.eqb c 49 then Some Decimal.D1
   else if N.eqb c 50 then Some Decimal.D2
   else if N.eqb c 51 then Some Decimal.D3
   else if N.eqb c 52 then Some Decimal.D4
   else if N.eqb c 53 then Some Decimal.D5
   else if N.eqb c 54 then Some Decimal.D6
   else if N.eqb c 55 then Some Decimal.D7
   else if N.eqb c 56 then Some Decimal.D8
   else if N.eqb c 57 then Some Decimal.D9
   else None)%N.

Fixpoint uintOf (s : jsstring) : option Decimal.uint :=
  match s with
  | [] => Some Decimal.Nil
  | c :: t =>
      match digitOf c, uintOf t with
      | Some d, Some u => Some (d u)
      | _, _ => None
      end
  end.

(** The number a run of decimal digits denotes. *)
Definition parseDecimal (s : jsstring) : option nat :=
  match s with
  | [] => None
  | _ => option_map Nat.of_uint (uintOf s)
  end.

(** The longest run of decimal digits at the head of a string, and the rest. *)
Fixpoint spanDigits (s : jsstring) : jsstring * jsstring :=
  match s with
  | c :: t =>
      if isDigit c then let '(ds, r) := spanDigits t in (c :: ds, r)
      else ([], s)
  | [] => ([], [])
  end.

(** *** [Number(string)] is [NaN]

    [Number] applied to a string yields [NaN] exactly when the string,
    stripped of surrounding white space, is neither empty nor a
    StrNumericLiteral of ECMAScript. *)

Definition isExpMark (c : codeunit) : bool := (N.eqb c 101 || N.eqb c 69)%N.
Definition isSign (c : codeunit) : bool := (N.eqb c 43 || N.eqb c 45)%N.

Definition allDigits1 (p : codeunit -> bool) (s : jsstring) : bool :=
  negb (isEmpty s) && forallb p s.

(** ExponentPart, optional, up to the end of the string. *)
Definition exponentOptEnd (r : jsstring) : bool :=
  match r with
  | [] => true
  | c :: r1 =>
      isExpMark c &&
      match r1 with
      | s :: r2 => if isSign s then allDigits1 isDigit r2
                   else allDigits1 isDigit r1
      | [] => false
      end
  end.

Definition isStrUnsignedDecimalLiteral (s : jsstring) : bool :=
  streq s (str "Infinity") ||
  let '(ds, r) := spanDigits s in
  match ds, r with
  | _ :: _, [] => true
  | _ :: _, c :: r1 =>
      if N.eqb c 46 then exponentOptEnd (snd (spanDigits r1))
      else exponentOptEnd r
  | [], c :: r1 =>
      N.eqb c 46 &&
      let '(ds2, r2) := spanDigits r1 in
      negb (isEmpty ds2) && exponentOptEnd r2
  | [], [] => false
  end.

Definition isBinaryDigit (c : codeunit) : bool := (N.eqb c 48 || N.eqb c 49)%N.
Definition isOctalDigit (c : codeunit) : bool := (N.leb 48 c && N.leb c 55)%N.
Definition isHexDigit (c : codeunit) : bool :=
  isDigit c || (N.leb 97 c && N.leb c 102)%N || (N.leb 65 c && N.leb c 70)%N.

Definition isNonDecimalIntegerLiteral (s : jsstring) : bool :=
  match s with
  | z :: m :: r =>
      N.eqb z 48 &&
      (if (N.eqb m 98 || N.eqb m 66)%N then allDigits1 isBinaryDigit r
       else if (N.eqb m 111 || N.eqb m 79)%N then allDigits1 isOctalDigit r
       else if (N.eqb m 120 || N.eqb m 88)%N then allDigits1 isHexDigit r
       else false)
  | _ => false
  end.

Definition isStrNumericLiteral (s : jsstring) : bool :=
  isNonDecimalIntegerLiteral s ||
  match s with
  | c :: t => if isSign c then isStrUnsignedDecimalLiteral t
              else isStrUnsignedDecimalLiteral s
  | [] => false
  end.

(** [isNaN(Number(s))]. *)
Definition isNaN_Number (s : jsstring) : bool :=
  let t := trim s in
  negb (isEmpty t) && negb (isStrNumericLiteral t).

(** *** Numbers

    A number of a JSON response is written as a decimal literal; its
    value is the double nearest to the literal (the even mantissa of two,
    infinity beyond the largest double).  A finite double is embedded as
    the dyadic rational it is.  The sign of zero is left out: [-0] is
    tested, converted and fixed as [0] is. *)

Inductive number :=
| Dyadic (m e : Z)            (* m * 2^e *)
| Infinite (negative : bool).

Local Open Scope Z_scope.

(** The decimal numeral of a natural number. *)
Definition numeral (z : Z) : jsstring := digitsOf (N.to_uint (Z.to_N z)).

Definition digitCount (z : Z) : Z := Z.of_nat (length (numeral z)).

(** [x * 2^k] for a positive [k], and [x] otherwise; likewise with 10. *)
Definition times2 (x k : Z) : Z := x * 2 ^ Z.max 0 k.
Definition times10 (x k : Z) : Z := x * 10 ^ Z.max 0 k.

(** The integer nearest to [a / b], the even one of two. *)
Definition nearestEven (a b : Z) : Z :=
  let q := a / b in
  match 2 * (a mod b) ?= b with
  | Lt => q
  | Gt => q + 1
  | Eq => if Z.even q then q else q + 1
  end.

(** The [l] with [2^l <= a / b < 2^(l+1)]. *)
Definition floorLog2 (a b : Z) : Z :=
  let l := Z.log2 a - Z.log2 b in
  if times2 b l <=? times2 a (- l) then l else l - 1.

(** The double nearest to [a / b], for positive [a] and [b]: 53 bits of
    mantissa, exponents from -1074, infinity from [2^1024]. *)
Definition nearestDouble (a b : Z) : number :=
  let e := Z.max (floorLog2 a b - 52) (-1074) in
  let m := nearestEven (times2 a (- e)) (times2 b e) in
  if (0 <=? e) && (2 ^ 1024 <=? m * 2 ^ e) then Infinite false
  else Dyadic m e.

(** The value of the literal [m * 10^e]. *)
Definition numberOf (m e : Z) : number :=
  if m =? 0 then Dyadic 0 0
  else
    match nearestDouble (times10 (Z.abs m) e) (times10 1 (- e)) with
    | Dyadic x g => Dyadic (Z.sgn m * x) g
    | Infinite _ => Infinite (m <? 0)
    end.

Definition isZero (v : number) : bool :=
  match v with
  | Dyadic m _ => m =? 0
  | Infinite _ => false
  end.

(** The [n] with [10^(n-1) <= a / b < 10^n], for positive [a] and [b]. *)
Definition magnitude (a b : Z) : Z :=
  if b <=? a then digitCount (a / b)
  else
    let d := digitCount (b / a) in
    if a * 10 ^ (d - 1) =? b then 2 - d else 1 - d.

(** A decimal [s * 10^(n-k)] of [k] digits, and its distance to the
    number as a fraction. *)
Record decimalOf := mkDecimal {
  dec_s : Z;
  dec_n : Z;
  dec_num : Z;
  dec_den : Z
}.

Definition closer (c d : decimalOf) : bool :=
  dec_num c * dec_den d <? dec_num d * dec_den c.

Definition nearer (c d : option decimalOf) : option decimalOf :=
  match c, d with
  | Some x, Some y => if closer y x then Some y else Some x
  | Some x, None => Some x
  | None, _ => d
  end.

(** The decimal of [k] digits at [n] that is nearest to the positive
    double [m * 2^e] among those that round to it ([2^52 <= m < 2^53]
    unless [e] is -1074).  In units of [2^(e-2)] the double is [4 m], and
    the reals that round to it lie between [lo] and [hi], the bounds
    included when [m] is even. *)
Definition decimalAt (m e k n : Z) : option decimalOf :=
  let x := 4 * m in
  let hi := 4 * m + 2 in
  let lo := if (m =? 2 ^ 52) && (-1074 <? e) then 4 * m - 1 else 4 * m - 2 in
  let p := n - k in
  (* s * 10^p against u * 2^(e-2) is s * c1 against u * c2 *)
  let c1 := times2 (times10 1 p) (2 - e) in
  let c2 := times10 (times2 1 (e - 2)) (- p) in
  let sLow :=
    if Z.even m then (lo * c2 + c1 - 1) / c1 else (lo * c2) / c1 + 1 in
  let sHigh :=
    if Z.even m then (hi * c2) / c1 else (hi * c2 + c1 - 1) / c1 - 1 in
  let first := Z.max sLow (10 ^ (k - 1)) in
  let last := Z.min sHigh (10 ^ k - 1) in
  if last <? first then None
  else
    let s := Z.max first (Z.min last (nearestEven (x * c2) c1)) in
    Some (mkDecimal s n (Z.abs (s * c1 - x * c2))
                    (times2 (times10 1 (- p)) (2 - e))).

Definition decimalOfLength (m e k : Z) : option decimalOf :=
  let n := magnitude (times2 m e) (times2 1 (- e)) in
  nearer (nearer (decimalAt m e k (n - 1)) (decimalAt m e k n))
         (decimalAt m e k (n + 1)).

(** The decimal of the least number of digits, from [k] digits on. *)
Fixpoint shortest (m e : Z) (fuel : nat) (k : Z) : option decimalOf :=
  match fuel with
  | O => None
  | S fuel' =>
      match decimalOfLength m e k with
      | Some c => Some c
      | None => shortest m e fuel' (k + 1)
      end
  end.

(** The numeral of a positive finite number from its digits and the
    place [n] of its decimal point. *)
Definition writeDecimal (digits : jsstring) (n : Z) : jsstring :=
  let k := Z.of_nat (length digits) in
  if (k <=? n) && (n <=? 21) then
    digits ++ repeat 48%N (Z.to_nat (n - k))
  else if (0 <? n) && (n <=? 21) then
    firstn (Z.to_nat n) digits ++ [46%N] ++ skipn (Z.to_nat n) digits
  else if (-6 <? n) && (n <=? 0) then
    str "0." ++ repeat 48%N (Z.to_nat (- n)) ++ digits
  else
    let exponent :=
      (if n - 1 <? 0 then str "-" else str "+") ++ numeral (Z.abs (n - 1)) in
    match digits with
    | [] => []
    | [d] => [d] ++ str "e" ++ exponent
    | d :: rest => d :: 46%N :: rest ++ str "e" ++ exponent
    end.

(** A mantissa of 54 bits, which rounding up can yield, is written with
    53. *)
Definition normalized (m e : Z) : Z * Z :=
  if m =? 2 ^ 53 then (2 ^ 52, e + 1) else (m, e).

(** Number::toString; seventeen digits always suffice. *)
Definition NumberToString (v : number) : jsstring :=
  match v with
  | Infinite negative =>
      if negative then str "-Infinity" else str "Infinity"
  | Dyadic m e =>
      if m =? 0 then str "0"
      else
        let '(m', e') := normalized (Z.abs m) e in
        (if m <? 0 then str "-" else [])
        ++ match shortest m' e' 17 1 with
           | Some c => writeDecimal (numeral (dec_s c)) (dec_n c)
           | None => []
           end
  end.

(** [Number.prototype.toFixed] with one fraction digit. *)
Definition toFixed1 (v : number) : jsstring :=
  match v with
  | Infinite _ => NumberToString v
  | Dyadic m e =>
      let a := times2 (Z.abs m) e in
      let b := times2 1 (- e) in
      if 10 ^ 21 * b <=? a then NumberToString v
      else
        (* the integer nearest to ten times the number, the larger of two *)
        let n := (20 * a + b) / (2 * b) in
        let digits := numeral n in
        let digits :=
          if Nat.leb (length digits) 1 then 48%N :: digits else digits in
        (if m <? 0 then str "-" else [])
        ++ firstn (length digits - 1) digits ++ [46%N]
        ++ skipn (length digits - 1) digits
  end.

Local Close Scope Z_scope.

(** *** Values of a JSON response *)

(** [JNum z] is the number the integer literal [z] denotes, [JDecimal m e]
    the number the literal [m * 10^e] denotes. *)
Inductive jsval :=
| JUndefined
| JNull
| JBool (b : bool)
| JNum (z : Z)
| JDecimal (m e : Z)
| JStr (s : jsstring).

Definition numberValue (v : jsval) : option number :=
  match v with
  | JNum z => Some (numberOf z 0)
  | JDecimal m e => Some (numberOf m e)
  | _ => None
  end.

Definition truthy (v : jsval) : bool :=
  match v with
  | JUndefined | JNull => false
  | JBool b => b
  | JNum z => negb (Z.eqb z 0)
  | JDecimal m e => negb (isZero (numberOf m e))
  | JStr s => negb (isEmpty s)
  end.

(** [a || b]. *)
Definition jsOr (a b : jsval) : jsval := if truthy a then a else b.

(** ToString, as applied by a template literal to an interpolated value. *)
Definition ToString (v : jsval) : jsstring :=
  match v with
  | JUndefined => str "undefined"
  | JNull => str "null"
  | JBool true => str "true"
  | JBool false => str "false"
  | JNum z => NumberToString (numberOf z 0)
  | JDecimal m e => NumberToString (numberOf m e)
  | JStr s => s
  end.

(** The text a node holds after [node.textContent = v]: [null] and
    [undefined] give the empty text. *)
Definition textContentOf (v : jsval) : jsstring :=
  match v with
  | JUndefined | JNull => []
  | _ => ToString v
  end.

(** Serialisation of a text node by [innerHTML]. *)
Definition escapeCodeUnit (c : codeunit) : jsstring :=
  (if N.eqb c 38 then str "&amp;"
   else if N.eqb c 60 then str "&lt;"
   else if N.eqb c 62 then str "&gt;"
   else if N.eqb c 160 then str "&nbsp;"
   else [c])%N.

Definition serializeText (s : jsstring) : jsstring :=
  flat_map escapeCodeUnit s.

(** [String.prototype.replace] with a string pattern: the first occurrence. *)
Fixpoint replaceFirst (pat rep s : jsstring) : jsstring :=
  if startsWith pat s then rep ++ skipn (length pat) s
  else match s with
       | [] => []
       | c :: t => c :: replaceFirst pat rep t
       end.

End JS.
(** ** The Studio form ([advanced_coding_studio.js]) *)

Module Studio.
Import JS.

Inductive tagName := Input | Textarea | Select.

(** A form control together with what [validateField] reads and writes
    around it: its [name] and [data-validate] attributes, the value [val()]
    returns, the classes [error], [warning] and [success], and the texts of
    its sibling [.validation-feedback] elements. *)
Record field := mkField {
  tag : tagName;
  name : option jsstring;
  value : jsstring;
  data_validate : option jsstring;
  has_error : bool;
  has_warning : bool;
  has_success : bool;
  feedback : list jsstring
}.

(** A [.test-case-item] or [.language-item] block: its title and its
    controls in document order. *)
Record item := mkItem {
  title : jsstring;
  fields : list field
}.

(** The page: one form holding the controls outside the repeated groups,
    the [.test-cases-list] with the test-case blocks and the
    [.languages-list] with the language blocks; the [disabled] property
    of the save button; the class and text of the validation messages and
    of the notifications added (their removal by timer is left out). *)
Record page := mkPage {
  otherFields : list field;
  testCases : list item;
  languages : list item;
  saveDisabled : bool;
  validationMessages : list (jsstring * jsstring);
  notifications : list (jsstring * jsstring)
}.

Definition showNotification (type message : jsstring) (p : page) : page :=
  mkPage (otherFields p) (testCases p) (languages p) (saveDisabled p)
         (validationMessages p) (notifications p ++ [(type, message)]).

Definition showValidationMessage (type message : jsstring) (p : page) : page :=
  mkPage (otherFields p) (testCases p) (languages p) (saveDisabled p)
         (validationMessages p ++ [(type, message)]) (notifications p).

Definition plainField (t : tagName) (nm value : jsstring)
    (validate : option jsstring) : field :=
  mkField t (Some nm) value validate false false false [].

(** The name [test_cases[${index-1}][key]] of a control of a new block. *)
Definition testCaseFieldName (index : nat) (key : string) : jsstring :=
  str "test_cases[" ++ decimal (index - 1) ++ str "][" ++ str key ++ str "]".

(** The name [supported_languages[${languageKey}][key]]. *)
Definition languageFieldName (languageKey : jsstring) (key : string)
    : jsstring :=
  str "supported_languages[" ++ languageKey ++ str "][" ++ str key ++ str "]".

Definition createTestCaseHtml (testId : jsstring) (index : nat) : item :=
  mkItem (str "Test Case " ++ decimal index)
    [ plainField Input (testCaseFieldName index "id") testId
                 (Some (str "required"));
      plainField Input (testCaseFieldName index "name")
                 (str "Test Case " ++ decimal index) (Some (str "required"));
      plainField Input (testCaseFieldName index "points") (str "10")
                 (Some (str "number"));
      plainField Input (testCaseFieldName index "timeout") (str "2.0")
                 (Some (str "number"));
      plainField Textarea (testCaseFieldName index "input") [] None;
      plainField Textarea (testCaseFieldName index "expected_output") []
                 (Some (str "required"));
      plainField Input (testCaseFieldName index "is_public") (str "on") None ].

Definition createLanguageHtml (languageKey : jsstring) (index : nat) : item :=
  mkItem (str "Programming Language " ++ decimal index)
    [ plainField Input (languageFieldName languageKey "key") languageKey
                 (Some (str "required"));
      plainField Input (languageFieldName languageKey "name")
                 (str "Language " ++ decimal index) (Some (str "required"));
      plainField Input (languageFieldName languageKey "id") (str "71")
                 (Some (str "required,number"));
      plainField Input (languageFieldName languageKey "extension") (str "py")
                 (Some (str "required"));
      plainField Textarea (languageFieldName languageKey "template")
                 (str "# Write your code here" ++ nl 0
                  ++ str "print('Hello, World!')")
                 (Some (str "required")) ].

(** The leftmost match of the pattern [\[\d+\]] in a string: the text
    before it, its digits, the text after it. *)
Definition indexGroupAt (s : jsstring) : option (jsstring * jsstring) :=
  let '(ds, r) := spanDigits s in
  match ds, r with
  | _ :: _, c :: r' => if N.eqb c 93 then Some (ds, r') else None
  | _, _ => None
  end.

Fixpoint findIndexGroup (s : jsstring)
    : option (jsstring * jsstring * jsstring) :=
  match s with
  | [] => None
  | c :: t =>
      match (if N.eqb c 91 then indexGroupAt t else None) with
      | Some (ds, r) => Some ([], ds, r)
      | None =>
          match findIndexGroup t with
          | Some (pre, ds, r) => Some (c :: pre, ds, r)
          | None => None
          end
      end
  end.

(** [name.replace(/\[\d+\]/, rep)], for a replacement without [$]. *)
Definition replaceIndexGroup (rep s : jsstring) : jsstring :=
  match findIndexGroup s with
  | Some (pre, _, post) => pre ++ rep ++ post
  | None => s
  end.

Definition renameField (index : nat) (f : field) : field :=
  match tag f, name f with
  | Select, _ => f
  | _, Some nm =>
      if negb (isEmpty nm) && includes nm (str "[") && includes nm (str "]")
      then mkField (tag f)
             (Some (replaceIndexGroup (str "[" ++ decimal index ++ str "]") nm))
             (value f) (data_validate f) (has_error f) (has_warning f)
             (has_success f) (feedback f)
      else f
  | _, None => f
  end.

(** [each((index, element) => ...)] over the blocks, in document order. *)
Fixpoint eachIndexed (f : nat -> item -> item) (index : nat) (l : list item)
    : list item :=
  match l with
  | [] => []
  | x :: t => f index x :: eachIndexed f (S index) t
  end.

Definition updateTestCaseIndexes (p : page) : page :=
  mkPage (otherFields p)
    (eachIndexed
       (fun index it =>
          mkItem (str "Test Case " ++ decimal (index + 1))
                 (map (renameField index) (fields it)))
       0 (testCases p))
    (languages p) (saveDisabled p) (validationMessages p) (notifications p).

Definition updateLanguageIndexes (p : page) : page :=
  mkPage (otherFields p) (testCases p)
    (eachIndexed
       (fun index it =>
          mkItem (str "Programming Language " ++ decimal (index + 1))
                 (fields it))
       0 (languages p))
    (saveDisabled p) (validationMessages p) (notifications p).

(** The test [/^https?:\/\/.+/i.test(value)]. *)
Definition lower (c : codeunit) : codeunit :=
  (if N.leb 65 c && N.leb c 90 then c + 32 else c)%N.

Fixpoint startsWithIgnoreCase (p s : jsstring) : option jsstring :=
  match p, s with
  | [], _ => Some s
  | x :: p', y :: s' =>
      if N.eqb x (lower y) then startsWithIgnoreCase p' s' else None
  | _ :: _, [] => None
  end.

Definition colonSlashSlashAny (s : jsstring) : bool :=
  match startsWithIgnoreCase (str "://") s with
  | Some (c :: _) => negb (isLineTerminator c)
  | _ => false
  end.

Definition urlPattern_test (v : jsstring) : bool :=
  match startsWithIgnoreCase (str "http") v with
  | Some r =>
      match r with
      | c :: t =>
          (N.eqb (lower c) 115 && colonSlashSlashAny t) || colonSlashSlashAny r
      | [] => false
      end
  | None => false
  end.

Definition msgRequired : jsstring := str "This field is required".
Definition msgNumber : jsstring := str "Please enter a valid number".
Definition msgUrl : jsstring :=
  str "Please enter a valid URL starting with http:// or https://".

(** [($field.data('validate') || '').split(',')]: the attribute holds
    rule names separated by commas, which [data] returns as written. *)
Definition validationsOf (f : field) : list jsstring :=
  split 44%N (match data_validate f with Some s => s | None => [] end).

Definition validateField (f : field) : field * bool :=
  let value := trim (value f) in
  let validations := validationsOf f in
  let isValid := true in
  let message : jsstring := [] in
  (* Required validation *)
  let '(isValid, message) :=
    if arrayIncludes validations (str "required") && isEmpty value
    then (false, msgRequired) else (isValid, message) in
  (* Number validation *)
  let '(isValid, message) :=
    if arrayIncludes validations (str "number") && negb (isEmpty value)
       && isNaN_Number value
    then (false, msgNumber) else (isValid, message) in
  (* URL validation *)
  let '(isValid, message) :=
    if arrayIncludes validations (str "url") && negb (isEmpty value)
    then (if negb (urlPattern_test value) then (false, msgUrl)
          else (isValid, message))
    else (isValid, message) in
  (* Display validation feedback: the old feedback and the classes error
     and warning were removed first *)
  if negb isValid then
    (mkField (tag f) (name f) (Studio.value f) (data_validate f)
             true false (has_success f) [message], isValid)
  else if arrayIncludes validations (str "required") && negb (isEmpty value)
  then
    (mkField (tag f) (name f) (Studio.value f) (data_validate f)
             false false true [], isValid)
  else
    (mkField (tag f) (name f) (Studio.value f) (data_validate f)
             false false (has_success f) [], isValid).

(** The selector [[data-validate*="required"]]. *)
Definition selectsRequired (f : field) : bool :=
  match data_validate f with
  | Some s => includes s (str "required")
  | None => false
  end.

(** [each] over the selected controls of a list: each one is validated,
    and [isValid] is cleared when one fails. *)
Fixpoint validateRequired (l : list field) (isValid : bool)
    : list field * bool :=
  match l with
  | [] => ([], isValid)
  | f :: t =>
      if selectsRequired f then
        let '(f', ok) := validateField f in
        let '(t', isValid') :=
          validateRequired t (if negb ok then false else isValid) in
        (f' :: t', isValid')
      else
        let '(t', isValid') := validateRequired t isValid in
        (f :: t', isValid')
  end.

Fixpoint validateItems (l : list item) (isValid : bool)
    : list item * bool :=
  match l with
  | [] => ([], isValid)
  | it :: t =>
      let '(fs, isValid1) := validateRequired (fields it) isValid in
      let '(t', isValid2) := validateItems t isValid1 in
      (mkItem (title it) fs :: t', isValid2)
  end.

Definition validateForm (p : page) : page * bool :=
  let isValid := true in
  (* Validate all required fields *)
  let '(others, isValid) := validateRequired (otherFields p) isValid in
  let '(tcs, isValid) := validateItems (testCases p) isValid in
  let '(langs, isValid) := validateItems (languages p) isValid in
  let p := mkPage others tcs langs (saveDisabled p) (validationMessages p)
                  (notifications p) in
  (* Check for at least one test case *)
  let '(p, isValid) :=
    if Nat.eqb (length (testCases p)) 0
    then (showValidationMessage (str "error")
            (str "At least one test case is required") p, false)
    else (p, isValid) in
  (* Check for at least one language *)
  let '(p, isValid) :=
    if Nat.eqb (length (languages p)) 0
    then (showValidationMessage (str "error")
            (str "At least one programming language must be supported") p,
          false)
    else (p, isValid) in
  (* Update save button state *)
  (mkPage (otherFields p) (testCases p) (languages p) (negb isValid)
          (validationMessages p) (notifications p), isValid).

Definition addTestCase (p : page) : page :=
  let testCaseCount := length (testCases p) in
  let testCaseId := str "test_" ++ decimal (testCaseCount + 1) in
  let testCaseHtml := createTestCaseHtml testCaseId (testCaseCount + 1) in
  let p := mkPage (otherFields p) (testCases p ++ [testCaseHtml])
                  (languages p) (saveDisabled p) (validationMessages p)
                  (notifications p) in
  fst (validateForm (updateTestCaseIndexes p)).

(** Removal of the block at a position of a list of blocks. *)
Fixpoint removeAt {A : Type} (k : nat) (l : list A) : list A :=
  match k, l with
  | _, [] => []
  | O, _ :: t => t
  | S k', x :: t => x :: removeAt k' t
  end.

(** [$testCase] is the block at position [k] of the list. *)
Definition removeTestCase (k : nat) (p : page) : page :=
  if Nat.leb (length (testCases p)) 1
  then showNotification (str "error")
         (str "At least one test case is required") p
  else
    let p := mkPage (otherFields p) (removeAt k (testCases p))
                    (languages p) (saveDisabled p) (validationMessages p)
                    (notifications p) in
    fst (validateForm (updateTestCaseIndexes p)).

Definition addLanguage (p : page) : page :=
  let languageCount := length (languages p) in
  let languageKey := str "language_" ++ decimal (languageCount + 1) in
  let languageHtml := createLanguageHtml languageKey (languageCount + 1) in
  let p := mkPage (otherFields p) (testCases p)
                  (languages p ++ [languageHtml]) (saveDisabled p)
                  (validationMessages p) (notifications p) in
  fst (validateForm (updateLanguageIndexes p)).

Definition removeLanguage (k : nat) (p : page) : page :=
  if Nat.leb (length (languages p)) 1
  then showNotification (str "error")
         (str "At least one programming language must be supported") p
  else
    let p := mkPage (otherFields p) (testCases p)
                    (removeAt k (languages p)) (saveDisabled p)
                    (validationMessages p) (notifications p) in
    fst (validateForm (updateLanguageIndexes p)).

(** The add and remove operations of the two repeated groups. *)
Inductive operation :=
| AddTestCase
| RemoveTestCase (k : nat)
| AddLanguage
| RemoveLanguage (k : nat).

Definition step (p : page) (o : operation) : page :=
  match o with
  | AddTestCase => addTestCase p
  | RemoveTestCase k => removeTestCase k p
  | AddLanguage => addLanguage p
  | RemoveLanguage k => removeLanguage k p
  end.

Definition run (ops : list operation) (p : page) : page :=
  fold_left step ops p.

(** The index a control's name carries: the number of its first group of
    digits between square brackets. *)
Definition nameIndex (nm : jsstring) : option nat :=
  match findIndexGroup nm with
  | Some (_, ds, _) => parseDecimal ds
  | None => None
  end.

(** *** Notions the properties of the form are stated with *)

(** The three rules, in the order [validateField] checks them. *)
Inductive rule := Required | Number | Url.

Definition ruleName (r : rule) : jsstring :=
  match r with
  | Required => str "required"
  | Number => str "number"
  | Url => str "url"
  end.

Definition ruleMessage (r : rule) : jsstring :=
  match r with
  | Required => msgRequired
  | Number => msgNumber
  | Url => msgUrl
  end.

(** The control declares the rule in its [data-validate] attribute. *)
Definition declares (f : field) (r : rule) : bool :=
  arrayIncludes (validationsOf f) (ruleName r).

(** The rule is declared and the trimmed value breaks it. *)
Definition ruleFails (f : field) (r : rule) : bool :=
  declares f r &&
  match r with
  | Required => isEmpty (trim (value f))
  | Number => negb (isEmpty (trim (value f))) && isNaN_Number (trim (value f))
  | Url => negb (isEmpty (trim (value f)))
           && negb (urlPattern_test (trim (value f)))
  end.

Definition failingRules (f : field) : list rule :=
  filter (ruleFails f) [Required; Number; Url].

Definition firstFailing (f : field) : option rule := hd_error (failingRules f).
Definition lastFailing (f : field) : option rule :=
  hd_error (rev (failingRules f)).

(** All the controls of the form. *)
Definition formFields (p : page) : list field :=
  otherFields p ++ flat_map fields (testCases p)
  ++ flat_map fields (languages p).

(** The control carries validation rules: it has a [data-validate]
    attribute. *)
Definition carriesRules (f : field) : bool :=
  match data_validate f with Some _ => true | None => false end.

Definition fieldPasses (f : field) : bool := snd (validateField f).

Definition structuralChecks (p : page) : bool :=
  negb (Nat.eqb (length (testCases p)) 0)
  && negb (Nat.eqb (length (languages p)) 0).

(** The name of an [input] or [textarea] is written with square
    brackets. *)
Definition bracketed (f : field) : bool :=
  match tag f, name f with
  | Select, _ => false
  | _, Some nm => includes nm (str "[") && includes nm (str "]")
  | _, None => false
  end.

Definition nameIndexOf (f : field) : option nat :=
  match name f with Some nm => nameIndex nm | None => None end.

Definition sameIndex (o : option nat) (i : nat) : bool :=
  match o with Some j => Nat.eqb j i | None => false end.

(** Every bracketed name of the block carries the index [i]. *)
Definition indexedAt (i : nat) (it : item) : bool :=
  forallb (fun f => implb (bracketed f) (sameIndex (nameIndexOf f) i))
          (fields it).

(** The blocks from position [i] on carry their positions: the indices
    are contiguous and follow the visual order. *)
Fixpoint indexedFrom (i : nat) (l : list item) : bool :=
  match l with
  | [] => true
  | it :: t => indexedAt i it && indexedFrom (S i) t
  end.

Definition namesIndexed (l : list item) : bool := indexedFrom 0 l.

(** The names of the controls of each block. *)
Definition blockNames (l : list item) : list (list (option jsstring)) :=
  map (fun it => map name (fields it)) l.

(** The name of the control has a group of digits between brackets. *)
Definition hasGroup (f : field) : bool :=
  match name f with
  | Some nm => match findIndexGroup nm with Some _ => true | None => false end
  | None => false
  end.

Definition groupedAt (it : item) : bool :=
  forallb (fun f => implb (bracketed f) (hasGroup f)) (fields it).

(** The names of the language blocks after an operation on a page: those
    of the blocks that stay, as they were, and on an addition those of
    the new block, written with its generated key. *)
Definition languageNamesAfter (o : operation) (q : page)
    : list (list (option jsstring)) :=
  let n := length (languages q) in
  match o with
  | AddLanguage =>
      blockNames (languages q)
      ++ [map (fun k => Some (languageFieldName
                                (str "language_" ++ decimal (n + 1)) k))
              ["key"; "name"; "id"; "extension"; "template"]%string]
  | RemoveLanguage k =>
      if Nat.leb n 1 then blockNames (languages q)
      else removeAt k (blockNames (languages q))
  | _ => blockNames (languages q)
  end.

(** *** Sample pages *)

Definition emptyPage : page := mkPage [] [] [] false [] [].

Definition numberAndUrl : field :=
  mkField Input (Some (str "endpoint")) (str "abc") (Some (str "number,url"))
          false false false [].

Definition numberOnly : field :=
  mkField Input (Some (str "max_attempts")) (str "abc") (Some (str "number"))
          false false false [].

Definition urlOnly : field :=
  mkField Input (Some (str "judge0_api_host")) (str "localhost:2358")
          (Some (str "url")) false false false [].

Definition filledBlock (it : item) : item :=
  mkItem (title it)
    (map (fun f => mkField (tag f) (name f)
                     (if isEmpty (value f) then str "42" else value f)
                     (data_validate f) false false false [])
         (fields it)).

(** A page with one filled test case, one filled language, a control
    whose only rule is [number] and one whose only rule is [url]. *)
Definition optionalRulesPage : page :=
  mkPage [numberOnly; urlOnly]
         [filledBlock (createTestCaseHtml (str "test_1") 1)]
         [filledBlock (createLanguageHtml (str "python") 1)]
         true [] [].

(** *** The remaining operations of the form *)

(** The button that shows or hides the API key, with the [input] beside
    it: the [type] attribute of the input, the classes [fa-eye] and
    [fa-eye-slash] of the icon of the button, the [title] of the button. *)
Record apiKeyControl := mkApiKey {
  inputType : option jsstring;
  fa_eye : bool;
  fa_eye_slash : bool;
  buttonTitle : option jsstring
}.

Definition toggleApiKeyVisibility (c : apiKeyControl) : apiKeyControl :=
  if match inputType c with
     | Some t => streq t (str "password")
     | None => false
     end
  then mkApiKey (Some (str "text")) false true (Some (str "Hide API key"))
  else mkApiKey (Some (str "password")) true false
                (Some (str "Show API key")).

(** [initializeValidation]: [validateField] on every control that has a
    [data-validate] attribute. *)
Definition validateDeclared (f : field) : field :=
  match data_validate f with
  | Some _ => fst (validateField f)
  | None => f
  end.

Definition initializeValidation (p : page) : page :=
  mkPage (map validateDeclared (otherFields p))
         (map (fun it => mkItem (title it) (map validateDeclared (fields it)))
              (testCases p))
         (map (fun it => mkItem (title it) (map validateDeclared (fields it)))
              (languages p))
         (saveDisabled p) (validationMessages p) (notifications p).

(** *** Notions the further properties of the form are stated with *)

(** No rule of the control fails. *)
Definition passes (f : field) : bool :=
  match failingRules f with [] => true | _ => false end.

(** What [validateForm] does to a control. *)
Definition revalidate (f : field) : field :=
  if selectsRequired f then fst (validateField f) else f.

Definition revalidateItem (it : item) : item :=
  mkItem (title it) (map revalidate (fields it)).

(** The values of the controls of each block. *)
Definition blockValues (l : list item) : list (list jsstring) :=
  map (fun it => map value (fields it)) l.

(** The titles [prefix 1], [prefix 2], ... of [n] blocks. *)
Definition numberedTitles (prefix : string) (n : nat) : list jsstring :=
  map (fun i => str prefix ++ decimal (i + 1)) (seq 0 n).

Definition titlesNumbered (p : page) : Prop :=
  map title (testCases p)
  = numberedTitles "Test Case " (length (testCases p))
  /\ map title (languages p)
     = numberedTitles "Programming Language " (length (languages p)).

(** The number of blocks of a group after an operation on a group of [n]
    blocks: [add] and [remove] are the operations of that group. *)
Definition countAfter (isAdd : bool) (k n : nat) : nat :=
  if isAdd then S n
  else if Nat.leb n 1 then n
  else if Nat.ltb k n then n - 1 else n.

Definition testCaseCountAfter (o : operation) (n : nat) : nat :=
  match o with
  | AddTestCase => countAfter true 0 n
  | RemoveTestCase k => countAfter false k n
  | _ => n
  end.

Definition languageCountAfter (o : operation) (n : nat) : nat :=
  match o with
  | AddLanguage => countAfter true 0 n
  | RemoveLanguage k => countAfter false k n
  | _ => n
  end.

(** The values of the controls of a group after an operation of that
    group ([added] holds the values of a new block). *)
Definition valuesAfter (isAdd : bool) (k : nat) (added : list jsstring)
    (vs : list (list jsstring)) : list (list jsstring) :=
  if isAdd then vs ++ [added]
  else if Nat.leb (length vs) 1 then vs
  else removeAt k vs.

(** A control that passed, marked [success], whose value was then
    emptied. *)
Definition emptiedAfterSuccess : field :=
  mkField Input (Some (str "display_name")) (str "  ") (Some (str "required"))
          false false true [].

Definition hiddenApiKey : apiKeyControl :=
  mkApiKey (Some (str "password")) true false None.

End Studio.
(** ** The student workspace *)

Module Workspace.
Import JS.

(** *** Objects used as maps

    An object whose properties are keyed by file name or by language is a
    list of its own properties in creation order; its keys are distinct.
    Its prototype is [Object.prototype], as the language defines it. *)

(** The names of the properties of [Object.prototype]. *)
Definition prototypeKeys : list jsstring :=
  map str
    ["constructor"; "__defineGetter__"; "__defineSetter__";
     "hasOwnProperty"; "__lookupGetter__"; "__lookupSetter__";
     "isPrototypeOf"; "propertyIsEnumerable"; "toString"; "valueOf";
     "__proto__"; "toLocaleString"]%string.

(** What [o[k]] yields: the value of an own property, a member of
    [Object.prototype] (a function, or the prototype itself: truthy, and
    without the properties of a file or of a language), or [undefined]. *)
Inductive property (V : Type) : Type :=
| Own (v : V)
| Inherited
| Absent.
Arguments Inherited {V}.
Arguments Absent {V}.

Section Properties.
Variable V : Type.

Fixpoint getOwnProperty (k : jsstring) (o : list (jsstring * V)) : option V :=
  match o with
  | [] => None
  | (k', v) :: t => if streq k k' then Some v else getOwnProperty k t
  end.

(** [o[k]]. *)
Definition getProperty (k : jsstring) (o : list (jsstring * V)) : property V :=
  match getOwnProperty k o with
  | Some v => Own v
  | None => if arrayIncludes prototypeKeys k then Inherited else Absent
  end.

(** [o[k] = v] defines or updates an own property, unless [k] is
    [__proto__] and no own property has that name: the assignment then
    reaches the accessor of [Object.prototype], which replaces the
    prototype of [o]. *)
Definition assignable (k : jsstring) (o : list (jsstring * V)) : bool :=
  negb (streq k (str "__proto__"))
  || match getOwnProperty k o with Some _ => true | None => false end.

(** [o[k] = v] for an assignable [k]: an existing property keeps its
    place, a new one is last. *)
Fixpoint setProperty (k : jsstring) (v : V) (o : list (jsstring * V))
    : list (jsstring * V) :=
  match o with
  | [] => [(k, v)]
  | (k', v') :: t =>
      if streq k k' then (k, v) :: t else (k', v') :: setProperty k v t
  end.

(** [delete o[k]]. *)
Definition deleteProperty (k : jsstring) (o : list (jsstring * V))
    : list (jsstring * V) :=
  filter (fun kv => negb (streq k (fst kv))) o.

(** The array index a property key denotes, when it is the canonical
    numeral of an integer below 2^32 - 1. *)
Definition arrayIndex (k : jsstring) : option N :=
  match k with
  | [] => None
  | c :: t =>
      if forallb isDigit k && (negb (N.eqb c 48) || isEmpty t) then
        let v := fold_left (fun a d => a * 10 + (d - 48))%N k 0%N in
        if N.ltb v 4294967295 then Some v else None
      else None
  end.

Fixpoint insertIndex (n : N) (k : jsstring) (l : list (N * jsstring))
    : list (N * jsstring) :=
  match l with
  | [] => [(n, k)]
  | (m, k') :: t =>
      if N.ltb n m then (n, k) :: l else (m, k') :: insertIndex n k t
  end.

Fixpoint indexKeys (ks : list jsstring) : list (N * jsstring) :=
  match ks with
  | [] => []
  | k :: t =>
      match arrayIndex k with
      | Some n => insertIndex n k (indexKeys t)
      | None => indexKeys t
      end
  end.

(** [Object.keys(o)]: the array indices in ascending order, then the other
    keys in creation order. *)
Definition Object_keys (o : list (jsstring * V)) : list jsstring :=
  let ks := map fst o in
  map snd (indexKeys ks)
  ++ filter (fun k => match arrayIndex k with Some _ => false | None => true end)
            ks.

End Properties.

(** *** Data *)

(** A file of the workspace; [{}] is the file without properties. *)
Record fileData := mkFile {
  content : option jsstring;
  language : option jsstring;
  created_at : option jsstring;
  modified_at : option jsstring
}.

(** A supported language, of which the workspace reads the template. *)
Record langConfig := mkLang {
  template : jsstring
}.

(** A [.file-tab] element: its [data-filename] and [data-language]
    attributes, its classes [active] and [modified], the text of its
    [.tab-name] and the [data-filename] of its close button, if any.  The
    tabs and their close buttons are the elements of the workspace that
    have a [data-filename] attribute. *)
Record tab := mkTab {
  data_filename : jsstring;
  data_language : jsstring;
  active : bool;
  modified : bool;
  tab_name : jsstring;
  tab_close : option jsstring
}.

(** The editor: the Monaco model with its text and language, or the
    fall-back [textarea], or none. *)
Inductive editorWidget :=
| Monaco (value modelLanguage : jsstring)
| FallbackEditor (value : jsstring)
| NoEditor.

(** The workspace: the fields of [AdvancedCodingXBlock] followed by the
    parts of the page it reads and writes; the elements the script looks
    up by id are present.  [languageSelect] is the value last assigned to
    the language selector.  [buttons] holds the [disabled] property of
    each of the run, run-with-input and submit buttons; [outputTabs] and
    [outputContents] hold the [data-tab] ([data-content]) attribute and
    the class [active] of each element; [consoleOutput], [testSummary]
    and [testResults] hold the markup last assigned to [innerHTML];
    [currentScoreEl] the text of the [.current-score] element, if the
    page has one; [notifications] the class and text of each notification
    added.  Timers are left out: a notification stays, and the delayed
    and the periodic save are events of their own. *)
Record state := mkState {
  studentFiles : list (jsstring * fileData);
  supportedLanguages : list (jsstring * langConfig);
  currentLanguage : option jsstring;
  activeFile : jsstring;
  editor : editorWidget;
  isExecuting : bool;
  currentModal : option jsstring;
  fileTabs : list tab;
  languageSelect : option jsstring;
  filenameInput : jsstring;
  modalLanguageSelect : jsstring;
  modalLanguageDisabled : bool;
  modalDisplay : jsstring;
  loadingDisplay : jsstring;
  buttons : list bool;
  outputTabs : list (jsstring * bool);
  outputContents : list (jsstring * bool);
  consoleOutput : jsstring;
  testSummary : jsstring;
  testResults : jsstring;
  currentScoreEl : option jsstring;
  notifications : list (jsstring * jsstring)
}.

(** Assignment to one component of the state. *)
Definition set_studentFiles (v : list (jsstring * fileData)) (s : state) : state :=
  mkState v (supportedLanguages s) (currentLanguage s) (activeFile s)
    (editor s) (isExecuting s) (currentModal s) (fileTabs s)
    (languageSelect s) (filenameInput s) (modalLanguageSelect s)
    (modalLanguageDisabled s) (modalDisplay s) (loadingDisplay s) (buttons
    s) (outputTabs s) (outputContents s) (consoleOutput s) (testSummary s)
    (testResults s) (currentScoreEl s) (notifications s).

Definition set_currentLanguage (v : option jsstring) (s : state) : state :=
  mkState (studentFiles s) (supportedLanguages s) v (activeFile s) (editor
    s) (isExecuting s) (currentModal s) (fileTabs s) (languageSelect s)
    (filenameInput s) (modalLanguageSelect s) (modalLanguageDisabled s)
    (modalDisplay s) (loadingDisplay s) (buttons s) (outputTabs s)
    (outputContents s) (consoleOutput s) (testSummary s) (testResults s)
    (currentScoreEl s) (notifications s).

Definition set_activeFile (v : jsstring) (s : state) : state :=
  mkState (studentFiles s) (supportedLanguages s) (currentLanguage s) v
    (editor s) (isExecuting s) (currentModal s) (fileTabs s)
    (languageSelect s) (filenameInput s) (modalLanguageSelect s)
    (modalLanguageDisabled s) (modalDisplay s) (loadingDisplay s) (buttons
    s) (outputTabs s) (outputContents s) (consoleOutput s) (testSummary s)
    (testResults s) (currentScoreEl s) (notifications s).

Definition set_editor (v : editorWidget) (s : state) : state :=
  mkState (studentFiles s) (supportedLanguages s) (currentLanguage s)
    (activeFile s) v (isExecuting s) (currentModal s) (fileTabs s)
    (languageSelect s) (filenameInput s) (modalLanguageSelect s)
    (modalLanguageDisabled s) (modalDisplay s) (loadingDisplay s) (buttons
    s) (outputTabs s) (outputContents s) (consoleOutput s) (testSummary s)
    (testResults s) (currentScoreEl s) (notifications s).

Definition set_isExecuting (v : bool) (s : state) : state :=
  mkState (studentFiles s) (supportedLanguages s) (currentLanguage s)
    (activeFile s) (editor s) v (currentModal s) (fileTabs s)
    (languageSelect s) (filenameInput s) (modalLanguageSelect s)
    (modalLanguageDisabled s) (modalDisplay s) (loadingDisplay s) (buttons
    s) (outputTabs s) (outputContents s) (consoleOutput s) (testSummary s)
    (testResults s) (currentScoreEl s) (notifications s).

Definition set_currentModal (v : option jsstring) (s : state) : state :=
  mkState (studentFiles s) (supportedLanguages s) (currentLanguage s)
    (activeFile s) (editor s) (isExecuting s) v (fileTabs s)
    (languageSelect s) (filenameInput s) (modalLanguageSelect s)
    (modalLanguageDisabled s) (modalDisplay s) (loadingDisplay s) (buttons
    s) (outputTabs s) (outputContents s) (consoleOutput s) (testSummary s)
    (testResults s) (currentScoreEl s) (notifications s).

Definition set_fileTabs (v : list tab) (s : state) : state :=
  mkState (studentFiles s) (supportedLanguages s) (currentLanguage s)
    (activeFile s) (editor s) (isExecuting s) (currentModal s) v
    (languageSelect s) (filenameInput s) (modalLanguageSelect s)
    (modalLanguageDisabled s) (modalDisplay s) (loadingDisplay s) (buttons
    s) (outputTabs s) (outputContents s) (consoleOutput s) (testSummary s)
    (testResults s) (currentScoreEl s) (notifications s).

Definition set_languageSelect (v : option jsstring) (s : state) : state :=
  mkState (studentFiles s) (supportedLanguages s) (currentLanguage s)
    (activeFile s) (editor s) (isExecuting s) (currentModal s) (fileTabs
    s) v (filenameInput s) (modalLanguageSelect s) (modalLanguageDisabled
    s) (modalDisplay s) (loadingDisplay s) (buttons s) (outputTabs s)
    (outputContents s) (consoleOutput s) (testSummary s) (testResults s)
    (currentScoreEl s) (notifications s).

Definition set_modalLanguageDisabled (v : bool) (s : state) : state :=
  mkState (studentFiles s) (supportedLanguages s) (currentLanguage s)
    (activeFile s) (editor s) (isExecuting s) (currentModal s) (fileTabs
    s) (languageSelect s) (filenameInput s) (modalLanguageSelect s) v
    (modalDisplay s) (loadingDisplay s) (buttons s) (outputTabs s)
    (outputContents s) (consoleOutput s) (testSummary s) (testResults s)
    (currentScoreEl s) (notifications s).

Definition set_modalDisplay (v : jsstring) (s : state) : state :=
  mkState (studentFiles s) (supportedLanguages s) (currentLanguage s)
    (activeFile s) (editor s) (isExecuting s) (currentModal s) (fileTabs
    s) (languageSelect s) (filenameInput s) (modalLanguageSelect s)
    (modalLanguageDisabled s) v (loadingDisplay s) (buttons s) (outputTabs
    s) (outputContents s) (consoleOutput s) (testSummary s) (testResults
    s) (currentScoreEl s) (notifications s).

Definition set_loadingDisplay (v : jsstring) (s : state) : state :=
  mkState (studentFiles s) (supportedLanguages s) (currentLanguage s)
    (activeFile s) (editor s) (isExecuting s) (currentModal s) (fileTabs
    s) (languageSelect s) (filenameInput s) (modalLanguageSelect s)
    (modalLanguageDisabled s) (modalDisplay s) v (buttons s) (outputTabs
    s) (outputContents s) (consoleOutput s) (testSummary s) (testResults
    s) (currentScoreEl s) (notifications s).

Definition set_buttons (v : list bool) (s : state) : state :=
  mkState (studentFiles s) (supportedLanguages s) (currentLanguage s)
    (activeFile s) (editor s) (isExecuting s) (currentModal s) (fileTabs
    s) (languageSelect s) (filenameInput s) (modalLanguageSelect s)
    (modalLanguageDisabled s) (modalDisplay s) (loadingDisplay s) v
    (outputTabs s) (outputContents s) (consoleOutput s) (testSummary s)
    (testResults s) (currentScoreEl s) (notifications s).

Definition set_outputTabs (v : list (jsstring * bool)) (s : state) : state :=
  mkState (studentFiles s) (supportedLanguages s) (currentLanguage s)
    (activeFile s) (editor s) (isExecuting s) (currentModal s) (fileTabs
    s) (languageSelect s) (filenameInput s) (modalLanguageSelect s)
    (modalLanguageDisabled s) (modalDisplay s) (loadingDisplay s) (buttons
    s) v (outputContents s) (consoleOutput s) (testSummary s) (testResults
    s) (currentScoreEl s) (notifications s).

Definition set_outputContents (v : list (jsstring * bool)) (s : state) : state :=
  mkState (studentFiles s) (supportedLanguages s) (currentLanguage s)
    (activeFile s) (editor s) (isExecuting s) (currentModal s) (fileTabs
    s) (languageSelect s) (filenameInput s) (modalLanguageSelect s)
    (modalLanguageDisabled s) (modalDisplay s) (loadingDisplay s) (buttons
    s) (outputTabs s) v (consoleOutput s) (testSummary s) (testResults s)
    (currentScoreEl s) (notifications s).

Definition set_consoleOutput (v : jsstring) (s : state) : state :=
  mkState (studentFiles s) (supportedLanguages s) (currentLanguage s)
    (activeFile s) (editor s) (isExecuting s) (currentModal s) (fileTabs
    s) (languageSelect s) (filenameInput s) (modalLanguageSelect s)
    (modalLanguageDisabled s) (modalDisplay s) (loadingDisplay s) (buttons
    s) (outputTabs s) (outputContents s) v (testSummary s) (testResults s)
    (currentScoreEl s) (notifications s).

Definition set_testSummary (v : jsstring) (s : state) : state :=
  mkState (studentFiles s) (supportedLanguages s) (currentLanguage s)
    (activeFile s) (editor s) (isExecuting s) (currentModal s) (fileTabs
    s) (languageSelect s) (filenameInput s) (modalLanguageSelect s)
    (modalLanguageDisabled s) (modalDisplay s) (loadingDisplay s) (buttons
    s) (outputTabs s) (outputContents s) (consoleOutput s) v (testResults
    s) (currentScoreEl s) (notifications s).

Definition set_testResults (v : jsstring) (s : state) : state :=
  mkState (studentFiles s) (supportedLanguages s) (currentLanguage s)
    (activeFile s) (editor s) (isExecuting s) (currentModal s) (fileTabs
    s) (languageSelect s) (filenameInput s) (modalLanguageSelect s)
    (modalLanguageDisabled s) (modalDisplay s) (loadingDisplay s) (buttons
    s) (outputTabs s) (outputContents s) (consoleOutput s) (testSummary s)
    v (currentScoreEl s) (notifications s).

Definition set_currentScoreEl (v : option jsstring) (s : state) : state :=
  mkState (studentFiles s) (supportedLanguages s) (currentLanguage s)
    (activeFile s) (editor s) (isExecuting s) (currentModal s) (fileTabs
    s) (languageSelect s) (filenameInput s) (modalLanguageSelect s)
    (modalLanguageDisabled s) (modalDisplay s) (loadingDisplay s) (buttons
    s) (outputTabs s) (outputContents s) (consoleOutput s) (testSummary s)
    (testResults s) v (notifications s).

Definition set_notifications (v : list (jsstring * jsstring)) (s : state) : state :=
  mkState (studentFiles s) (supportedLanguages s) (currentLanguage s)
    (activeFile s) (editor s) (isExecuting s) (currentModal s) (fileTabs
    s) (languageSelect s) (filenameInput s) (modalLanguageSelect s)
    (modalLanguageDisabled s) (modalDisplay s) (loadingDisplay s) (buttons
    s) (outputTabs s) (outputContents s) (consoleOutput s) (testSummary s)
    (testResults s) (currentScoreEl s) v.
(** *** Requests, responses and effects *)

Inductive request :=
| save_file (filename content : jsstring) (language : option jsstring)
| delete_file (filename : jsstring)
| run_code (filename input : jsstring)
| rename_file (old_filename new_filename : jsstring)
| submit_solution (main_file : jsstring).

(** The closures passed to [then] and [catch] at a call, with the
    variables they capture. *)
Inductive continuation :=
| SaveThen (content : jsstring)
| CreateThen (filename content language : jsstring)
| DeleteThen (filename : jsstring)
| RunThen
| RunWithInputThen
| RenameThen (newFilename : jsstring)
| SubmitThen.

Inductive effect :=
| Confirm (message : jsstring)
| CallHandler (r : request) (k : continuation)
| ConsoleError (message : jsstring).

Record testResult := mkTest {
  name : jsval;
  passed : jsval;
  points : jsval;
  earned_points : jsval;
  is_public : jsval;
  expected_output : jsval;
  actual_output : jsval
}.

(** The object a handler responds with.  [status] is the [description]
    of the status object when there is one; [test_results] the array when
    there is one. *)
Record response := mkResponse {
  success : jsval;
  error : jsval;
  message : jsval;
  output : jsval;
  compile_output : jsval;
  status : option jsval;
  time : jsval;
  memory : jsval;
  score : jsval;
  max_score : jsval;
  passed_tests : jsval;
  total_tests : jsval;
  test_results : option (list testResult)
}.

(** How a call settles: with a response, or rejected (transport failure
    or a body that is not JSON). *)
Inductive outcome :=
| Fulfilled (r : response)
| Rejected.

(** *** Operations

    An operation transforms the state and emits effects.  It returns, or
    it throws; where what it does is decided by a part of the browser
    that the embedding does not read (a selector or a markup that a name
    does not fit in as it stands, a member of [Object.prototype] used as
    a file or as a language), the operation stops as [Unmodelled] and
    nothing is said about it. *)

Inductive exn := TypeError | SyntaxError.

Inductive completion (A : Type) : Type :=
| Normal (a : A)
| Throw (e : exn)
| Unmodelled.
Arguments Throw {A} e.
Arguments Unmodelled {A}.

Definition action (A : Type) : Type :=
  state -> completion A * state * list effect.

Definition ret {A : Type} (a : A) : action A := fun s => (Normal a, s, []).

Definition bind {A B : Type} (m : action A) (f : A -> action B) : action B :=
  fun s =>
    match m s with
    | (Normal a, s1, e1) =>
        match f a s1 with
        | (c, s2, e2) => (c, s2, e1 ++ e2)
        end
    | (Throw x, s1, e1) => (Throw x, s1, e1)
    | (Unmodelled, s1, e1) => (Unmodelled, s1, e1)
    end.

Definition get : action state := fun s => (Normal s, s, []).
Definition modify (f : state -> state) : action unit :=
  fun s => (Normal tt, f s, []).
Definition emit (e : effect) : action unit := fun s => (Normal tt, s, [e]).
Definition throw {A : Type} (e : exn) : action A := fun s => (Throw e, s, []).
Definition unmodelled {A : Type} : action A := fun s => (Unmodelled, s, []).

(** [try { m } catch (e) { handler }]. *)
Definition tryCatch {A : Type} (m : action A) (handler : action A)
    : action A :=
  fun s =>
    match m s with
    | (Throw _, s1, e1) =>
        match handler s1 with
        | (c, s2, e2) => (c, s2, e1 ++ e2)
        end
    | r => r
    end.

Definition completionOf {A : Type} (r : completion A * state * list effect)
    : completion A := fst (fst r).
Definition stateAfter {A : Type} (r : A * state * list effect) : state :=
  snd (fst r).
Definition effectsOf {A : Type} (r : A * state * list effect) : list effect :=
  snd r.

Declare Scope action_scope.
Delimit Scope action_scope with action.
Notation "x <- m ;; k" := (bind m (fun x => k))
  (at level 61, m at next level, right associativity) : action_scope.
Notation "m ;; k" := (bind m (fun _ => k))
  (at level 61, right associativity) : action_scope.
Local Open Scope action_scope.

(** The promise [callHandler] returns is the one of [$.post(...).then(...)],
    a jQuery promise: it has [then] and [catch] and, unlike a native
    promise, no [finally].  [p.then(onFulfilled).catch(onRejected)], once
    [p] is settled: an exception of [onFulfilled] is passed to
    [onRejected]. *)
Definition thenCatch (onFulfilled : response -> action unit)
    (onRejected : action unit) (o : outcome) : action unit :=
  match o with
  | Fulfilled response => tryCatch (onFulfilled response) onRejected
  | Rejected => onRejected
  end.

Definition showNotification (type : string) (message : jsval) : action unit :=
  modify (fun s =>
    set_notifications (notifications s ++ [(str type, textContentOf message)])
                      s).

Definition escapeHtml (text : jsval) : jsstring :=
  serializeText (textContentOf text).

Definition LANGUAGE_MAPPINGS : list (jsstring * jsstring) :=
  map (fun l => (str l, str l))
      ["python"; "java"; "cpp"; "c"; "javascript"; "typescript"; "html";
       "css"; "json"; "xml"; "markdown"]%string.

(** The key a value denotes in [o[v]]. *)
Definition keyOf (v : option jsstring) : jsstring :=
  match v with Some s => s | None => str "undefined" end.

(** [LANGUAGE_MAPPINGS[language] || 'plaintext']; there is no name when
    the key is one of [Object.prototype]. *)
Definition getMonacoLanguage (language : option jsstring) : option jsstring :=
  match getProperty (keyOf language) LANGUAGE_MAPPINGS with
  | Own l => Some (if isEmpty l then str "plaintext" else l)
  | Inherited => None
  | Absent => Some (str "plaintext")
  end.

(** The template of a language; [None] is [undefined], the [template] of
    a member of [Object.prototype]. *)
Definition getTemplateForLanguage (language : option jsstring) (s : state)
    : option jsstring :=
  match getProperty (keyOf language) (supportedLanguages s) with
  | Own langConfig => Some (template langConfig)
  | Inherited => None
  | Absent => Some (str "// Write your code here")
  end.

Definition updateStatusBar : action unit := ret tt.

(** [(this.studentFiles[name] || {}).content || template]. *)
Definition contentOr (fileData : property fileData) (dflt : option jsstring)
    : option jsstring :=
  match fileData with
  | Own f =>
      match content f with
      | Some c => if isEmpty c then dflt else Some c
      | None => dflt
      end
  | _ => dflt
  end.

(** *** Looking up a tab by file name

    The selector is [[data-filename="NAME"]], with the name put between
    the quotes as it is.  CSS reads a name without double quote,
    backslash, line break, NUL and surrogate as the string of the
    selector: the selector then matches the elements whose attribute is
    the name.  Where a double quote of the name is followed by nothing
    but letters, digits, dots, hyphens, underscores and spaces, the
    string ends at that quote and a second string begins where the
    bracket should close: this is no selector and [querySelector] throws
    a SyntaxError.  The other names are not read. *)

Definition literalUnit (c : codeunit) : bool :=
  negb (N.eqb c 34 || N.eqb c 92 || N.eqb c 10 || N.eqb c 12 || N.eqb c 13
        || N.eqb c 0 || (N.leb 55296 c && N.leb c 57343))%N.

Definition isNameUnit (c : codeunit) : bool :=
  isDigit c || (N.leb 65 c && N.leb c 90)%N || (N.leb 97 c && N.leb c 122)%N
  || (N.eqb c 46 || N.eqb c 45 || N.eqb c 95 || N.eqb c 32)%N.

Inductive selectorText := Literal | Malformed | Unread.

Fixpoint readSelector (filename : jsstring) : selectorText :=
  match filename with
  | [] => Literal
  | c :: t =>
      if N.eqb c 34 then
        if forallb isNameUnit t then Malformed else Unread
      else if literalUnit c then readSelector t
      else Unread
  end.

(** The first element, in document order, whose [data-filename] is the
    name: a tab, or the close button of a tab that has another name. *)
Inductive element :=
| TabElement (t : tab)
| CloseButton (t : tab).

Definition closeNamed (filename : jsstring) (t : tab) : bool :=
  match tab_close t with
  | Some n => streq n filename
  | None => false
  end.

Fixpoint firstWithFilename (filename : jsstring) (l : list tab)
    : option element :=
  match l with
  | [] => None
  | t :: r =>
      if streq (data_filename t) filename then Some (TabElement t)
      else if closeNamed filename t then Some (CloseButton t)
      else firstWithFilename filename r
  end.

(** [this.element.querySelector(`[data-filename="${filename}"]`)], for
    the functions that use the element as a tab; what they do to a close
    button is not modelled. *)
Definition querySelector (filename : jsstring) : action (option tab) :=
  s <- get ;;
  match readSelector filename with
  | Literal =>
      match firstWithFilename filename (fileTabs s) with
      | Some (TabElement t) => ret (Some t)
      | Some (CloseButton _) => unmodelled
      | None => ret None
      end
  | Malformed => throw SyntaxError
  | Unread => unmodelled
  end.

(** The first tab of a name, updated or removed. *)
Fixpoint updateFirst (filename : jsstring) (f : tab -> tab) (l : list tab)
    : list tab :=
  match l with
  | [] => []
  | t :: r =>
      if streq (data_filename t) filename then f t :: r
      else t :: updateFirst filename f r
  end.

Fixpoint removeFirst (filename : jsstring) (l : list tab) : list tab :=
  match l with
  | [] => []
  | t :: r =>
      if streq (data_filename t) filename then r
      else t :: removeFirst filename r
  end.

Definition markFileAsModified (filename : jsstring) : action unit :=
  tab <- querySelector filename ;;
  match tab with
  | Some t =>
      if negb (modified t) then
        modify (fun s =>
          set_fileTabs
            (updateFirst filename
               (fun t =>
                  mkTab (data_filename t) (data_language t) (active t) true
                        (if negb (includes (tab_name t) (str "*"))
                         then tab_name t ++ str "*" else tab_name t)
                        (tab_close t))
               (fileTabs s)) s)
      else ret tt
  | None => ret tt
  end.

Definition onEditorContentChange : action unit :=
  s <- get ;;
  (* Mark file as modified *)
  markFileAsModified (activeFile s).

Definition removeModifiedMark (filename : jsstring) : action unit :=
  tab <- querySelector filename ;;
  match tab with
  | Some t =>
      if modified t then
        modify (fun s =>
          set_fileTabs
            (updateFirst filename
               (fun t =>
                  mkTab (data_filename t) (data_language t) (active t) false
                        (if includes (tab_name t) (str "*")
                         then replaceFirst (str "*") [] (tab_name t)
                         else tab_name t)
                        (tab_close t))
               (fileTabs s)) s)
      else ret tt
  | None => ret tt
  end.

(** [model.setValue] raises the content-change notification of the
    editor: the listener registered at start-up runs before [setValue]
    returns.  What the editor does with an exception of a listener is
    not modelled. *)
Definition notifyListener (listener : action unit) : action unit :=
  fun s =>
    match listener s with
    | (Throw _, s1, e1) => (Unmodelled, s1, e1)
    | r => r
    end.

Definition loadActiveFile : action unit :=
  s <- get ;;
  let fileData := getProperty (activeFile s) (studentFiles s) in
  let content :=
    contentOr fileData (getTemplateForLanguage (currentLanguage s) s) in
  match editor s with
  | Monaco _ modelLanguage =>
      match content, getMonacoLanguage (currentLanguage s) with
      | Some content, Some language =>
          (* Update model content *)
          modify (set_editor (Monaco content modelLanguage)) ;;
          notifyListener onEditorContentChange ;;
          (* Update language *)
          modify (set_editor (Monaco content language))
      | _, _ => unmodelled
      end
  | FallbackEditor _ =>
      modify (set_editor
                (FallbackEditor (match content with
                                 | Some content => content
                                 | None => str "undefined"
                                 end)))
  | NoEditor => ret tt
  end ;;
  updateStatusBar.

Definition getCurrentEditorContent (s : state) : jsstring :=
  match editor s with
  | Monaco value _ => value
  | FallbackEditor value => value
  | NoEditor => []
  end.

Definition saveCurrentFile : action unit :=
  s <- get ;;
  let content := getCurrentEditorContent s in
  emit (CallHandler (save_file (activeFile s) content (currentLanguage s))
                    (SaveThen content)).

(** [now] is the time stamp [new Date().toISOString()] yields.  Under a
    name of [Object.prototype] that is no file, the assignments reach the
    member of the prototype. *)
Definition updateStudentFiles (filename content now : jsstring)
    : action unit :=
  s <- get ;;
  match getProperty filename (studentFiles s) with
  | Own f =>
      modify (set_studentFiles
                (setProperty filename
                   (mkFile (Some content) (currentLanguage s) (created_at f)
                           (Some now))
                   (studentFiles s)))
  | Absent =>
      modify (set_studentFiles
                (setProperty filename
                   (mkFile (Some content) (currentLanguage s) None (Some now))
                   (studentFiles s)))
  | Inherited => unmodelled
  end.

Definition updateFileTabsUI : action unit :=
  modify (fun s =>
    set_fileTabs
      (map (fun t =>
              mkTab (data_filename t) (data_language t)
                    (streq (data_filename t) (activeFile s)) (modified t)
                    (tab_name t) (tab_close t))
           (fileTabs s)) s).

Definition updateLanguageSelector : action unit :=
  modify (fun s => set_languageSelect (currentLanguage s) s).

Definition switchToFile (filename : jsstring) (language : option jsstring)
    : action unit :=
  s <- get ;;
  if streq (activeFile s) filename then ret tt
  else
    (* Save current file before switching *)
    saveCurrentFile ;;
    (* Update active file *)
    modify (set_activeFile filename) ;;
    modify (set_currentLanguage language) ;;
    (* Update editor content and language *)
    loadActiveFile ;;
    updateFileTabsUI ;;
    updateLanguageSelector.

Definition hideModal : action unit :=
  modify (set_modalDisplay (str "none")) ;;
  modify (set_modalLanguageDisabled false) ;;
  modify (set_currentModal None).

(** The value of an attribute written between double quotes in a markup
    is the text as it stands when the text has no double quote, no
    ampersand, no NUL and no carriage return. *)
Definition attributeSafe (v : jsstring) : bool :=
  forallb (fun c => negb (N.eqb c 34 || N.eqb c 38 || N.eqb c 0
                          || N.eqb c 13)%N) v.

(** The tab the inserted markup denotes.  The name and the language are
    put in the attributes as they are; the markup of other names is not
    read. *)
Definition addFileTab (filename language : jsstring) : action unit :=
  s <- get ;;
  let closeButton :=
    if Nat.ltb 0 (length (Object_keys (studentFiles s)))
    then Some filename else None in
  if attributeSafe filename && attributeSafe language then
    modify (set_fileTabs
              (fileTabs s
               ++ [mkTab filename language false false filename closeButton]))
  else unmodelled.

Definition removeFileTab (filename : jsstring) : action unit :=
  tab <- querySelector filename ;;
  match tab with
  | Some _ =>
      modify (fun s => set_fileTabs (removeFirst filename (fileTabs s)) s)
  | None => ret tt
  end.

Definition updateFileTab (oldFilename newFilename : jsstring) : action unit :=
  tab <- querySelector oldFilename ;;
  match tab with
  | Some _ =>
      modify (fun s =>
        set_fileTabs
          (updateFirst oldFilename
             (fun t => mkTab newFilename (data_language t) (active t)
                             (modified t) newFilename
                             (match tab_close t with
                              | Some _ => Some newFilename
                              | None => None
                              end))
             (fileTabs s)) s)
  | None => ret tt
  end.

Definition createNewFile : action unit :=
  s <- get ;;
  let filename := trim (filenameInput s) in
  let language := modalLanguageSelect s in
  if isEmpty filename then
    showNotification "error" (JStr (str "File name is required"))
  else
    match getProperty filename (studentFiles s) with
    | Absent =>
        match getTemplateForLanguage (Some language) s with
        | Some content =>
            emit (CallHandler (save_file filename content (Some language))
                              (CreateThen filename content language))
        | None => unmodelled
        end
    | _ => showNotification "error" (JStr (str "File already exists"))
    end.

Definition renameCurrentFile : action unit :=
  s <- get ;;
  let newFilename := trim (filenameInput s) in
  if isEmpty newFilename then
    showNotification "error" (JStr (str "File name is required"))
  else if streq newFilename (activeFile s) then
    hideModal
  else
    match getProperty newFilename (studentFiles s) with
    | Absent =>
        emit (CallHandler (rename_file (activeFile s) newFilename)
                          (RenameThen newFilename))
    | _ =>
        showNotification "error"
          (JStr (str "File with that name already exists"))
    end.

(** [answer] is what the user replies to a confirmation prompt. *)
Definition deleteFile (filename : jsstring) (answer : jsstring -> bool)
    : action unit :=
  s <- get ;;
  if Nat.leb (length (Object_keys (studentFiles s))) 1 then
    showNotification "error" (JStr (str "Cannot delete the last file"))
  else
    let prompt :=
      str "Are you sure you want to delete '" ++ filename ++ str "'?" in
    emit (Confirm prompt) ;;
    if negb (answer prompt) then ret tt
    else emit (CallHandler (delete_file filename) (DeleteThen filename)).

Definition changeLanguage (newLanguage : jsstring) : action unit :=
  s <- get ;;
  if match currentLanguage s with
     | Some l => streq l newLanguage
     | None => false
     end
  then ret tt
  else
    modify (set_currentLanguage (Some newLanguage)) ;;
    (* Update editor language *)
    match editor s with
    | Monaco value _ =>
        match getMonacoLanguage (Some newLanguage) with
        | Some monacoLanguage =>
            modify (set_editor (Monaco value monacoLanguage))
        | None => unmodelled
        end
    | _ => ret tt
    end ;;
    (* Update current file's language *)
    match getProperty (activeFile s) (studentFiles s) with
    | Own f =>
        modify (set_studentFiles
                  (setProperty (activeFile s)
                     (mkFile (content f) (Some newLanguage) (created_at f)
                             (modified_at f))
                     (studentFiles s)))
    | Inherited => unmodelled
    | Absent => ret tt
    end ;;
    (* Update tab display *)
    tab <- querySelector (activeFile s) ;;
    match tab with
    | Some _ =>
        modify (fun s =>
          set_fileTabs
            (updateFirst (activeFile s)
               (fun t => mkTab (data_filename t) newLanguage (active t)
                               (modified t) (tab_name t) (tab_close t))
               (fileTabs s)) s)
    | None => ret tt
    end ;;
    (* Save the change *)
    saveCurrentFile.

Definition setExecutionState (executing : bool) : action unit :=
  modify (set_isExecuting executing) ;;
  if executing then
    modify (set_loadingDisplay (str "flex")) ;;
    modify (fun s => set_buttons (map (fun _ => true) (buttons s)) s)
  else
    modify (set_loadingDisplay (str "none")) ;;
    modify (fun s => set_buttons (map (fun _ => false) (buttons s)) s).

Definition switchOutputTab (tabName : jsstring) : action unit :=
  modify (fun s =>
    set_outputTabs
      (map (fun t => (fst t, streq (fst t) tabName)) (outputTabs s)) s) ;;
  modify (fun s =>
    set_outputContents
      (map (fun c => (fst c, streq (fst c) tabName)) (outputContents s)) s).

(** The call is issued and its [then] and [catch] closures are attached;
    [finally] is no function of the promise, and calling it throws. *)
Definition runCode : action unit :=
  s <- get ;;
  if isExecuting s then ret tt
  else
    setExecutionState true ;;
    switchOutputTab (str "console") ;;
    s <- get ;;
    emit (CallHandler (run_code (activeFile s) []) RunThen) ;;
    throw TypeError.

(** [customInput] is the value of the custom input field. *)
Definition runCodeWithInput (customInput : jsstring) : action unit :=
  s <- get ;;
  if isExecuting s then ret tt
  else
    setExecutionState true ;;
    switchOutputTab (str "console") ;;
    s <- get ;;
    emit (CallHandler (run_code (activeFile s) customInput)
                      RunWithInputThen) ;;
    throw TypeError.

Definition submitSolution (answer : jsstring -> bool) : action unit :=
  s <- get ;;
  if isExecuting s then ret tt
  else
    let prompt := str "Submit your solution for grading?" in
    emit (Confirm prompt) ;;
    if negb (answer prompt) then ret tt
    else
      setExecutionState true ;;
      switchOutputTab (str "test-results") ;;
      s <- get ;;
      emit (CallHandler (submit_solution (activeFile s)) SubmitThen) ;;
      throw TypeError.

Definition clearConsole : action unit :=
  modify (set_consoleOutput
            (str "<div class=" ++ q "console-message"
             ++ str ">Console cleared.</div>")).

(** *** Rendering of results

    The markup is the string assigned to [innerHTML]. *)

Definition section (body : jsstring) : jsstring :=
  str "<div class=" ++ q "console-section" ++ str ">" ++ body
  ++ nl 20 ++ str "</div>".

Definition labelled (label cls : string) (text : jsstring) : jsstring :=
  section
    (nl 24 ++ str "<div class=" ++ q "console-label" ++ str ">" ++ str label
     ++ str "</div>"
     ++ nl 24 ++ str "<div class=" ++ q cls ++ str ">" ++ text ++ str "</div>").

Definition executionMarkup (response : response) : jsstring :=
  if truthy (success response) then
    let output : jsstring := [] in
    let output :=
      if truthy (compile_output response)
      then output ++ labelled "Compilation:" "output-line"
                       (escapeHtml (compile_output response))
      else output in
    let output :=
      if truthy (Workspace.output response)
      then output ++ labelled "Output:" "success-line"
                       (escapeHtml (Workspace.output response))
      else output ++ section
             (nl 24 ++ str "<div class=" ++ q "console-message"
              ++ str ">No output produced</div>") in
    let output :=
      if truthy (error response)
      then output ++ labelled "Errors:" "error-line"
                       (escapeHtml (error response))
      else output in
    let output :=
      match status response with
      | Some description =>
          output ++ section
            (nl 24 ++ str "<div class=" ++ q "console-info" ++ str ">"
             ++ nl 28 ++ str "Status: "
             ++ ToString (jsOr description (JStr (str "Completed")))
             ++ str " | "
             ++ nl 28 ++ str "Time: "
             ++ ToString (jsOr (time response) (JNum 0)) ++ str "s | "
             ++ nl 28 ++ str "Memory: "
             ++ ToString (jsOr (memory response) (JNum 0)) ++ str "KB"
             ++ nl 24 ++ str "</div>")
      | None => output
      end in
    output
  else
    str "<div class=" ++ q "error-line" ++ str ">"
    ++ escapeHtml (jsOr (error response) (JStr (str "Execution failed")))
    ++ str "</div>".

Definition displayExecutionResult (response : response) : action unit :=
  modify (set_consoleOutput (executionMarkup response)).

Definition displayExecutionError (error : jsval) : action unit :=
  modify (set_consoleOutput
            (str "<div class=" ++ q "error-line" ++ str ">"
             ++ escapeHtml error ++ str "</div>")).

(** The summary, for the number [score] the response holds. *)
Definition summaryMarkup (response : response) (score : number) : jsstring :=
  nl 16 ++ ToString (passed_tests response) ++ str "/"
  ++ ToString (total_tests response) ++ str " tests passed | "
  ++ nl 16 ++ str "Score: " ++ toFixed1 score ++ str "/"
  ++ ToString (max_score response)
  ++ nl 12.

Definition testMarkup (test : testResult) : jsstring :=
  let statusClass := if truthy (passed test) then str "passed"
                     else str "failed" in
  let statusIcon : jsstring := if truthy (passed test) then [10003%N]
                               else [10007%N] in
  let resultsHTML :=
    nl 20 ++ str "<div class=" ++ dq ++ str "test-result-item " ++ statusClass
    ++ dq ++ str ">"
    ++ nl 24 ++ str "<div class=" ++ q "test-result-header" ++ str ">"
    ++ nl 28 ++ str "<div class=" ++ q "test-result-name" ++ str ">"
    ++ escapeHtml (name test) ++ str "</div>"
    ++ nl 28 ++ str "<div class=" ++ dq ++ str "test-result-status "
    ++ statusClass ++ dq ++ str ">"
    ++ nl 32 ++ statusIcon ++ str " "
    ++ (if truthy (passed test) then str "Passed" else str "Failed")
    ++ nl 32 ++ str "<span class=" ++ q "test-result-points" ++ str ">"
    ++ ToString (earned_points test) ++ str "/" ++ ToString (points test)
    ++ str " pts</span>"
    ++ nl 28 ++ str "</div>"
    ++ nl 24 ++ str "</div>"
    ++ nl 16 in
  let resultsHTML :=
    if truthy (is_public test) then
      resultsHTML
      ++ nl 24 ++ str "<div class=" ++ q "test-result-details" ++ str ">"
      ++ nl 28 ++ str "<div class=" ++ q "test-result-output" ++ str ">"
      ++ nl 32 ++ str "<label>Expected Output:</label>"
      ++ nl 32 ++ str "<pre>" ++ escapeHtml (expected_output test)
      ++ str "</pre>"
      ++ nl 28 ++ str "</div>"
      ++ nl 28 ++ str "<div class=" ++ q "test-result-output" ++ str ">"
      ++ nl 32 ++ str "<label>Your Output:</label>"
      ++ nl 32 ++ str "<pre>"
      ++ escapeHtml (jsOr (actual_output test) (JStr []))
      ++ str "</pre>"
      ++ nl 28 ++ str "</div>"
      ++ nl 24 ++ str "</div>"
      ++ nl 20
    else resultsHTML in
  resultsHTML ++ str "</div>".

(** [toFixed] is a function of numbers only, [forEach] of the array
    only: on another score, and without the array, a TypeError is
    thrown. *)
Definition displaySubmissionResult (response : response) : action unit :=
  match numberValue (score response) with
  | Some score =>
      (* Update summary *)
      modify (set_testSummary (summaryMarkup response score)) ;;
      (* Display test results *)
      match test_results response with
      | Some tests => modify (set_testResults (flat_map testMarkup tests))
      | None => throw TypeError
      end
  | None => throw TypeError
  end.

Definition updateScoreDisplay (currentScore : jsval) : action unit :=
  s <- get ;;
  match currentScoreEl s with
  | Some _ =>
      match numberValue currentScore with
      | Some score => modify (set_currentScoreEl (Some (toFixed1 score)))
      | None => throw TypeError
      end
  | None => ret tt
  end.

(** *** Continuations

    [settle k o now] runs what follows the call whose closures are [k],
    settled as [o]; [now i] is the time stamp the [i]-th evaluation of
    [new Date().toISOString()] yields. *)

Definition saveThen (content : jsstring) (now : nat -> jsstring)
    (response : response) : action unit :=
  if truthy (success response) then
    s <- get ;;
    removeModifiedMark (activeFile s) ;;
    updateStudentFiles (activeFile s) content (now 0)
  else
    showNotification "error"
      (jsOr (error response) (JStr (str "Failed to save file"))).

Definition saveCatch : action unit :=
  emit (ConsoleError (str "Save failed:")) ;;
  showNotification "error" (JStr (str "Failed to save file")).

Definition createThen (filename content language : jsstring)
    (now : nat -> jsstring) (response : response) : action unit :=
  if truthy (success response) then
    s <- get ;;
    (if assignable filename (studentFiles s) then
       modify (set_studentFiles
                 (setProperty filename
                    (mkFile (Some content) (Some language) (Some (now 0))
                            (Some (now 1)))
                    (studentFiles s)))
     else unmodelled) ;;
    addFileTab filename language ;;
    switchToFile filename (Some language) ;;
    hideModal ;;
    showNotification "success"
      (JStr (str "File '" ++ filename ++ str "' created successfully"))
  else
    showNotification "error"
      (jsOr (error response) (JStr (str "Failed to create file"))).

Definition createCatch : action unit :=
  emit (ConsoleError (str "Create file failed:")) ;;
  showNotification "error" (JStr (str "Failed to create file")).

(** The value moved is the file of the active name; another value (a
    member of [Object.prototype], or [undefined]) is no file. *)
Definition renameThen (newFilename : jsstring) (response : response)
    : action unit :=
  if truthy (success response) then
    s <- get ;;
    (* Update local data *)
    match getProperty (activeFile s) (studentFiles s) with
    | Own d =>
        if assignable newFilename (studentFiles s) then
          modify (set_studentFiles
                    (deleteProperty (activeFile s)
                       (setProperty newFilename d (studentFiles s))))
        else unmodelled
    | _ => unmodelled
    end ;;
    (* Update UI *)
    updateFileTab (activeFile s) newFilename ;;
    modify (set_activeFile newFilename) ;;
    hideModal ;;
    showNotification "success" (message response)
  else
    showNotification "error"
      (jsOr (error response) (JStr (str "Failed to rename file"))).

Definition renameCatch : action unit :=
  emit (ConsoleError (str "Rename file failed:")) ;;
  showNotification "error" (JStr (str "Failed to rename file")).

Definition deleteThen (filename : jsstring) (response : response)
    : action unit :=
  if truthy (success response) then
    (* Remove from local data *)
    modify (fun s =>
      set_studentFiles (deleteProperty filename (studentFiles s)) s) ;;
    (* Remove tab *)
    removeFileTab filename ;;
    (* Switch to another file if this was active *)
    s <- get ;;
    (if streq (activeFile s) filename then
       let remainingFiles := Object_keys (studentFiles s) in
       match remainingFiles with
       | firstFile :: _ =>
           match getProperty firstFile (studentFiles s) with
           | Own firstFileData =>
               switchToFile firstFile (language firstFileData)
           | Inherited => switchToFile firstFile None
           | Absent => throw TypeError
           end
       | [] => ret tt
       end
     else ret tt) ;;
    showNotification "success" (message response)
  else
    showNotification "error"
      (jsOr (error response) (JStr (str "Failed to delete file"))).

Definition deleteCatch : action unit :=
  emit (ConsoleError (str "Delete file failed:")) ;;
  showNotification "error" (JStr (str "Failed to delete file")).

Definition runCatch : action unit :=
  emit (ConsoleError (str "Run code failed:")) ;;
  displayExecutionError (JStr (str "Failed to execute code")).

Definition runWithInputCatch : action unit :=
  emit (ConsoleError (str "Run code with input failed:")) ;;
  displayExecutionError (JStr (str "Failed to execute code")).

Definition submitThen (response : response) : action unit :=
  if truthy (success response) then
    displaySubmissionResult response ;;
    updateScoreDisplay (score response) ;;
    showNotification "success" (message response)
  else
    showNotification "error"
      (jsOr (error response) (JStr (str "Submission failed"))).

Definition submitCatch : action unit :=
  emit (ConsoleError (str "Submit solution failed:")) ;;
  showNotification "error" (JStr (str "Failed to submit solution")).

Definition settle (k : continuation) (o : outcome) (now : nat -> jsstring)
    : action unit :=
  match k with
  | SaveThen content => thenCatch (saveThen content now) saveCatch o
  | CreateThen filename content language =>
      thenCatch (createThen filename content language now) createCatch o
  | DeleteThen filename => thenCatch (deleteThen filename) deleteCatch o
  | RunThen => thenCatch displayExecutionResult runCatch o
  | RunWithInputThen => thenCatch displayExecutionResult runWithInputCatch o
  | RenameThen newFilename => thenCatch (renameThen newFilename) renameCatch o
  | SubmitThen => thenCatch submitThen submitCatch o
  end.

(** *** Notions the properties of the workspace are stated with *)

(** The call did not succeed: it was rejected, or the response reports a
    failure. *)
Definition failed (o : outcome) : bool :=
  match o with
  | Fulfilled response => negb (truthy (success response))
  | Rejected => true
  end.

Definition isCall (e : effect) : bool :=
  match e with CallHandler _ _ => true | _ => false end.

Definition isConfirm (e : effect) : bool :=
  match e with Confirm _ => true | _ => false end.

(** A list of names without the first occurrence of one of them. *)
Fixpoint withoutFirst (x : jsstring) (l : list jsstring) : list jsstring :=
  match l with
  | [] => []
  | y :: t => if streq y x then t else y :: withoutFirst x t
  end.

(** The order of strings by code units. *)
Fixpoint lexLeb (a b : jsstring) : bool :=
  match a, b with
  | [], _ => true
  | _ :: _, [] => false
  | x :: a', y :: b' => N.ltb x y || (N.eqb x y && lexLeb a' b')
  end.

(** The least of a list of names in that order. *)
Fixpoint lexFirst (l : list jsstring) : option jsstring :=
  match l with
  | [] => None
  | x :: t =>
      match lexFirst t with
      | Some y => Some (if lexLeb x y then x else y)
      | None => Some x
      end
  end.

(** The code unit is written as it is by [escapeHtml]. *)
Definition isPlain (c : codeunit) : bool :=
  negb (N.eqb c 38 || N.eqb c 60 || N.eqb c 62 || N.eqb c 160)%N.

(** The number of opening angle brackets of a markup. *)
Definition tagCount (markup : jsstring) : nat :=
  count_occ N.eq_dec markup 60%N.

(** The number of tags of the templates of [displayExecutionResult] for
    a response without status. *)
Definition templateTags (response : response) : nat :=
  if truthy (success response) then
    (if truthy (compile_output response) then 6 else 0)
    + (if truthy (output response) then 6 else 4)
    + (if truthy (error response) then 6 else 0)
  else 2.

(** The second state is the first with one more notification, of class
    [error]. *)
Definition errorNotified (s s' : state) : Prop :=
  exists text,
    s' = set_notifications (notifications s ++ [(str "error", text)]) s.

(** The first tab of a name. *)
Fixpoint tabNamed (filename : jsstring) (l : list tab) : option tab :=
  match l with
  | [] => None
  | t :: r =>
      if streq (data_filename t) filename then Some t
      else tabNamed filename r
  end.

(** The selector of the name is read as it stands. *)
Definition literalSelector (filename : jsstring) : bool :=
  match readSelector filename with
  | Literal => true
  | _ => false
  end.

(** Every close button carries the name of its tab. *)
Definition tabsAgree (l : list tab) : bool :=
  forallb (fun t => match tab_close t with
                    | Some n => streq n (data_filename t)
                    | None => true
                    end) l.

(** The key is no name of a property of [Object.prototype]. *)
Definition notInherited (k : jsstring) : bool :=
  negb (arrayIncludes prototypeKeys k).

(** The selector of the name of the file is read as it stands, and its
    language is no key of [Object.prototype]. *)
Definition ordinaryFile (kv : jsstring * fileData) : bool :=
  literalSelector (fst kv) && notInherited (keyOf (language (snd kv))).

(** What marking and unmarking do to a tab. *)
Definition marked (t : tab) : tab :=
  if modified t then t
  else mkTab (data_filename t) (data_language t) (active t) true
             (if includes (tab_name t) (str "*") then tab_name t
              else tab_name t ++ str "*")
             (tab_close t).

Definition unmarked (t : tab) : tab :=
  if modified t then
    mkTab (data_filename t) (data_language t) (active t) false
          (replaceFirst (str "*") [] (tab_name t)) (tab_close t)
  else t.

(** The tab with the class [active] set or cleared by its name. *)
Definition activeFor (filename : jsstring) (t : tab) : tab :=
  mkTab (data_filename t) (data_language t)
        (streq (data_filename t) filename) (modified t) (tab_name t)
        (tab_close t).

(** *** Sample states and responses *)

Definition plainTab (filename : string) (isActive : bool) : tab :=
  mkTab (str filename) (str "python") isActive false (str filename)
        (Some (str filename)).

Definition pythonFile (text : string) : fileData :=
  mkFile (Some (str text)) (Some (str "python")) None None.

(** Three files created in the order [c.py], [b.py], [a.py]; [c.py] is
    open in the editor. *)
Definition threeFiles : state :=
  mkState
    [(str "c.py", pythonFile "print('c')");
     (str "b.py", pythonFile "print('b')");
     (str "a.py", pythonFile "print('a')")]
    [(str "python", mkLang (str "# Write your code here"))]
    (Some (str "python")) (str "c.py")
    (Monaco (str "print('c')") (str "python"))
    false None
    [plainTab "c.py" true; plainTab "b.py" false; plainTab "a.py" false]
    (Some (str "python")) [] (str "python") false (str "none") (str "none")
    [false; false; false]
    [(str "console", true); (str "test-results", false)]
    [(str "console", true); (str "test-results", false)]
    [] [] [] (Some (str "0.0")) [].

(** The same workspace with [b.py] made active, its tab marked as
    modified, while a run is in flight. *)
Definition editingB : state :=
  mkState (studentFiles threeFiles) (supportedLanguages threeFiles)
    (Some (str "python")) (str "b.py")
    (Monaco (str "print('b2')") (str "python"))
    true None
    [plainTab "c.py" false;
     mkTab (str "b.py") (str "python") true true (str "b.py*")
           (Some (str "b.py"));
     plainTab "a.py" false]
    (Some (str "python")) (str "  b.py ") (str "python") false (str "flex")
    (str "flex") [true; true; true]
    (outputTabs threeFiles) (outputContents threeFiles) [] [] []
    (Some (str "0.0")) [].

Definition emptyResponse : response :=
  mkResponse JUndefined JUndefined JUndefined JUndefined JUndefined None
             JUndefined JUndefined JUndefined JUndefined JUndefined
             JUndefined None.

Definition okResponse : response :=
  mkResponse (JBool true) JUndefined (JStr (str "done")) JUndefined
             JUndefined None JUndefined JUndefined JUndefined JUndefined
             JUndefined JUndefined None.

Definition failedResponse : response :=
  mkResponse (JBool false) (JStr (str "Disk full")) JUndefined JUndefined
             JUndefined None JUndefined JUndefined JUndefined JUndefined
             JUndefined JUndefined None.

Definition isoDate (i : nat) : jsstring := str "2024-01-01T00:00:00.000Z".

(** [threeFiles] after the confirmed deletion of the active [c.py] has
    succeeded. *)
Definition afterDeletingC : state :=
  stateAfter (settle (DeleteThen (str "c.py")) (Fulfilled okResponse) isoDate
                     threeFiles).

Definition markupText : jsstring := str "<img src=x onerror=alert(1)>".

(** A successful [run_code] response whose status description holds
    markup. *)
Definition statusMarkupResponse : response :=
  mkResponse (JBool true) JUndefined JUndefined (JStr (str "42"))
             JUndefined (Some (JStr markupText)) JUndefined JUndefined
             JUndefined JUndefined JUndefined JUndefined None.

(** A successful [submit_solution] response with one hidden test whose
    points hold markup. *)
Definition pointsMarkupResponse : response :=
  mkResponse (JBool true) JUndefined JUndefined JUndefined JUndefined None
             JUndefined JUndefined (JNum 0) (JNum 10) (JNum 0) (JNum 1)
             (Some [mkTest (JStr (str "t1")) (JBool false) (JStr markupText)
                           (JNum 0) (JBool false) JUndefined JUndefined]).

(** A file name that holds a double quote, and a workspace in which the
    file of that name is open and marked as modified. *)
Definition quotedName : jsstring := str "a" ++ dq ++ str "b.py".

Definition quotedActive : state :=
  mkState
    [(str "c.py", pythonFile "print('c')");
     (quotedName, pythonFile "print('q')")]
    (supportedLanguages threeFiles)
    (Some (str "python")) quotedName
    (Monaco (str "print('q2')") (str "python"))
    false None
    [plainTab "c.py" false;
     mkTab quotedName (str "python") true true (quotedName ++ str "*")
           (Some quotedName)]
    (Some (str "python")) [] (str "python") false (str "none") (str "none")
    [false; false; false]
    (outputTabs threeFiles) (outputContents threeFiles) [] [] []
    (Some (str "0.0")) [].

(** [threeFiles] with the name [renamed.py] typed in the file dialog. *)
Definition renamingC : state :=
  mkState (studentFiles threeFiles) (supportedLanguages threeFiles)
    (currentLanguage threeFiles) (activeFile threeFiles) (editor threeFiles)
    false (Some (str "rename-file")) (fileTabs threeFiles)
    (languageSelect threeFiles) (str " renamed.py ") (str "python") true
    (str "flex") (str "none") (buttons threeFiles) (outputTabs threeFiles)
    (outputContents threeFiles) [] [] [] (currentScoreEl threeFiles) [].

End Workspace.
(** * Properties of strings *)

Module JSFacts.
Import JS.

Lemma streq_true_iff (a b : jsstring) : streq a b = true <-> a = b.
Proof.
  revert b; induction a as [|x a IH]; intros [|y b]; simpl; split;
    try congruence; try reflexivity.
  - intros H. apply andb_true_iff in H as [Hx Hr].
    apply N.eqb_eq in Hx. apply IH in Hr. congruence.
  - intros H. injection H as -> ->.
    rewrite N.eqb_refl. simpl. apply IH. reflexivity.
Qed.

Lemma streq_refl (a : jsstring) : streq a a = true.
Proof. now apply streq_true_iff. Qed.

Lemma streq_false_iff (a b : jsstring) : streq a b = false <-> a <> b.
Proof.
  rewrite <- streq_true_iff. destruct (streq a b); split; congruence.
Qed.

Lemma streq_sym (a b : jsstring) : streq a b = streq b a.
Proof.
  destruct (streq b a) eqn:E.
  - apply streq_true_iff in E. subst. apply streq_refl.
  - apply streq_false_iff in E. apply streq_false_iff. congruence.
Qed.

(** The serialisation of a text holds neither [<] nor [>]. *)
Lemma serializeText_no_angle (s : jsstring) :
  ~ In 60%N (serializeText s) /\ ~ In 62%N (serializeText s).
Proof.
  unfold serializeText. induction s as [|c s [IH1 IH2]]; simpl.
  - split; intros [].
  - unfold escapeCodeUnit at 1 3.
    destruct (N.eqb c 38) eqn:E1; [|destruct (N.eqb c 60) eqn:E2;
      [|destruct (N.eqb c 62) eqn:E3; [|destruct (N.eqb c 160) eqn:E4]]];
      split; rewrite in_app_iff; cbn; intros H;
      repeat match goal with
      | H : _ \/ _ |- _ => destruct H as [H|H]
      | H : False |- _ => destruct H
      end; try discriminate; auto.
    + subst c. discriminate.
    + subst c. discriminate.
Qed.

End JSFacts.
(** * Properties of the Studio form *)

Module StudioFacts.
Import JS Studio JSFacts.

(** ** [validateField] *)

Lemma validateField_shape (f : field) :
  tag (fst (validateField f)) = tag f
  /\ name (fst (validateField f)) = name f
  /\ value (fst (validateField f)) = value f
  /\ data_validate (fst (validateField f)) = data_validate f.
Proof.
  unfold validateField.
  destruct (arrayIncludes (validationsOf f) (str "required"));
    destruct (arrayIncludes (validationsOf f) (str "number"));
    destruct (arrayIncludes (validationsOf f) (str "url"));
    destruct (isEmpty (trim (value f)));
    destruct (isNaN_Number (trim (value f)));
    destruct (urlPattern_test (trim (value f)));
    cbn; auto.
Qed.

(** ** [validateForm] *)

Lemma validateRequired_valid (l : list field) (b : bool) :
  snd (validateRequired l b)
  = b && forallb fieldPasses (filter selectsRequired l).
Proof.
  revert b; induction l as [|f l IH]; intros b; simpl.
  - now rewrite andb_true_r.
  - destruct (selectsRequired f); simpl.
    + unfold fieldPasses at 1.
      destruct (validateField f) as [f' ok]; simpl.
      specialize (IH (if negb ok then false else b)).
      destruct (validateRequired l (if negb ok then false else b)); simpl in *.
      rewrite IH. destruct ok, b; reflexivity.
    + specialize (IH b).
      destruct (validateRequired l b); simpl in *. exact IH.
Qed.

Lemma validateRequired_shape (l : list field) (b : bool) :
  map tag (fst (validateRequired l b)) = map tag l
  /\ map name (fst (validateRequired l b)) = map name l.
Proof.
  revert b; induction l as [|f l IH]; intros b; simpl; auto.
  destruct (selectsRequired f).
  - pose proof (validateField_shape f) as (Ht & Hn & _).
    destruct (validateField f) as [f' ok]; simpl in *.
    specialize (IH (if negb ok then false else b)).
    destruct (validateRequired l (if negb ok then false else b)); simpl in *.
    destruct IH as [-> ->]. now rewrite Ht, Hn.
  - specialize (IH b).
    destruct (validateRequired l b); simpl in *.
    destruct IH as [-> ->]. auto.
Qed.

Lemma validateItems_valid (l : list item) (b : bool) :
  snd (validateItems l b)
  = b && forallb fieldPasses (filter selectsRequired (flat_map fields l)).
Proof.
  revert b; induction l as [|it l IH]; intros b; simpl.
  - now rewrite andb_true_r.
  - pose proof (validateRequired_valid (fields it) b) as H1.
    destruct (validateRequired (fields it) b) as [fs b1]; simpl in *.
    specialize (IH b1).
    destruct (validateItems l b1) as [t' b2]; simpl in *.
    rewrite IH, H1, filter_app, forallb_app. now rewrite andb_assoc.
Qed.

Lemma validateItems_length (l : list item) (b : bool) :
  length (fst (validateItems l b)) = length l.
Proof.
  revert b; induction l as [|it l IH]; intros b; simpl; auto.
  destruct (validateRequired (fields it) b) as [fs b1].
  specialize (IH b1). destruct (validateItems l b1); simpl in *.
  now rewrite IH.
Qed.

Lemma validateItems_shape (l : list item) (b : bool) :
  map (fun it => map tag (fields it)) (fst (validateItems l b))
  = map (fun it => map tag (fields it)) l
  /\ blockNames (fst (validateItems l b)) = blockNames l.
Proof.
  unfold blockNames.
  revert b; induction l as [|it l IH]; intros b; simpl; auto.
  pose proof (validateRequired_shape (fields it) b) as [Ht Hn].
  destruct (validateRequired (fields it) b) as [fs b1]; simpl in *.
  specialize (IH b1). destruct (validateItems l b1); simpl in *.
  destruct IH as [-> ->]. now rewrite Ht, Hn.
Qed.

(** The parts of the page [validateForm] computes. *)
Lemma validateForm_parts (p : page) :
  testCases (fst (validateForm p)) = fst (validateItems (testCases p)
      (snd (validateRequired (otherFields p) true)))
  /\ (exists b, languages (fst (validateForm p))
                = fst (validateItems (languages p) b))
  /\ snd (validateForm p)
     = forallb fieldPasses (filter selectsRequired (formFields p))
       && structuralChecks p
  /\ saveDisabled (fst (validateForm p)) = negb (snd (validateForm p)).
Proof.
  unfold validateForm, formFields, structuralChecks.
  pose proof (validateRequired_valid (otherFields p) true) as H1.
  destruct (validateRequired (otherFields p) true) as [others b1].
  cbn [fst snd] in *.
  pose proof (validateItems_valid (testCases p) b1) as H2.
  pose proof (validateItems_length (testCases p) b1) as L2.
  destruct (validateItems (testCases p) b1) as [tcs b2] eqn:E2.
  pose proof (validateItems_valid (languages p) b2) as H3.
  pose proof (validateItems_length (languages p) b2) as L3.
  destruct (validateItems (languages p) b2) as [langs b3] eqn:E3.
  cbn [fst snd] in *. rewrite <- L2, <- L3.
  rewrite !filter_app, !forallb_app.
  assert (HL : exists b, langs = fst (validateItems (languages p) b))
    by (exists b2; now rewrite E3).
  cbn [testCases languages].
  destruct (Nat.eqb (length tcs) 0); cbn;
    destruct (Nat.eqb (length langs) 0); cbn;
    (split; [reflexivity|]); (split; [exact HL|]);
    subst b3 b2 b1; cbn;
    rewrite ?andb_true_r, ?andb_false_r, ?andb_assoc; auto.
Qed.

(** ** Decimal numerals and the index group of a name *)

Lemma uintOf_digitsOf (d : Decimal.uint) : uintOf (digitsOf d) = Some d.
Proof.
  induction d; simpl; try reflexivity; rewrite IHd; reflexivity.
Qed.

Lemma digitsOf_isDigit (d : Decimal.uint) :
  forallb isDigit (digitsOf d) = true.
Proof.
  induction d; simpl; auto.
Qed.

Lemma decimal_nonempty (n : nat) : decimal n <> [].
Proof.
  unfold decimal. intros H.
  assert (Hn : Nat.to_uint n <> Decimal.Nil).
  { rewrite <- (Unsigned.of_to n) at 1. rewrite Unsigned.to_of.
    apply DecimalFacts.unorm_nonnil. }
  destruct (Nat.to_uint n); try discriminate. now apply Hn.
Qed.

Lemma parseDecimal_decimal (n : nat) : parseDecimal (decimal n) = Some n.
Proof.
  unfold parseDecimal. pose proof (decimal_nonempty n) as Hne.
  destruct (decimal n) eqn:E; [congruence|].
  rewrite <- E. unfold decimal. rewrite uintOf_digitsOf. simpl.
  now rewrite Unsigned.of_to.
Qed.

Lemma spanDigits_digits (ds r : jsstring) :
  forallb isDigit ds = true ->
  match r with [] => True | c :: _ => isDigit c = false end ->
  spanDigits (ds ++ r) = (ds, r).
Proof.
  induction ds as [|d ds IH]; simpl; intros Hd Hr.
  - destruct r as [|c r]; [reflexivity|]. simpl. now rewrite Hr.
  - apply andb_true_iff in Hd as [Hd1 Hd2].
    rewrite Hd1, IH; auto.
Qed.

Lemma indexGroupAt_digits (ds post : jsstring) :
  ds <> [] -> forallb isDigit ds = true ->
  indexGroupAt (ds ++ 93%N :: post) = Some (ds, post).
Proof.
  intros Hne Hd. unfold indexGroupAt.
  rewrite spanDigits_digits; auto.
  destruct ds; [congruence|reflexivity].
Qed.

(** Whether a group starts right after an opening bracket is decided
    by the text up to the next opening bracket. *)
Lemma spanDigits_prefix (pre : jsstring) :
  exists ds tl, forall x,
    spanDigits (pre ++ 91%N :: x) = (ds, tl ++ 91%N :: x).
Proof.
  induction pre as [|c pre (ds & tl & IH)].
  - exists [], []. intros x. reflexivity.
  - simpl. destruct (isDigit c).
    + exists (c :: ds), tl. intros x. now rewrite IH.
    + exists [], (c :: pre). intros x. reflexivity.
Qed.

Lemma indexGroupAt_prefix (pre x y : jsstring) :
  indexGroupAt (pre ++ 91%N :: x) = None ->
  indexGroupAt (pre ++ 91%N :: y) = None.
Proof.
  unfold indexGroupAt. destruct (spanDigits_prefix pre) as (ds & tl & H).
  rewrite (H x), (H y).
  destruct ds as [|d ds]; [reflexivity|].
  destruct tl as [|b tl]; simpl; [reflexivity|].
  destruct (N.eqb b 93); [discriminate|reflexivity].
Qed.

Lemma spanDigits_split (s : jsstring) :
  fst (spanDigits s) ++ snd (spanDigits s) = s.
Proof.
  induction s as [|c s IH]; simpl; [reflexivity|].
  destruct (isDigit c); [|reflexivity].
  destruct (spanDigits s); simpl in *. now rewrite IH.
Qed.

Lemma indexGroupAt_split (s ds post : jsstring) :
  indexGroupAt s = Some (ds, post) -> s = ds ++ 93%N :: post.
Proof.
  unfold indexGroupAt. pose proof (spanDigits_split s) as H.
  destruct (spanDigits s) as [d r]; simpl in H.
  destruct d as [|d0 d]; [discriminate|].
  destruct r as [|b r]; [discriminate|].
  destruct (N.eqb b 93) eqn:E; [|discriminate].
  apply N.eqb_eq in E. intros [= <- <-]. now subst.
Qed.

Lemma findIndexGroup_split (s pre ds post : jsstring) :
  findIndexGroup s = Some (pre, ds, post) ->
  s = pre ++ 91%N :: ds ++ 93%N :: post.
Proof.
  revert pre; induction s as [|c s IH]; simpl; intros pre; [discriminate|].
  destruct (N.eqb c 91) eqn:Ec.
  - apply N.eqb_eq in Ec. subst c.
    destruct (indexGroupAt s) as [[d r]|] eqn:Eg.
    + intros [= <- <- <-]. simpl. f_equal. now apply indexGroupAt_split.
    + destruct (findIndexGroup s) as [[[p d] r]|]; [|discriminate].
      intros [= <- <- <-]. simpl. f_equal. now apply IH.
  - destruct (findIndexGroup s) as [[[p d] r]|]; [|discriminate].
    intros [= <- <- <-]. simpl. f_equal. now apply IH.
Qed.

(** Replacing the digits of the leftmost group leaves it the leftmost
    group. *)
Lemma findIndexGroup_replace (s pre ds post ds' : jsstring) :
  findIndexGroup s = Some (pre, ds, post) ->
  ds' <> [] -> forallb isDigit ds' = true ->
  findIndexGroup (pre ++ 91%N :: ds' ++ 93%N :: post) = Some (pre, ds', post).
Proof.
  intros H Hne Hd. revert pre H.
  induction s as [|c s IH]; simpl; intros pre; [discriminate|].
  destruct (N.eqb c 91) eqn:Ec.
  - apply N.eqb_eq in Ec. subst c.
    destruct (indexGroupAt s) as [[d r]|] eqn:Eg.
    + intros [= <- <- <-]. simpl. now rewrite indexGroupAt_digits.
    + destruct (findIndexGroup s) as [[[p d] r]|] eqn:Ef; [|discriminate].
      intros [= <- <- <-]. simpl.
      apply findIndexGroup_split in Ef as Es. rewrite Es in Eg.
      rewrite (indexGroupAt_prefix _ _ _ Eg).
      now rewrite (IH p eq_refl).
  - destruct (findIndexGroup s) as [[[p d] r]|] eqn:Ef; [|discriminate].
    intros [= <- <- <-]. simpl. rewrite Ec. now rewrite (IH p eq_refl).
Qed.

Lemma nameIndex_replace (nm : jsstring) (i : nat) :
  findIndexGroup nm <> None ->
  nameIndex (replaceIndexGroup (str "[" ++ decimal i ++ str "]") nm) = Some i.
Proof.
  intros H. unfold replaceIndexGroup, nameIndex.
  destruct (findIndexGroup nm) as [[[pre ds] post]|] eqn:E; [|congruence].
  match goal with
  | |- context [findIndexGroup ?x] =>
      assert (Heq : x = pre ++ 91%N :: decimal i ++ 93%N :: post)
        by (cbn; now rewrite <- app_assoc);
      rewrite Heq
  end.
  rewrite (findIndexGroup_replace _ E (decimal_nonempty i)
             (digitsOf_isDigit _)).
  apply parseDecimal_decimal.
Qed.

(** ** Re-indexing of the repeated groups *)

Lemma indexedAt_grouped (i : nat) (it : item) :
  indexedAt i it = true -> groupedAt it = true.
Proof.
  unfold indexedAt, groupedAt. rewrite !forallb_forall.
  intros H f Hf. specialize (H f Hf).
  destruct (bracketed f); [|reflexivity]. simpl in *.
  unfold hasGroup, nameIndexOf, nameIndex, sameIndex in *.
  destruct (name f) as [nm|]; [|discriminate].
  destruct (findIndexGroup nm); [reflexivity|discriminate].
Qed.

Lemma indexedFrom_grouped (k : nat) (l : list item) :
  indexedFrom k l = true -> forallb groupedAt l = true.
Proof.
  revert k; induction l as [|it l IH]; simpl; intros k H; [reflexivity|].
  apply andb_true_iff in H as [H1 H2].
  now rewrite (indexedAt_grouped _ _ H1), (IH _ H2).
Qed.

Lemma includes_nil (sub : jsstring) : sub <> [] -> includes [] sub = false.
Proof. destruct sub; [congruence|reflexivity]. Qed.

Lemma renameField_cases (i : nat) (f : field) :
  (renameField i f = f /\ bracketed f = false)
  \/ (exists nm, name f = Some nm /\ bracketed f = true
        /\ tag (renameField i f) = tag f
        /\ name (renameField i f)
           = Some (replaceIndexGroup (str "[" ++ decimal i ++ str "]") nm)).
Proof.
  unfold renameField, bracketed.
  destruct (tag f) eqn:Et; destruct (name f) as [nm|] eqn:En; auto.
  all: destruct (includes nm (str "[")) eqn:E1;
    [|rewrite andb_false_r; auto].
  all: destruct (includes nm (str "]")) eqn:E2;
    [|rewrite andb_false_r; auto].
  all: destruct nm as [|c nm]; [discriminate E1|].
  all: right; exists (c :: nm); cbn [isEmpty negb andb tag name]; auto.
Qed.

Lemma renameField_indexed (i : nat) (f : field) :
  implb (bracketed f) (hasGroup f) = true ->
  implb (bracketed (renameField i f))
        (sameIndex (nameIndexOf (renameField i f)) i) = true.
Proof.
  destruct (renameField_cases i f) as [[-> Hb]|(nm & En & Hb & Ht & Hn)].
  - now rewrite Hb.
  - rewrite Hb. cbn [implb]. unfold hasGroup, nameIndexOf.
    rewrite En, Hn. intros Hg.
    rewrite nameIndex_replace
      by (destruct (findIndexGroup nm); [discriminate|discriminate]).
    cbn [sameIndex]. rewrite Nat.eqb_refl. apply implb_true_r.
Qed.

Lemma renamed_indexedAt (i : nat) (t : jsstring) (it : item) :
  groupedAt it = true ->
  indexedAt i (mkItem t (map (renameField i) (fields it))) = true.
Proof.
  unfold groupedAt, indexedAt. cbn [fields]. rewrite !forallb_forall.
  intros H f Hf. apply in_map_iff in Hf as (f0 & <- & Hf0).
  apply renameField_indexed. now apply H.
Qed.

Lemma eachIndexed_indexedFrom (t : nat -> jsstring) (k : nat)
    (l : list item) :
  forallb groupedAt l = true ->
  indexedFrom k
    (eachIndexed (fun index it =>
                    mkItem (t index) (map (renameField index) (fields it)))
                 k l) = true.
Proof.
  revert k; induction l as [|it l IH]; simpl; intros k H; [reflexivity|].
  apply andb_true_iff in H as [H1 H2].
  now rewrite renamed_indexedAt, IH.
Qed.

Lemma createTestCaseHtml_grouped (testId : jsstring) (index : nat) :
  groupedAt (createTestCaseHtml testId index) = true.
Proof.
  assert (G : forall key,
    findIndexGroup (testCaseFieldName index key) <> None).
  { intros key. unfold testCaseFieldName. cbn.
    rewrite indexGroupAt_digits;
      [discriminate | apply decimal_nonempty | apply digitsOf_isDigit]. }
  unfold groupedAt, createTestCaseHtml, plainField. cbn [fields forallb].
  unfold hasGroup. cbn [name].
  repeat match goal with
  | |- context [findIndexGroup (testCaseFieldName index ?k)] =>
      let E := fresh in
      destruct (findIndexGroup (testCaseFieldName index k)) eqn:E;
        [|exfalso; exact (G k E)]
  end.
  now rewrite !implb_true_r.
Qed.

Lemma removeAt_forallb {A : Type} (P : A -> bool) (k : nat) (l : list A) :
  forallb P l = true -> forallb P (removeAt k l) = true.
Proof.
  revert k; induction l as [|x l IH]; intros [|k]; simpl; auto.
  - intros H. now apply andb_true_iff in H as [_ H].
  - intros H. apply andb_true_iff in H as [H1 H2]. now rewrite H1, IH.
Qed.

Lemma indexedAt_shape (i : nat) (fs fs' : list field) :
  map tag fs = map tag fs' -> map name fs = map name fs' ->
  forallb (fun f => implb (bracketed f) (sameIndex (nameIndexOf f) i)) fs
  = forallb (fun f => implb (bracketed f) (sameIndex (nameIndexOf f) i)) fs'.
Proof.
  revert fs'; induction fs as [|f fs IH]; intros [|f' fs']; simpl;
    try discriminate; auto.
  intros [= Ht Ht'] [= Hn Hn']. f_equal; [|now apply IH].
  unfold bracketed, nameIndexOf. now rewrite Ht, Hn.
Qed.

Lemma indexedFrom_shape (k : nat) (l l' : list item) :
  map (fun it => map tag (fields it)) l
  = map (fun it => map tag (fields it)) l' ->
  blockNames l = blockNames l' ->
  indexedFrom k l = indexedFrom k l'.
Proof.
  unfold blockNames.
  revert k l'; induction l as [|it l IH]; intros k [|it' l']; simpl;
    try discriminate; auto.
  intros [= Ht Ht'] [= Hn Hn']. f_equal; [|now apply IH].
  now apply indexedAt_shape.
Qed.

Lemma validateForm_testCases_indexed (p : page) :
  namesIndexed (testCases (fst (validateForm p)))
  = namesIndexed (testCases p).
Proof.
  destruct (validateForm_parts p) as (-> & _).
  destruct (validateItems_shape (testCases p)
              (snd (validateRequired (otherFields p) true))) as [Ht Hn].
  now apply indexedFrom_shape.
Qed.

Lemma validateForm_languageNames (p : page) :
  blockNames (languages (fst (validateForm p))) = blockNames (languages p).
Proof.
  destruct (validateForm_parts p) as (_ & (b & ->) & _).
  apply validateItems_shape.
Qed.

Lemma eachIndexed_titles_names (t : nat -> jsstring) (k : nat)
    (l : list item) :
  blockNames (eachIndexed (fun index it => mkItem (t index) (fields it)) k l)
  = blockNames l.
Proof.
  unfold blockNames.
  revert k; induction l as [|it l IH]; simpl; intros k; [reflexivity|].
  now rewrite IH.
Qed.

Lemma blockNames_removeAt (k : nat) (l : list item) :
  blockNames (removeAt k l) = removeAt k (blockNames l).
Proof.
  unfold blockNames.
  revert k; induction l as [|it l IH]; intros [|k]; simpl; auto.
  now rewrite IH.
Qed.

Lemma step_testCases_indexed (p : page) (o : operation) :
  namesIndexed (testCases p) = true ->
  namesIndexed (testCases (step p o)) = true.
Proof.
  intros H. pose proof (indexedFrom_grouped _ _ H) as G.
  destruct o as [|k| |k]; cbn [step].
  - unfold addTestCase. rewrite validateForm_testCases_indexed.
    cbn [updateTestCaseIndexes testCases].
    apply (eachIndexed_indexedFrom
             (fun index => str "Test Case " ++ decimal (index + 1))).
    rewrite forallb_app, G. cbn [forallb].
    now rewrite createTestCaseHtml_grouped.
  - unfold removeTestCase.
    destruct (Nat.leb (length (testCases p)) 1); [exact H|].
    rewrite validateForm_testCases_indexed.
    cbn [updateTestCaseIndexes testCases].
    apply (eachIndexed_indexedFrom
             (fun index => str "Test Case " ++ decimal (index + 1))).
    now apply removeAt_forallb.
  - unfold addLanguage. now rewrite validateForm_testCases_indexed.
  - unfold removeLanguage.
    destruct (Nat.leb (length (languages p)) 1); [exact H|].
    now rewrite validateForm_testCases_indexed.
Qed.

Lemma step_languageNames (q : page) (o : operation) :
  blockNames (languages (step q o)) = languageNamesAfter o q.
Proof.
  destruct o as [|k| |k]; cbn [step languageNamesAfter].
  - unfold addTestCase. now rewrite validateForm_languageNames.
  - unfold removeTestCase.
    destruct (Nat.leb (length (testCases q)) 1); [reflexivity|].
    now rewrite validateForm_languageNames.
  - unfold addLanguage. rewrite validateForm_languageNames.
    cbn [updateLanguageIndexes languages].
    rewrite (eachIndexed_titles_names
               (fun index => str "Programming Language " ++ decimal (index + 1))).
    unfold blockNames. now rewrite map_app.
  - unfold removeLanguage.
    destruct (Nat.leb (length (languages q)) 1); [reflexivity|].
    rewrite validateForm_languageNames.
    cbn [updateLanguageIndexes languages].
    rewrite (eachIndexed_titles_names
               (fun index => str "Programming Language " ++ decimal (index + 1))).
    apply blockNames_removeAt.
Qed.

(** C3, as amended: starting from a page whose test-case names carry
    their block's position, after every sequence of add and remove
    operations the bracketed names of the inputs and textareas of the
    test-case block at position [i] carry the index [i] (contiguous, from
    zero, in visual order).  The names of the language blocks are written
    with the key generated at creation and are never re-indexed: an
    operation leaves the names of the remaining language blocks as they
    were. *)
Theorem test_case_names_stay_indexed (p : page) (ops : list operation) :
  namesIndexed (testCases p) = true ->
  namesIndexed (testCases (run ops p)) = true
  /\ forall o, blockNames (languages (step (run ops p) o))
               = languageNamesAfter o (run ops p).
Proof.
  intros H. split; [|intros o; apply step_languageNames].
  unfold run. revert p H.
  induction ops as [|o ops IH]; intros p H; simpl; [exact H|].
  apply IH. now apply step_testCases_indexed.
Qed.

Lemma test_case_names_stay_indexed_witness :
  namesIndexed (testCases optionalRulesPage) = true
  /\ (namesIndexed
        (testCases (run [AddTestCase; AddLanguage; RemoveTestCase 0;
                         AddTestCase] optionalRulesPage)) = true
      /\ forall o,
           blockNames
             (languages
                (step (run [AddTestCase; AddLanguage; RemoveTestCase 0;
                            AddTestCase] optionalRulesPage) o))
           = languageNamesAfter o
               (run [AddTestCase; AddLanguage; RemoveTestCase 0;
                     AddTestCase] optionalRulesPage)).
Proof.
  split; [vm_compute; reflexivity|].
  apply (test_case_names_stay_indexed optionalRulesPage
           [AddTestCase; AddLanguage; RemoveTestCase 0; AddTestCase]).
  vm_compute; reflexivity.
Defined.

(** C3, as stated, fails for the language group: the names of a new
    language block carry no index, so after adding a language to a page
    whose two groups are indexed (here, empty) the language names are not
    indexed by position. *)
Lemma language_names_are_not_indexed :
  namesIndexed (testCases emptyPage) = true
  /\ namesIndexed (languages emptyPage) = true
  /\ namesIndexed (languages (run [AddLanguage] emptyPage)) = false
  /\ blockNames (languages (run [AddLanguage] emptyPage))
     = [map (fun k => Some (str "supported_languages[language_1][" ++ str k
                            ++ str "]"))
            ["key"; "name"; "id"; "extension"; "template"]%string].
Proof.
  repeat split; vm_compute; reflexivity.
Qed.

(** C2, as amended: [validateForm] aggregates the results of
    [validateField] on the controls of the form whose [data-validate]
    attribute contains [required], together with the two structural
    checks (at least one test case, at least one language); the save
    button is disabled exactly when this aggregate fails.  Controls whose
    attribute lacks [required] are not consulted. *)
Theorem validateForm_aggregates_required (p : page) :
  snd (validateForm p)
  = forallb fieldPasses (filter selectsRequired (formFields p))
    && structuralChecks p
  /\ saveDisabled (fst (validateForm p)) = negb (snd (validateForm p)).
Proof.
  destruct (validateForm_parts p) as (_ & _ & Hv & Hs). now split.
Qed.

(** C2, as stated, fails: on a page with a test case, a language, a
    control that carries the single rule [number] and holds [abc], and a
    control that carries the single rule [url] and holds
    [localhost:2358], both controls fail their validation and yet the
    form is valid and the save button enabled. *)
Lemma optional_rule_failures_keep_save_enabled :
  In numberOnly (formFields optionalRulesPage)
  /\ In urlOnly (formFields optionalRulesPage)
  /\ carriesRules numberOnly = true
  /\ carriesRules urlOnly = true
  /\ fieldPasses numberOnly = false
  /\ fieldPasses urlOnly = false
  /\ structuralChecks optionalRulesPage = true
  /\ snd (validateForm optionalRulesPage) = true
  /\ saveDisabled (fst (validateForm optionalRulesPage)) = false.
Proof.
  repeat split; try (vm_compute; reflexivity).
  - left; reflexivity.
  - right; left; reflexivity.
Qed.

(** C4, as amended: when a rule fails, [validateField] reports failure,
    gives the control the class [error] and attaches exactly one message,
    the message of the last failing rule in the order required, number,
    url; when none fails it attaches no message, and a control with the
    rule [required] and a non-empty trimmed value gets the class
    [success]. *)
Theorem validateField_last_failing_rule (f : field) :
  match lastFailing f with
  | Some r =>
      snd (validateField f) = false
      /\ has_error (fst (validateField f)) = true
      /\ feedback (fst (validateField f)) = [ruleMessage r]
  | None =>
      snd (validateField f) = true
      /\ has_error (fst (validateField f)) = false
      /\ feedback (fst (validateField f)) = []
      /\ has_success (fst (validateField f))
         = (declares f Required && negb (isEmpty (trim (value f))))
           || has_success f
  end.
Proof.
  unfold lastFailing, failingRules, ruleFails, declares, validateField.
  cbn [filter ruleName].
  destruct (arrayIncludes (validationsOf f) (str "required"));
    destruct (arrayIncludes (validationsOf f) (str "number"));
    destruct (arrayIncludes (validationsOf f) (str "url"));
    destruct (isEmpty (trim (value f)));
    destruct (isNaN_Number (trim (value f)));
    destruct (urlPattern_test (trim (value f)));
    cbn; auto.
Qed.

(** C4, as stated, fails: with the rules [number,url] and the value
    [abc] both rules fail, the first of them is [number], and the message
    attached is the one of [url]. *)
Lemma first_failing_rule_does_not_win :
  failingRules numberAndUrl = [Number; Url]
  /\ firstFailing numberAndUrl = Some Number
  /\ feedback (fst (validateField numberAndUrl)) = [ruleMessage Url]
  /\ ruleMessage Url <> ruleMessage Number.
Proof.
  repeat split; try (vm_compute; reflexivity).
  vm_compute. discriminate.
Qed.

End StudioFacts.
(** * Properties of the student workspace *)

Module WorkspaceFacts.
Import JS Workspace JSFacts.

Local Unset Implicit Arguments.

(** ** Objects used as maps *)

Section PropertyFacts.
Variable V : Type.
Implicit Types (o : list (jsstring * V)) (k h : jsstring).

Lemma getOwnProperty_In k o :
  In k (map fst o) -> exists v, getOwnProperty k o = Some v.
Proof.
  induction o as [|[k' v'] o IH]; simpl; [intros []|].
  intros [->|H].
  - rewrite streq_refl. eauto.
  - destruct (streq k k'); eauto.
Qed.

Lemma getOwnProperty_Some_In k o (v : V) :
  getOwnProperty k o = Some v -> In k (map fst o).
Proof.
  induction o as [|[k' v'] o IH]; simpl; [discriminate|].
  destruct (streq k k') eqn:E.
  - apply streq_true_iff in E. auto.
  - auto.
Qed.

Lemma getOwnProperty_not_In k o :
  ~ In k (map fst o) -> getOwnProperty k o = None.
Proof.
  intros H. destruct (getOwnProperty k o) as [v|] eqn:E; [|reflexivity].
  apply getOwnProperty_Some_In in E. contradiction.
Qed.

Lemma getOwnProperty_setProperty_same k (v : V) o :
  getOwnProperty k (setProperty k v o) = Some v.
Proof.
  induction o as [|[k' v'] o IH]; simpl.
  - now rewrite streq_refl.
  - destruct (streq k k') eqn:E; simpl.
    + now rewrite streq_refl.
    + now rewrite E.
Qed.

Lemma getOwnProperty_setProperty_other k h (v : V) o :
  h <> k -> getOwnProperty h (setProperty k v o) = getOwnProperty h o.
Proof.
  intros Hne. apply streq_false_iff in Hne as Hf.
  induction o as [|[k' v'] o IH]; simpl.
  - now rewrite Hf.
  - destruct (streq k k') eqn:E; simpl.
    + apply streq_true_iff in E. subst k'. now rewrite Hf.
    + now rewrite IH.
Qed.

Lemma getOwnProperty_deleteProperty k o :
  getOwnProperty k (deleteProperty k o) = None.
Proof.
  unfold deleteProperty.
  induction o as [|[k' v'] o IH]; simpl; [reflexivity|].
  destruct (streq k k') eqn:E; simpl; [exact IH|]. now rewrite E.
Qed.

Lemma getOwnProperty_deleteProperty_other k h o :
  h <> k -> getOwnProperty h (deleteProperty k o) = getOwnProperty h o.
Proof.
  intros Hne. unfold deleteProperty.
  induction o as [|[k' v'] o IH]; simpl; [reflexivity|].
  destruct (streq k k') eqn:E; simpl.
  - apply streq_true_iff in E. subst k'.
    apply streq_false_iff in Hne. now rewrite Hne.
  - now rewrite IH.
Qed.

(** [o[k]] is the own property, where there is one. *)
Lemma getProperty_Own k o (v : V) :
  getOwnProperty k o = Some v -> getProperty k o = Own v.
Proof. unfold getProperty. now intros ->. Qed.

Lemma getProperty_In k o :
  In k (map fst o) -> exists v, getProperty k o = Own v.
Proof.
  intros H. apply getOwnProperty_In in H as [v H]. exists v.
  now apply getProperty_Own.
Qed.

Lemma getProperty_Own_inv k o (v : V) :
  getProperty k o = Own v -> getOwnProperty k o = Some v.
Proof.
  unfold getProperty. destruct (getOwnProperty k o).
  - congruence.
  - destruct (arrayIncludes prototypeKeys k); discriminate.
Qed.

Lemma getProperty_Absent k o :
  getProperty k o = Absent ->
  getOwnProperty k o = None /\ arrayIncludes prototypeKeys k = false.
Proof.
  unfold getProperty. destruct (getOwnProperty k o); [discriminate|].
  destruct (arrayIncludes prototypeKeys k); [discriminate|auto].
Qed.

Lemma deleteProperty_keys k h o :
  In h (map fst (deleteProperty k o)) -> h <> k /\ In h (map fst o).
Proof.
  unfold deleteProperty. rewrite !in_map_iff.
  intros ([h' v] & <- & Hin). apply filter_In in Hin as [Hin Hk].
  simpl in *. split.
  - apply negb_true_iff, streq_false_iff in Hk. congruence.
  - exists (h', v). auto.
Qed.

Lemma deleteProperty_In k o x :
  In x (deleteProperty k o) -> In x o.
Proof. unfold deleteProperty. intros H. now apply filter_In in H. Qed.

Lemma deleteProperty_absent k o :
  ~ In k (map fst o) -> deleteProperty k o = o.
Proof.
  unfold deleteProperty.
  induction o as [|[k' v'] o IH]; simpl; [reflexivity|]. intros H.
  destruct (streq k k') eqn:E.
  - apply streq_true_iff in E. subst. tauto.
  - simpl. rewrite IH; tauto.
Qed.

(** Deleting a key of an object, whose keys are distinct, removes one
    property. *)
Lemma deleteProperty_length k o :
  NoDup (map fst o) -> length o <= S (length (deleteProperty k o)).
Proof.
  induction o as [|[k' v'] o IH]; simpl; [lia|].
  intros H. inversion H as [|? ? Hnin Hnd]; subst.
  unfold deleteProperty in *. simpl.
  destruct (streq k k') eqn:E; simpl.
  - apply streq_true_iff in E. subst k'.
    fold (deleteProperty k o). rewrite deleteProperty_absent; auto.
  - specialize (IH Hnd). lia.
Qed.

Lemma insertIndex_length n k (l : list (N * jsstring)) :
  length (insertIndex n k l) = S (length l).
Proof.
  induction l as [|[m k'] l IH]; simpl; [reflexivity|].
  destruct (N.ltb n m); simpl; auto.
Qed.

Lemma insertIndex_In n k (l : list (N * jsstring)) x :
  In x (insertIndex n k l) -> x = (n, k) \/ In x l.
Proof.
  induction l as [|[m k'] l IH]; simpl.
  - intros [<-|[]]. auto.
  - destruct (N.ltb n m); simpl.
    + intros [<-|[<-|H]]; auto.
    + intros [<-|H]; auto. destruct (IH H); auto.
Qed.

Lemma indexKeys_In (ks : list jsstring) x :
  In x (indexKeys ks) -> In (snd x) ks.
Proof.
  induction ks as [|k ks IH]; simpl; [intros []|].
  destruct (arrayIndex k).
  - intros H. apply insertIndex_In in H as [->|H]; auto.
  - auto.
Qed.

Lemma Object_keys_In o k : In k (Object_keys o) -> In k (map fst o).
Proof.
  unfold Object_keys. rewrite in_app_iff. intros [H|H].
  - apply in_map_iff in H as (x & <- & Hx). now apply indexKeys_In.
  - now apply filter_In in H as [H _].
Qed.

Lemma Object_keys_length o : length (Object_keys o) = length o.
Proof.
  unfold Object_keys. rewrite length_app, length_map.
  rewrite <- (length_map fst o).
  induction (map fst o) as [|k ks IH]; simpl; [reflexivity|].
  destruct (arrayIndex k); simpl.
  - rewrite insertIndex_length. simpl. now rewrite IH.
  - rewrite Nat.add_succ_r. now rewrite IH.
Qed.

End PropertyFacts.

(** ** Tabs *)

Lemma tabNamed_updateFirst (g : jsstring) (f : tab -> tab) (l : list tab) :
  (forall t, data_filename (f t) = data_filename t) ->
  tabNamed g (updateFirst g f l) = option_map f (tabNamed g l).
Proof.
  intros Hf. induction l as [|t l IH]; simpl; [reflexivity|].
  destruct (streq (data_filename t) g) eqn:E; simpl.
  - now rewrite Hf, E.
  - now rewrite E, IH.
Qed.

Lemma removeFirst_names (x : jsstring) (l : list tab) :
  map data_filename (removeFirst x l)
  = withoutFirst x (map data_filename l).
Proof.
  induction l as [|t l IH]; simpl; [reflexivity|].
  destruct (streq (data_filename t) x); simpl; congruence.
Qed.

Lemma updateFirst_ext (g : jsstring) (f f' : tab -> tab) (l : list tab) :
  (forall t, f t = f' t) -> updateFirst g f l = updateFirst g f' l.
Proof.
  intros H. induction l as [|t l IH]; simpl; [reflexivity|].
  destruct (streq (data_filename t) g); congruence.
Qed.

Lemma updateFirst_at (g : jsstring) (f f' : tab -> tab) (l : list tab)
    (t : tab) :
  tabNamed g l = Some t -> f t = f' t ->
  updateFirst g f l = updateFirst g f' l.
Proof.
  induction l as [|t' l IH]; simpl; [discriminate|].
  destruct (streq (data_filename t') g).
  - intros [= ->] ->. reflexivity.
  - intros H1 H2. now rewrite IH.
Qed.

Lemma updateFirst_None (g : jsstring) (f : tab -> tab) (l : list tab) :
  tabNamed g l = None -> updateFirst g f l = l.
Proof.
  induction l as [|t l IH]; simpl; [reflexivity|].
  destruct (streq (data_filename t) g); [discriminate|].
  intros H. now rewrite IH.
Qed.

Lemma updateFirst_fixed (g : jsstring) (f : tab -> tab) (l : list tab)
    (t : tab) :
  tabNamed g l = Some t -> f t = t -> updateFirst g f l = l.
Proof.
  induction l as [|t' l IH]; simpl; [discriminate|].
  destruct (streq (data_filename t') g).
  - intros [= ->] ->. reflexivity.
  - intros H1 H2. now rewrite IH.
Qed.

Lemma removeFirst_None (g : jsstring) (l : list tab) :
  tabNamed g l = None -> removeFirst g l = l.
Proof.
  induction l as [|t l IH]; simpl; [reflexivity|].
  destruct (streq (data_filename t) g); [discriminate|].
  intros H. now rewrite IH.
Qed.

(** Where the close buttons carry the names of their tabs, the first
    element of a name is the first tab of that name. *)
Lemma firstWithFilename_agree (g : jsstring) (l : list tab) :
  tabsAgree l = true ->
  firstWithFilename g l = option_map TabElement (tabNamed g l).
Proof.
  induction l as [|t l IH]; simpl; [reflexivity|].
  intros H. apply andb_true_iff in H as [Ht Hl].
  destruct (streq (data_filename t) g) eqn:E; [reflexivity|].
  unfold closeNamed. destruct (tab_close t) as [n|]; [|auto].
  apply streq_true_iff in Ht. subst n. rewrite E. auto.
Qed.

Lemma tabsAgree_updateFirst (g : jsstring) (f : tab -> tab) (l : list tab) :
  (forall t, tabsAgree [t] = true -> tabsAgree [f t] = true) ->
  tabsAgree l = true -> tabsAgree (updateFirst g f l) = true.
Proof.
  intros Hf. induction l as [|t l IH]; simpl; [reflexivity|].
  intros H. apply andb_true_iff in H as [Ht Hl].
  destruct (streq (data_filename t) g); simpl.
  - specialize (Hf t). simpl in Hf. rewrite Ht in Hf.
    specialize (Hf eq_refl). rewrite andb_true_r in Hf. now rewrite Hf.
  - now rewrite Ht, IH.
Qed.

Lemma tabsAgree_removeFirst (g : jsstring) (l : list tab) :
  tabsAgree l = true -> tabsAgree (removeFirst g l) = true.
Proof.
  induction l as [|t l IH]; simpl; [reflexivity|].
  intros H. apply andb_true_iff in H as [Ht Hl].
  destruct (streq (data_filename t) g); simpl; [exact Hl|].
  now rewrite Ht, IH.
Qed.

Lemma tabsAgree_marked (t : tab) :
  tabsAgree [t] = true -> tabsAgree [marked t] = true.
Proof. unfold marked. destruct (modified t); auto. Qed.

Lemma tabsAgree_unmarked (t : tab) :
  tabsAgree [t] = true -> tabsAgree [unmarked t] = true.
Proof. unfold unmarked. destruct (modified t); auto. Qed.

Lemma tabsAgree_app (l l' : list tab) :
  tabsAgree (l ++ l') = tabsAgree l && tabsAgree l'.
Proof. apply forallb_app. Qed.

Lemma tabsAgree_activeFor (g : jsstring) (l : list tab) :
  tabsAgree (map (activeFor g) l) = tabsAgree l.
Proof.
  induction l as [|t l IH]; simpl; [reflexivity|]. now rewrite IH.
Qed.

Lemma tabNamed_removeFirst_other (g h : jsstring) (l : list tab) :
  h <> g -> tabNamed h (removeFirst g l) = tabNamed h l.
Proof.
  intros Hne. induction l as [|t l IH]; simpl; [reflexivity|].
  destruct (streq (data_filename t) g) eqn:E.
  - apply streq_true_iff in E.
    destruct (streq (data_filename t) h) eqn:E'; [|reflexivity].
    apply streq_true_iff in E'. congruence.
  - simpl. now rewrite IH.
Qed.

(** ** Running an operation *)

Lemma state_eta (s : state) : set_fileTabs (fileTabs s) s = s.
Proof. destruct s; reflexivity. Qed.

(** Reduction of the combinators of operations and of the components of
    a state. *)
Ltac run :=
  cbv delta [bind ret get modify emit throw unmodelled tryCatch thenCatch
             notifyListener];
  cbn [fst snd app stateAfter effectsOf completionOf negb andb orb
       studentFiles supportedLanguages currentLanguage activeFile editor
       isExecuting currentModal fileTabs languageSelect filenameInput
       modalLanguageSelect modalLanguageDisabled modalDisplay
       loadingDisplay buttons outputTabs outputContents consoleOutput
       testSummary testResults currentScoreEl notifications
       set_studentFiles set_currentLanguage set_activeFile set_editor
       set_isExecuting set_currentModal set_fileTabs set_languageSelect
       set_modalLanguageDisabled set_modalDisplay set_loadingDisplay
       set_buttons set_outputTabs set_outputContents set_consoleOutput
       set_testSummary set_testResults set_currentScoreEl
       set_notifications].

(** What follows a step that returns. *)
Lemma bind_Normal (A B : Type) (m : action A) (f : A -> action B)
    (s s1 : state) (a : A) (e1 : list effect) :
  m s = (Normal a, s1, e1) ->
  bind m f s
  = (completionOf (f a s1), stateAfter (f a s1), e1 ++ effectsOf (f a s1)).
Proof.
  intros H. unfold bind. rewrite H. now destruct (f a s1) as [[c s2] e2].
Qed.

Lemma bind_run (A B : Type) (m : action A) (f : A -> action B)
    (s s1 s2 : state) (a : A) (c : completion B) (e1 e2 : list effect) :
  m s = (Normal a, s1, e1) ->
  f a s1 = (c, s2, e2) ->
  bind m f s = (c, s2, e1 ++ e2).
Proof. intros H1 H2. unfold bind. now rewrite H1, H2. Qed.

Lemma tryCatch_Normal (A : Type) (m handler : action A) (s s1 : state)
    (a : A) (e1 : list effect) :
  m s = (Normal a, s1, e1) -> tryCatch m handler s = (Normal a, s1, e1).
Proof. intros H. unfold tryCatch. now rewrite H. Qed.

Lemma literalSelector_Literal (g : jsstring) :
  literalSelector g = true -> readSelector g = Literal.
Proof. unfold literalSelector. destruct (readSelector g); congruence. Qed.

(** The lookup of a tab, where the selector is read as it stands and the
    close buttons carry the names of their tabs. *)
Lemma querySelector_run (g : jsstring) (s : state) :
  literalSelector g = true ->
  tabsAgree (fileTabs s) = true ->
  querySelector g s = (Normal (tabNamed g (fileTabs s)), s, []).
Proof.
  intros Hg Ht. unfold querySelector. run.
  rewrite (literalSelector_Literal _ Hg), (firstWithFilename_agree _ _ Ht).
  destruct (tabNamed g (fileTabs s)); reflexivity.
Qed.

Lemma markFileAsModified_run (g : jsstring) (s : state) :
  literalSelector g = true ->
  tabsAgree (fileTabs s) = true ->
  markFileAsModified g s
  = (Normal tt, set_fileTabs (updateFirst g marked (fileTabs s)) s, []).
Proof.
  intros Hg Ht. unfold markFileAsModified.
  rewrite (bind_Normal _ _ _ _ _ _ _ _ (querySelector_run g s Hg Ht)).
  destruct (tabNamed g (fileTabs s)) as [t|] eqn:E.
  - destruct (modified t) eqn:Em; run.
    + rewrite (updateFirst_fixed _ _ _ _ E), state_eta; [reflexivity|].
      unfold marked. now rewrite Em.
    + do 2 f_equal. f_equal. apply (updateFirst_at _ _ _ _ _ E).
      unfold marked. rewrite Em.
      destruct (includes (tab_name t) (str "*")); reflexivity.
  - run. now rewrite (updateFirst_None _ _ _ E), state_eta.
Qed.

Lemma replaceFirst_absent (pat rep s : jsstring) :
  includes s pat = false -> replaceFirst pat rep s = s.
Proof.
  induction s as [|c s IH]; simpl.
  - destruct (startsWith pat []); [discriminate|reflexivity].
  - destruct (startsWith pat (c :: s)); [discriminate|].
    simpl. intros H. now rewrite IH.
Qed.

Lemma removeModifiedMark_run (g : jsstring) (s : state) :
  literalSelector g = true ->
  tabsAgree (fileTabs s) = true ->
  removeModifiedMark g s
  = (Normal tt, set_fileTabs (updateFirst g unmarked (fileTabs s)) s, []).
Proof.
  intros Hg Ht. unfold removeModifiedMark.
  rewrite (bind_Normal _ _ _ _ _ _ _ _ (querySelector_run g s Hg Ht)).
  destruct (tabNamed g (fileTabs s)) as [t|] eqn:E.
  - destruct (modified t) eqn:Em; run.
    + do 2 f_equal. f_equal. apply (updateFirst_at _ _ _ _ _ E).
      unfold unmarked. rewrite Em.
      destruct (includes (tab_name t) (str "*")) eqn:Ei; [reflexivity|].
      now rewrite (replaceFirst_absent _ _ _ Ei).
    + rewrite (updateFirst_fixed _ _ _ _ E), state_eta; [reflexivity|].
      unfold unmarked. now rewrite Em.
  - run. now rewrite (updateFirst_None _ _ _ E), state_eta.
Qed.

Lemma removeFileTab_run (g : jsstring) (s : state) :
  literalSelector g = true ->
  tabsAgree (fileTabs s) = true ->
  removeFileTab g s
  = (Normal tt, set_fileTabs (removeFirst g (fileTabs s)) s, []).
Proof.
  intros Hg Ht. unfold removeFileTab.
  rewrite (bind_Normal _ _ _ _ _ _ _ _ (querySelector_run g s Hg Ht)).
  destruct (tabNamed g (fileTabs s)) as [t|] eqn:E; run; [reflexivity|].
  now rewrite (removeFirst_None _ _ E), state_eta.
Qed.

(** The tab of a file after a rename to [n]. *)
Lemma updateFileTab_run (g n : jsstring) (s : state) :
  literalSelector g = true ->
  tabsAgree (fileTabs s) = true ->
  updateFileTab g n s
  = (Normal tt,
     set_fileTabs
       (updateFirst g
          (fun t => mkTab n (data_language t) (active t) (modified t) n
                          (match tab_close t with
                           | Some _ => Some n
                           | None => None
                           end))
          (fileTabs s)) s, []).
Proof.
  intros Hg Ht. unfold updateFileTab.
  rewrite (bind_Normal _ _ _ _ _ _ _ _ (querySelector_run g s Hg Ht)).
  destruct (tabNamed g (fileTabs s)) as [t|] eqn:E; run; [reflexivity|].
  now rewrite (updateFirst_None _ _ _ E), state_eta.
Qed.

(** A selector that is no selector makes the lookup throw. *)
Lemma querySelector_Malformed (g : jsstring) (s : state) :
  readSelector g = Malformed ->
  querySelector g s = (Throw SyntaxError, s, []).
Proof. intros H. unfold querySelector. run. now rewrite H. Qed.

Lemma notInherited_getProperty (V : Type) (k : jsstring)
    (o : list (jsstring * V)) :
  notInherited k = true -> getProperty k o <> Inherited.
Proof.
  unfold notInherited, getProperty. intros H.
  apply negb_true_iff in H. rewrite H.
  destruct (getOwnProperty k o); discriminate.
Qed.

Lemma getMonacoLanguage_Some (language : option jsstring) :
  notInherited (keyOf language) = true ->
  exists lang, getMonacoLanguage language = Some lang.
Proof.
  intros H. unfold getMonacoLanguage.
  pose proof (notInherited_getProperty _ _ LANGUAGE_MAPPINGS H) as Hn.
  destruct (getProperty (keyOf language) LANGUAGE_MAPPINGS); eauto.
  contradiction.
Qed.

Lemma getTemplateForLanguage_Some (language : option jsstring) (s : state) :
  notInherited (keyOf language) = true ->
  exists text, getTemplateForLanguage language s = Some text.
Proof.
  intros H. unfold getTemplateForLanguage.
  pose proof (notInherited_getProperty _ _ (supportedLanguages s) H) as Hn.
  destruct (getProperty (keyOf language) (supportedLanguages s)); eauto.
  contradiction.
Qed.

Lemma contentOr_Some (p : property fileData) (d : option jsstring) :
  (exists text, d = Some text) -> exists text, contentOr p d = Some text.
Proof.
  intros [text ->]. unfold contentOr. destruct p as [f| |]; eauto.
  destruct (content f) as [c|]; eauto. destruct (isEmpty c); eauto.
Qed.

(** The text and the language the editor is given for a file. *)
Lemma loadActiveFile_run (s : state) (text lang : jsstring) :
  contentOr (getProperty (activeFile s) (studentFiles s))
            (getTemplateForLanguage (currentLanguage s) s) = Some text ->
  getMonacoLanguage (currentLanguage s) = Some lang ->
  literalSelector (activeFile s) = true ->
  tabsAgree (fileTabs s) = true ->
  loadActiveFile s
  = (Normal tt,
     match editor s with
     | Monaco _ _ =>
         set_editor (Monaco text lang)
           (set_fileTabs (updateFirst (activeFile s) marked (fileTabs s)) s)
     | FallbackEditor _ => set_editor (FallbackEditor text) s
     | NoEditor => s
     end, []).
Proof.
  intros Hc Hl Hg Ht. unfold loadActiveFile, updateStatusBar. run.
  rewrite Hc, Hl. destruct (editor s) as [v ml|v|] eqn:E; run.
  - unfold onEditorContentChange. run.
    match goal with
    | |- context [markFileAsModified ?G ?S] =>
        rewrite (markFileAsModified_run G S Hg Ht)
    end.
    reflexivity.
  - reflexivity.
  - reflexivity.
Qed.

(** A switch to another file, where it runs to its end. *)
Lemma switchToFile_run (s : state) (filename : jsstring)
    (language : option jsstring) (text lang : jsstring) :
  filename <> activeFile s ->
  contentOr (getProperty filename (studentFiles s))
            (getTemplateForLanguage language s) = Some text ->
  getMonacoLanguage language = Some lang ->
  literalSelector filename = true ->
  tabsAgree (fileTabs s) = true ->
  switchToFile filename language s
  = (Normal tt,
     set_languageSelect language
       (set_fileTabs
          (map (activeFor filename)
               (match editor s with
                | Monaco _ _ => updateFirst filename marked (fileTabs s)
                | _ => fileTabs s
                end))
          (set_editor
             (match editor s with
              | Monaco _ _ => Monaco text lang
              | FallbackEditor _ => FallbackEditor text
              | NoEditor => NoEditor
              end)
             (set_currentLanguage language (set_activeFile filename s)))),
     [CallHandler (save_file (activeFile s) (getCurrentEditorContent s)
                             (currentLanguage s))
                  (SaveThen (getCurrentEditorContent s))]).
Proof.
  intros Hne Hc Hl Hg Ht.
  assert (Hf : streq (activeFile s) filename = false)
    by (apply streq_false_iff; congruence).
  unfold switchToFile, saveCurrentFile, updateFileTabsUI,
    updateLanguageSelector.
  run. rewrite Hf. run.
  match goal with
  | |- context [loadActiveFile ?S] =>
      rewrite (loadActiveFile_run S text lang Hc Hl Hg Ht)
  end.
  destruct s; cbn [editor] in *. destruct editor0; reflexivity.
Qed.

(** ** The claims *)

(** C10: [switchToFile] with the name of the active file changes nothing:
    it returns, the state is the same and no effect is emitted, so no
    save is requested, the editor is not reloaded and no tab or selector
    is rewritten. *)
Theorem switchToFile_active_is_noop (s : state) (language : option jsstring) :
  switchToFile (activeFile s) language s = (Normal tt, s, []).
Proof.
  unfold switchToFile. run. now rewrite streq_refl.
Qed.

(** C8: with exactly one file, [deleteFile], on that file or any other
    name, shows the notification and stops: no confirmation prompt and no
    handler call are issued, whatever the user would answer, so nothing
    is pending that could remove the file, and the file map keeps its
    one file. *)
Theorem deleteFile_sole_file_rejected (s : state) (filename : jsstring)
    (answer : jsstring -> bool) :
  length (studentFiles s) = 1 ->
  effectsOf (deleteFile filename answer s) = []
  /\ stateAfter (deleteFile filename answer s)
     = set_notifications
         (notifications s
          ++ [(str "error", str "Cannot delete the last file")]) s
  /\ studentFiles (stateAfter (deleteFile filename answer s))
     = studentFiles s
  /\ length (studentFiles (stateAfter (deleteFile filename answer s))) = 1.
Proof.
  intros H. unfold deleteFile. run.
  rewrite Object_keys_length, H. cbn. auto.
Qed.

Lemma deleteFile_sole_file_rejected_witness :
  length (studentFiles (set_studentFiles
                          [(str "main.py", pythonFile "print(1)")]
                          threeFiles)) = 1
  /\ effectsOf (deleteFile (str "main.py") (fun _ => true)
                  (set_studentFiles [(str "main.py", pythonFile "print(1)")]
                                    threeFiles)) = [].
Proof.
  split; [reflexivity|].
  exact (proj1 (deleteFile_sole_file_rejected
                  (set_studentFiles [(str "main.py", pythonFile "print(1)")]
                                    threeFiles)
                  (str "main.py") (fun _ => true) eq_refl)).
Defined.

(** C7: [createNewFile] with a name that is empty after trimming, or
    that is the name of a file of the map, adds an error notification and
    nothing else: no handler call, the file map as it was.  When the save
    handler was called and did not succeed, its continuation adds an
    error notification and nothing else. *)
Theorem createNewFile_failure_changes_nothing (s : state) :
  (trim (filenameInput s) = []
   \/ In (trim (filenameInput s)) (map fst (studentFiles s)) ->
   effectsOf (createNewFile s) = []
   /\ studentFiles (stateAfter (createNewFile s)) = studentFiles s
   /\ exists msg,
        stateAfter (createNewFile s)
        = set_notifications (notifications s ++ [(str "error", msg)]) s)
  /\ (forall filename content language o now,
        failed o = true ->
        filter isCall
          (effectsOf (settle (CreateThen filename content language) o now s))
        = []
        /\ studentFiles
             (stateAfter (settle (CreateThen filename content language)
                                 o now s))
           = studentFiles s
        /\ exists msg,
             stateAfter (settle (CreateThen filename content language)
                                o now s)
             = set_notifications (notifications s ++ [(str "error", msg)]) s).
Proof.
  split.
  - intros H. unfold createNewFile. run.
    destruct (isEmpty (trim (filenameInput s))) eqn:E.
    + cbn. repeat split; eauto.
    + destruct H as [H|H]; [rewrite H in E; discriminate|].
      apply getProperty_In in H as [v ->]. cbn. repeat split; eauto.
  - intros filename content language o now H.
    destruct o as [r|]; cbn in H |- *.
    + apply negb_true_iff in H. unfold createThen. rewrite H. cbn.
      repeat split; eauto.
    + repeat split; eauto.
Qed.

Lemma createNewFile_failure_changes_nothing_witness :
  (trim (filenameInput editingB) = []
   \/ In (trim (filenameInput editingB)) (map fst (studentFiles editingB)))
  /\ failed Rejected = true
  /\ effectsOf (createNewFile editingB) = []
  /\ studentFiles
       (stateAfter (settle (CreateThen (str "new.py") [] (str "python"))
                           Rejected isoDate editingB))
     = studentFiles editingB.
Proof.
  pose proof (createNewFile_failure_changes_nothing editingB) as [H1 H2].
  assert (Hname : trim (filenameInput editingB) = []
                  \/ In (trim (filenameInput editingB))
                        (map fst (studentFiles editingB)))
    by (right; right; left; reflexivity).
  split; [exact Hname|]. split; [reflexivity|]. split.
  - exact (proj1 (H1 Hname)).
  - exact (proj1 (proj2 (H2 (str "new.py") [] (str "python") Rejected isoDate
                            eq_refl))).
Defined.

(** C5 fails on the code.  A save of [c.py] is pending when a file
    whose name holds a double quote ([quotedName]) has become the active
    one; the response reports success.
    The selector that [removeModifiedMark] builds from the active name
    is no selector, the lookup throws before anything is stored, and the
    [catch] closure reports a failed save: the content of the request is
    not written to the active file, and its tab keeps the modified
    mark. *)
Theorem save_under_quoted_name_stores_nothing :
  let c := getCurrentEditorContent threeFiles in
  let r := settle (SaveThen c) (Fulfilled okResponse) isoDate quotedActive in
  effectsOf (saveCurrentFile threeFiles)
  = [CallHandler (save_file (str "c.py") c (Some (str "python")))
                 (SaveThen c)]
  /\ activeFile quotedActive = quotedName
  /\ activeFile quotedActive <> activeFile threeFiles
  /\ readSelector quotedName = Malformed
  /\ removeModifiedMark quotedName quotedActive
     = (Throw SyntaxError, quotedActive, [])
  /\ r = (Normal tt,
          set_notifications [(str "error", str "Failed to save file")]
                            quotedActive,
          [ConsoleError (str "Save failed:")])
  /\ getOwnProperty quotedName (studentFiles (stateAfter r))
     = Some (pythonFile "print('q')")
  /\ content (pythonFile "print('q')") <> Some c
  /\ option_map modified (tabNamed quotedName (fileTabs (stateAfter r)))
     = Some true.
Proof.
  cbv zeta. repeat split; try reflexivity; vm_compute; discriminate.
Qed.

(** C6 fails on the code.  [runCode] issues the call, attaches the
    [then] and [catch] closures and throws where it calls [finally],
    which the promise does not have: nothing is attached that would
    restore the controls.  However the call settles, the continuation
    leaves the executing flag, the buttons and the loading indicator as
    they are; after a run of the idle workspace and a response that
    reports failure, the flag is still set and the buttons are still
    disabled. *)
Theorem runCode_never_restores_controls (o : outcome)
    (now : nat -> jsstring) (s0 s : state) :
  runCode s0
  = (if isExecuting s0 then Normal tt else Throw TypeError,
     stateAfter (runCode s0),
     if isExecuting s0 then []
     else [CallHandler (run_code (activeFile s0) []) RunThen])
  /\ isExecuting (stateAfter (runCode s0)) = true
  /\ isExecuting (stateAfter (settle RunThen o now s)) = isExecuting s
  /\ buttons (stateAfter (settle RunThen o now s)) = buttons s
  /\ loadingDisplay (stateAfter (settle RunThen o now s)) = loadingDisplay s
  /\ isExecuting threeFiles = false
  /\ failed (Fulfilled failedResponse) = true
  /\ isExecuting
       (stateAfter (settle RunThen (Fulfilled failedResponse) isoDate
                           (stateAfter (runCode threeFiles)))) = true
  /\ buttons
       (stateAfter (settle RunThen (Fulfilled failedResponse) isoDate
                           (stateAfter (runCode threeFiles))))
     = [true; true; true].
Proof.
  split; [|split; [|split; [|split; [|split]]]].
  - unfold runCode, setExecutionState, switchOutputTab. run.
    destruct (isExecuting s0); reflexivity.
  - unfold runCode, setExecutionState, switchOutputTab. run.
    destruct (isExecuting s0) eqn:E; [exact E|reflexivity].
  - destruct o; reflexivity.
  - destruct o; reflexivity.
  - destruct o; reflexivity.
  - repeat split.
Qed.

(** ** Deleting the active file *)

Lemma getOwnProperty_Some_pair (V : Type) (k : jsstring)
    (o : list (jsstring * V)) (v : V) :
  getOwnProperty k o = Some v -> In (k, v) o.
Proof.
  induction o as [|[k' v'] o IH]; simpl; [discriminate|].
  destruct (streq k k') eqn:E.
  - apply streq_true_iff in E. intros [= ->]. left. congruence.
  - auto.
Qed.

Lemma names_updateFirst (g : jsstring) (f : tab -> tab) (l : list tab) :
  (forall t, data_filename (f t) = data_filename t) ->
  map data_filename (updateFirst g f l) = map data_filename l.
Proof.
  intros Hf. induction l as [|t l IH]; simpl; [reflexivity|].
  destruct (streq (data_filename t) g); simpl; [now rewrite Hf|].
  now rewrite IH.
Qed.

Lemma data_filename_marked (t : tab) :
  data_filename (marked t) = data_filename t.
Proof. unfold marked. now destruct (modified t). Qed.

Lemma data_filename_unmarked (t : tab) :
  data_filename (unmarked t) = data_filename t.
Proof. unfold unmarked. now destruct (modified t). Qed.

(** The active file, deleted with success, where the names are ordinary:
    what the continuation yields. *)
Lemma deleteThen_active_run (s : state) (r : response)
    (first : jsstring) (rest : list jsstring) :
  truthy (success r) = true ->
  literalSelector (activeFile s) = true ->
  tabsAgree (fileTabs s) = true ->
  forallb ordinaryFile (studentFiles s) = true ->
  Object_keys (deleteProperty (activeFile s) (studentFiles s))
  = first :: rest ->
  exists (d : fileData) (text lang : jsstring),
    getOwnProperty first (deleteProperty (activeFile s) (studentFiles s))
    = Some d
    /\ deleteThen (activeFile s) r s
       = (Normal tt,
          set_notifications
            (notifications s ++ [(str "success", textContentOf (message r))])
            (set_languageSelect (language d)
               (set_fileTabs
                  (map (activeFor first)
                     (match editor s with
                      | Monaco _ _ =>
                          updateFirst first marked
                            (removeFirst (activeFile s) (fileTabs s))
                      | _ => removeFirst (activeFile s) (fileTabs s)
                      end))
                  (set_editor
                     (match editor s with
                      | Monaco _ _ => Monaco text lang
                      | FallbackEditor _ => FallbackEditor text
                      | NoEditor => NoEditor
                      end)
                     (set_currentLanguage (language d)
                        (set_activeFile first
                           (set_studentFiles
                              (deleteProperty (activeFile s)
                                              (studentFiles s)) s)))))),
          [CallHandler (save_file (activeFile s) (getCurrentEditorContent s)
                                  (currentLanguage s))
                       (SaveThen (getCurrentEditorContent s))]).
Proof.
  intros Hok Hg Ht Hord Ek.
  set (filename := activeFile s) in *.
  set (files := deleteProperty filename (studentFiles s)) in *.
  assert (Hin : In first (map fst files)).
  { apply Object_keys_In. rewrite Ek. now left. }
  assert (Hne : first <> filename).
  { apply deleteProperty_keys in Hin. tauto. }
  destruct (getOwnProperty_In _ _ _ Hin) as [d Hd].
  assert (Ho : ordinaryFile (first, d) = true).
  { apply getOwnProperty_Some_pair, deleteProperty_In in Hd.
    rewrite forallb_forall in Hord. now apply Hord. }
  apply andb_true_iff in Ho as [Hfirst Hlang]. cbn [fst snd] in Hfirst, Hlang.
  destruct (getMonacoLanguage_Some _ Hlang) as [lang Hl].
  set (s1 := set_fileTabs (removeFirst filename (fileTabs s))
               (set_studentFiles files s)).
  destruct (contentOr_Some (getProperty first (studentFiles s1))
              (getTemplateForLanguage (language d) s1)
              (getTemplateForLanguage_Some _ s1 Hlang)) as [text Hc].
  exists d, text, lang. split; [exact Hd|].
  unfold deleteThen. rewrite Hok. run.
  match goal with
  | |- context [removeFileTab ?G ?S] =>
      rewrite (removeFileTab_run G S Hg Ht)
  end.
  run. fold filename. rewrite streq_refl. fold files. rewrite Ek.
  rewrite (getProperty_Own _ _ _ _ Hd).
  assert (Hne1 : first <> activeFile s1) by exact Hne.
  assert (Ht1 : tabsAgree (fileTabs s1) = true)
    by (apply tabsAgree_removeFirst; exact Ht).
  fold s1.
  rewrite (switchToFile_run s1 first (language d) text lang Hne1 Hc Hl
             Hfirst Ht1).
  unfold showNotification. run.
  subst s1 files filename. destruct s; reflexivity.
Qed.

(** C9, as amended: with at least two files, a confirmed [deleteFile] of
    the active file whose call succeeds removes the file from the map,
    removes its tab, and makes active the first remaining file in the
    order of [Object.keys] (array indices first, then creation order),
    with the language recorded for that file.  The names of the files
    are such that the selector of a tab is read as it stands, the close
    buttons carry the names of their tabs, and no language is a key of
    [Object.prototype]. *)
Theorem deleteFile_active_switches_to_first_key (s : state) (r : response)
    (answer : jsstring -> bool) (now : nat -> jsstring) :
  NoDup (map fst (studentFiles s)) ->
  2 <= length (studentFiles s) ->
  answer (str "Are you sure you want to delete '" ++ activeFile s
          ++ str "'?") = true ->
  truthy (success r) = true ->
  literalSelector (activeFile s) = true ->
  tabsAgree (fileTabs s) = true ->
  forallb ordinaryFile (studentFiles s) = true ->
  let filename := activeFile s in
  let s' := stateAfter (settle (DeleteThen filename) (Fulfilled r) now s) in
  deleteFile filename answer s
  = (Normal tt, s,
     [Confirm (str "Are you sure you want to delete '" ++ filename
               ++ str "'?");
      CallHandler (delete_file filename) (DeleteThen filename)])
  /\ completionOf (settle (DeleteThen filename) (Fulfilled r) now s)
     = Normal tt
  /\ getOwnProperty filename (studentFiles s') = None
  /\ studentFiles s' = deleteProperty filename (studentFiles s)
  /\ map data_filename (fileTabs s')
     = withoutFirst filename (map data_filename (fileTabs s))
  /\ exists first,
       hd_error (Object_keys (studentFiles s')) = Some first
       /\ first <> filename
       /\ activeFile s' = first
       /\ currentLanguage s'
          = match getOwnProperty first (studentFiles s') with
            | Some d => language d
            | None => None
            end
       /\ Forall (fun t => active t = streq (data_filename t) first)
                 (fileTabs s').
Proof.
  intros Hnd Hlen Hans Hok Hg Ht Hord filename s'. subst filename s'.
  split.
  { unfold deleteFile. run. rewrite Object_keys_length.
    destruct (Nat.leb (length (studentFiles s)) 1) eqn:E.
    - apply Nat.leb_le in E. lia.
    - rewrite Hans. reflexivity. }
  pose proof (deleteProperty_length _ (activeFile s) (studentFiles s) Hnd)
    as Hl.
  pose proof (Object_keys_length _
                (deleteProperty (activeFile s) (studentFiles s))) as Hk.
  destruct (Object_keys (deleteProperty (activeFile s) (studentFiles s)))
    as [|first rest] eqn:Ek; [simpl in Hk; lia|].
  destruct (deleteThen_active_run s r first rest Hok Hg Ht Hord Ek)
    as (d & text & lang & Hd & Hrun).
  assert (Hfirst : first <> activeFile s).
  { assert (Hin : In first
               (Object_keys (deleteProperty (activeFile s) (studentFiles s))))
      by (rewrite Ek; now left).
    apply Object_keys_In, deleteProperty_keys in Hin. tauto. }
  assert (Hs : settle (DeleteThen (activeFile s)) (Fulfilled r) now s
               = deleteThen (activeFile s) r s).
  { unfold settle, thenCatch.
    rewrite (tryCatch_Normal _ _ _ _ _ _ _ Hrun). now rewrite Hrun. }
  rewrite Hs, Hrun. run.
  split; [reflexivity|].
  split; [apply getOwnProperty_deleteProperty|].
  split; [reflexivity|].
  split.
  { rewrite map_map. cbn [activeFor data_filename].
    rewrite <- removeFirst_names.
    destruct (editor s); [|reflexivity|reflexivity].
    apply (names_updateFirst first marked), data_filename_marked. }
  exists first. rewrite Ek. cbn [hd_error]. rewrite Hd.
  repeat split; auto.
  apply Forall_forall. intros t Hin.
  apply in_map_iff in Hin as (t0 & <- & _). reflexivity.
Qed.

Lemma deleteFile_active_switches_to_first_key_witness :
  NoDup (map fst (studentFiles threeFiles))
  /\ 2 <= length (studentFiles threeFiles)
  /\ truthy (success okResponse) = true
  /\ literalSelector (activeFile threeFiles) = true
  /\ tabsAgree (fileTabs threeFiles) = true
  /\ forallb ordinaryFile (studentFiles threeFiles) = true
  /\ getOwnProperty (activeFile threeFiles)
       (studentFiles
          (stateAfter (settle (DeleteThen (activeFile threeFiles))
                              (Fulfilled okResponse) isoDate threeFiles)))
     = None.
Proof.
  assert (H1 : NoDup (map fst (studentFiles threeFiles))).
  { vm_compute. repeat constructor; cbn; intuition discriminate. }
  assert (H2 : 2 <= length (studentFiles threeFiles)) by (cbn; lia).
  assert (H4 : truthy (success okResponse) = true) by reflexivity.
  split; [exact H1|]. split; [exact H2|]. split; [exact H4|].
  split; [reflexivity|]. split; [reflexivity|]. split; [reflexivity|].
  pose proof (deleteFile_active_switches_to_first_key threeFiles okResponse
                (fun _ => true) isoDate H1 H2 eq_refl H4 eq_refl eq_refl
                eq_refl) as H.
  cbv zeta in H. destruct H as (_ & _ & Hg & _). exact Hg.
Defined.

(** C9, as stated, fails: of the files [c.py], [b.py], [a.py], created in
    that order, the active [c.py] is deleted; the file made active is
    [b.py], the first remaining key, and not [a.py], the first remaining
    name in lexicographic order. *)
Lemma first_remaining_file_is_not_lexicographic :
  activeFile threeFiles = str "c.py"
  /\ effectsOf (deleteFile (str "c.py") (fun _ => true) threeFiles)
     = [Confirm (str "Are you sure you want to delete 'c.py'?");
        CallHandler (delete_file (str "c.py")) (DeleteThen (str "c.py"))]
  /\ map fst (studentFiles afterDeletingC) = [str "b.py"; str "a.py"]
  /\ lexFirst (map fst (studentFiles afterDeletingC)) = Some (str "a.py")
  /\ activeFile afterDeletingC = str "b.py"
  /\ activeFile afterDeletingC <> str "a.py".
Proof.
  repeat split; try (vm_compute; reflexivity).
  vm_compute. discriminate.
Qed.

(** ** Rendering of responses *)

(** C1 fails on the code: the status description of a [run_code]
    response and the points of a [submit_solution] test are inserted in
    the markup as they are, while [escapeHtml] would have rewritten
    them. *)
Theorem response_fields_inserted_unescaped (s : state) :
  consoleOutput (stateAfter (displayExecutionResult statusMarkupResponse s))
  = executionMarkup statusMarkupResponse
  /\ includes (executionMarkup statusMarkupResponse) markupText = true
  /\ testResults
       (stateAfter (displaySubmissionResult pointsMarkupResponse s))
     = flat_map testMarkup
         [mkTest (JStr (str "t1")) (JBool false) (JStr markupText) (JNum 0)
                 (JBool false) JUndefined JUndefined]
  /\ includes
       (testResults
          (stateAfter (displaySubmissionResult pointsMarkupResponse s)))
       markupText = true
  /\ escapeHtml (JStr markupText) = str "&lt;img src=x onerror=alert(1)&gt;"
  /\ includes (executionMarkup statusMarkupResponse)
              (escapeHtml (JStr markupText)) = false.
Proof.
  repeat split; try reflexivity; vm_compute; reflexivity.
Qed.

End WorkspaceFacts.
(** * Further properties of the Studio form *)

Module StudioLaws.
Import JS Studio JSFacts StudioFacts.

(** ** [validateField] in closed form *)

Lemma validateField_result (f : field) :
  validateField f
  = (mkField (tag f) (name f) (value f) (data_validate f)
             (negb (passes f)) false
             ((passes f && declares f Required
               && negb (isEmpty (trim (value f)))) || has_success f)
             (match lastFailing f with
              | Some r => [ruleMessage r]
              | None => []
              end),
     passes f).
Proof.
  unfold passes, lastFailing, failingRules, ruleFails, declares, validateField.
  cbn [filter ruleName].
  destruct (arrayIncludes (validationsOf f) (str "required"));
    destruct (arrayIncludes (validationsOf f) (str "number"));
    destruct (arrayIncludes (validationsOf f) (str "url"));
    destruct (isEmpty (trim (value f)));
    destruct (isNaN_Number (trim (value f)));
    destruct (urlPattern_test (trim (value f)));
    cbn; rewrite ?orb_true_r; reflexivity.
Qed.

Lemma failingRules_congr (f g : field) :
  value f = value g -> data_validate f = data_validate g ->
  failingRules f = failingRules g.
Proof.
  intros Hv Hd.
  unfold failingRules, ruleFails, declares, validationsOf.
  now rewrite Hv, Hd.
Qed.

Lemma declares_congr (f g : field) (r : rule) :
  data_validate f = data_validate g -> declares f r = declares g r.
Proof. intros Hd. unfold declares, validationsOf. now rewrite Hd. Qed.

Lemma validateField_again (f : field) :
  validateField (fst (validateField f)) = validateField f.
Proof.
  destruct (validateField_shape f) as (Ht & Hn & Hv & Hd).
  assert (HS : has_success (fst (validateField f))
               = (passes f && declares f Required
                  && negb (isEmpty (trim (value f)))) || has_success f)
    by (rewrite validateField_result; reflexivity).
  rewrite (validateField_result (fst (validateField f))).
  unfold passes at 1 2 3, lastFailing at 1.
  rewrite (failingRules_congr _ f Hv Hd), (declares_congr _ f Required Hd).
  rewrite Ht, Hn, Hv, Hd, HS. rewrite (validateField_result f).
  unfold passes, lastFailing.
  destruct (failingRules f); cbn;
    destruct (declares f Required), (isEmpty (trim (value f))),
             (has_success f); reflexivity.
Qed.

(** X1: validating a control again changes nothing: the second run
    removes the feedback of the first and attaches the same one, with the
    same classes and the same verdict. *)
Theorem validateField_idempotent (f : field) :
  validateField (fst (validateField f)) = validateField f.
Proof. apply validateField_again. Qed.

(** X2: on a control whose trimmed value is empty the verdict is decided
    by the rule [required] alone: without it the control passes and gets
    no message, whatever its other rules; with it the control fails with
    the message of [required]. *)
Theorem validateField_empty_value (f : field) :
  trim (value f) = [] ->
  snd (validateField f) = negb (declares f Required)
  /\ feedback (fst (validateField f))
     = (if declares f Required then [msgRequired] else [])
  /\ has_error (fst (validateField f)) = declares f Required.
Proof.
  intros He. rewrite validateField_result. cbn [fst snd feedback has_error].
  unfold passes, lastFailing, failingRules, ruleFails. cbn [filter].
  rewrite He. cbn [isEmpty negb andb].
  rewrite ?andb_true_r, ?andb_false_r.
  destruct (declares f Required); cbn; auto.
Qed.

Lemma validateField_empty_value_witness :
  trim (value emptiedAfterSuccess) = []
  /\ snd (validateField emptiedAfterSuccess)
     = negb (declares emptiedAfterSuccess Required).
Proof.
  split; [reflexivity|].
  exact (proj1 (validateField_empty_value emptiedAfterSuccess eq_refl)).
Defined.

(** X3: [validateField] never takes the class [success] away: a control
    that carries it keeps it, also when the control now fails and gets
    the class [error] beside it. *)
Theorem validateField_keeps_success (f : field) :
  has_success f = true ->
  has_success (fst (validateField f)) = true
  /\ has_error (fst (validateField f)) = negb (snd (validateField f)).
Proof.
  intros H. rewrite validateField_result. cbn. rewrite H.
  now rewrite orb_true_r.
Qed.

Lemma validateField_keeps_success_witness :
  has_success emptiedAfterSuccess = true
  /\ has_success (fst (validateField emptiedAfterSuccess)) = true
  /\ has_error (fst (validateField emptiedAfterSuccess)) = true.
Proof.
  split; [reflexivity|].
  destruct (validateField_keeps_success emptiedAfterSuccess eq_refl)
    as [H1 H2].
  split; [exact H1|]. rewrite H2. reflexivity.
Defined.

(** ** [validateForm] in closed form *)

Lemma validateRequired_fields (l : list field) (b : bool) :
  fst (validateRequired l b) = map revalidate l.
Proof.
  revert b; induction l as [|f l IH]; intros b; simpl; [reflexivity|].
  unfold revalidate at 1. destruct (selectsRequired f).
  - destruct (validateField f) as [f' ok]; simpl.
    specialize (IH (if negb ok then false else b)).
    destruct (validateRequired l (if negb ok then false else b)); simpl in *.
    now rewrite IH.
  - specialize (IH b). destruct (validateRequired l b); simpl in *.
    now rewrite IH.
Qed.

Lemma validateItems_fields (l : list item) (b : bool) :
  fst (validateItems l b) = map revalidateItem l.
Proof.
  revert b; induction l as [|it l IH]; intros b; simpl; [reflexivity|].
  pose proof (validateRequired_fields (fields it) b) as H.
  destruct (validateRequired (fields it) b) as [fs b1]; simpl in *.
  specialize (IH b1). destruct (validateItems l b1); simpl in *.
  rewrite IH. unfold revalidateItem at 1. now rewrite H.
Qed.

Lemma validateForm_fields (p : page) :
  otherFields (fst (validateForm p)) = map revalidate (otherFields p)
  /\ testCases (fst (validateForm p)) = map revalidateItem (testCases p)
  /\ languages (fst (validateForm p)) = map revalidateItem (languages p)
  /\ notifications (fst (validateForm p)) = notifications p.
Proof.
  unfold validateForm.
  pose proof (validateRequired_fields (otherFields p) true) as H1.
  destruct (validateRequired (otherFields p) true) as [others b1].
  pose proof (validateItems_fields (testCases p) b1) as H2.
  destruct (validateItems (testCases p) b1) as [tcs b2].
  pose proof (validateItems_fields (languages p) b2) as H3.
  destruct (validateItems (languages p) b2) as [langs b3].
  cbn [fst snd] in *. subst others tcs langs.
  cbn [testCases languages].
  destruct (Nat.eqb (length (map revalidateItem (testCases p))) 0); cbn;
    destruct (Nat.eqb (length (map revalidateItem (languages p))) 0); cbn;
    auto.
Qed.

Lemma validateForm_aggregates_parts (p : page) :
  snd (validateForm p)
  = forallb fieldPasses (filter selectsRequired (formFields p))
    && structuralChecks p
  /\ saveDisabled (fst (validateForm p)) = negb (snd (validateForm p)).
Proof.
  destruct (validateForm_parts p) as (_ & _ & Hv & Hs). now split.
Qed.

Lemma revalidate_shape (f : field) :
  value (revalidate f) = value f
  /\ data_validate (revalidate f) = data_validate f.
Proof.
  unfold revalidate. destruct (selectsRequired f); [|auto].
  destruct (validateField_shape f) as (_ & _ & Hv & Hd). auto.
Qed.

Lemma fieldPasses_congr (f g : field) :
  value f = value g -> data_validate f = data_validate g ->
  fieldPasses f = fieldPasses g.
Proof.
  intros Hv Hd. unfold fieldPasses. rewrite !validateField_result.
  cbn [snd]. unfold passes. now rewrite (failingRules_congr f g Hv Hd).
Qed.

Lemma selectsRequired_congr (f g : field) :
  data_validate f = data_validate g -> selectsRequired f = selectsRequired g.
Proof. intros Hd. unfold selectsRequired. now rewrite Hd. Qed.

Lemma revalidate_idempotent (f : field) :
  revalidate (revalidate f) = revalidate f.
Proof.
  unfold revalidate at 1 2. destruct (selectsRequired f) eqn:E.
  - rewrite (selectsRequired_congr (fst (validateField f)) f), E
      by apply validateField_shape.
    unfold revalidate. now rewrite E, validateField_again.
  - unfold revalidate. now rewrite E.
Qed.

Lemma revalidateItem_idempotent (it : item) :
  revalidateItem (revalidateItem it) = revalidateItem it.
Proof.
  unfold revalidateItem. cbn [title fields]. f_equal.
  rewrite map_map. apply map_ext. apply revalidate_idempotent.
Qed.

Lemma filter_forallb_map (g : field -> field) (l : list field) :
  (forall f, selectsRequired (g f) = selectsRequired f) ->
  (forall f, fieldPasses (g f) = fieldPasses f) ->
  forallb fieldPasses (filter selectsRequired (map g l))
  = forallb fieldPasses (filter selectsRequired l).
Proof.
  intros Hs Hp. induction l as [|f l IH]; simpl; [reflexivity|].
  rewrite Hs. destruct (selectsRequired f); simpl; [rewrite Hp|]; now rewrite IH.
Qed.

Lemma flat_map_fields_map (g : field -> field) (t : item -> jsstring)
    (l : list item) :
  flat_map fields (map (fun it => mkItem (t it) (map g (fields it))) l)
  = map g (flat_map fields l).
Proof.
  induction l as [|it l IH]; simpl; [reflexivity|].
  now rewrite IH, map_app.
Qed.

(** The verdict of the form after each control was rewritten by a
    function that keeps values and rules. *)
Lemma validateForm_verdict_map (g : field -> field) (p q : page) :
  (forall f, value (g f) = value f /\ data_validate (g f) = data_validate f) ->
  otherFields q = map g (otherFields p) ->
  testCases q
  = map (fun it => mkItem (title it) (map g (fields it))) (testCases p) ->
  languages q
  = map (fun it => mkItem (title it) (map g (fields it))) (languages p) ->
  snd (validateForm q) = snd (validateForm p).
Proof.
  intros Hg Ho Ht Hl.
  destruct (validateForm_aggregates_parts q) as [Hq _].
  destruct (validateForm_aggregates_parts p) as [Hp _].
  rewrite Hq, Hp. unfold formFields, structuralChecks.
  rewrite Ho, Ht, Hl, !length_map, !flat_map_fields_map.
  rewrite !filter_app, !forallb_app.
  rewrite !(filter_forallb_map g); try reflexivity.
  all: intros f; destruct (Hg f) as [Hv Hd];
    first [now apply selectsRequired_congr | now apply fieldPasses_congr].
Qed.

(** X4: form validation is idempotent on the form: a second run leaves
    every control, the save button and the verdict as the first run left
    them (only the structural messages are shown again). *)
Theorem validateForm_idempotent (p : page) :
  otherFields (fst (validateForm (fst (validateForm p))))
  = otherFields (fst (validateForm p))
  /\ testCases (fst (validateForm (fst (validateForm p))))
     = testCases (fst (validateForm p))
  /\ languages (fst (validateForm (fst (validateForm p))))
     = languages (fst (validateForm p))
  /\ saveDisabled (fst (validateForm (fst (validateForm p))))
     = saveDisabled (fst (validateForm p))
  /\ snd (validateForm (fst (validateForm p))) = snd (validateForm p).
Proof.
  destruct (validateForm_fields p) as (Ho & Ht & Hl & _).
  destruct (validateForm_fields (fst (validateForm p))) as (Ho' & Ht' & Hl' & _).
  assert (Hv : snd (validateForm (fst (validateForm p)))
               = snd (validateForm p))
    by (apply (validateForm_verdict_map revalidate p _ revalidate_shape);
        assumption).
  rewrite Ho', Ht', Hl', Ho, Ht, Hl, !map_map.
  repeat split.
  - apply map_ext, revalidate_idempotent.
  - apply map_ext, revalidateItem_idempotent.
  - apply map_ext, revalidateItem_idempotent.
  - destruct (validateForm_aggregates_parts (fst (validateForm p))) as [_ ->].
    destruct (validateForm_aggregates_parts p) as [_ ->]. now rewrite Hv.
  - exact Hv.
Qed.

Lemma validateDeclared_shape (f : field) :
  value (validateDeclared f) = value f
  /\ data_validate (validateDeclared f) = data_validate f.
Proof.
  unfold validateDeclared. destruct (data_validate f) eqn:E; [|auto].
  destruct (validateField_shape f) as (_ & _ & Hv & Hd).
  rewrite Hv, Hd. auto.
Qed.

Lemma revalidate_validateDeclared (f : field) :
  revalidate (validateDeclared f) = validateDeclared f.
Proof.
  destruct (validateDeclared_shape f) as [Hv Hd].
  unfold revalidate.
  rewrite (selectsRequired_congr (validateDeclared f) f Hd).
  unfold selectsRequired, validateDeclared.
  destruct (data_validate f) as [d|]; [|reflexivity].
  destruct (includes d (str "required")); [|reflexivity].
  apply f_equal, validateField_again.
Qed.

(** X5: the validation run at start-up checks every control that has a
    [data-validate] attribute and leaves the save button alone; form
    validation run after it changes no control further and gives the
    verdict it gives on the page as loaded. *)
Theorem initializeValidation_then_validateForm (p : page) :
  saveDisabled (initializeValidation p) = saveDisabled p
  /\ otherFields (fst (validateForm (initializeValidation p)))
     = otherFields (initializeValidation p)
  /\ testCases (fst (validateForm (initializeValidation p)))
     = testCases (initializeValidation p)
  /\ languages (fst (validateForm (initializeValidation p)))
     = languages (initializeValidation p)
  /\ snd (validateForm (initializeValidation p)) = snd (validateForm p).
Proof.
  destruct (validateForm_fields (initializeValidation p))
    as (Ho & Ht & Hl & _).
  rewrite Ho, Ht, Hl. cbn [initializeValidation otherFields testCases
    languages saveDisabled]. rewrite !map_map.
  repeat split.
  - apply map_ext, revalidate_validateDeclared.
  - apply map_ext. intros it. unfold revalidateItem. cbn. f_equal.
    rewrite map_map. apply map_ext, revalidate_validateDeclared.
  - apply map_ext. intros it. unfold revalidateItem. cbn. f_equal.
    rewrite map_map. apply map_ext, revalidate_validateDeclared.
  - apply (validateForm_verdict_map validateDeclared p _
             validateDeclared_shape); reflexivity.
Qed.

(** ** Counts, titles and values of the repeated groups *)

Lemma eachIndexed_length (F : nat -> item -> item) (k : nat) (l : list item) :
  length (eachIndexed F k l) = length l.
Proof.
  revert k; induction l as [|it l IH]; simpl; intros k; auto.
Qed.

Lemma eachIndexed_titles (F : nat -> item -> item) (t : nat -> jsstring)
    (k : nat) (l : list item) :
  (forall i it, title (F i it) = t i) ->
  map title (eachIndexed F k l) = map t (seq k (length l)).
Proof.
  intros HF. revert k; induction l as [|it l IH]; simpl; intros k; auto.
  now rewrite HF, IH.
Qed.

Lemma eachIndexed_app (F : nat -> item -> item) (k : nat)
    (l : list item) (x : item) :
  eachIndexed F k (l ++ [x]) = eachIndexed F k l ++ [F (k + length l) x].
Proof.
  revert k; induction l as [|it l IH]; simpl; intros k.
  - now rewrite Nat.add_0_r.
  - rewrite IH. now rewrite Nat.add_succ_r.
Qed.

Lemma eachIndexed_values (F : nat -> item -> item) (k : nat)
    (l : list item) :
  (forall i it, map value (fields (F i it)) = map value (fields it)) ->
  blockValues (eachIndexed F k l) = blockValues l.
Proof.
  intros HF. unfold blockValues.
  revert k; induction l as [|it l IH]; simpl; intros k; auto.
  now rewrite HF, IH.
Qed.

Lemma removeAt_length {A : Type} (k : nat) (l : list A) :
  length (removeAt k l)
  = if Nat.ltb k (length l) then length l - 1 else length l.
Proof.
  revert k; induction l as [|x l IH]; intros [|k]; simpl; auto.
  - lia.
  - rewrite IH. change (Nat.ltb (S k) (S (length l)))
      with (Nat.ltb k (length l)).
    destruct (Nat.ltb k (length l)) eqn:E; [|reflexivity].
    apply Nat.ltb_lt in E. lia.
Qed.

Lemma revalidateItem_titles (l : list item) :
  map title (map revalidateItem l) = map title l.
Proof. rewrite map_map. reflexivity. Qed.

Lemma revalidateItem_values (l : list item) :
  blockValues (map revalidateItem l) = blockValues l.
Proof.
  unfold blockValues. rewrite map_map. apply map_ext. intros it.
  cbn. rewrite map_map. apply map_ext. intros f. apply revalidate_shape.
Qed.

Lemma renameField_value (i : nat) (f : field) :
  value (renameField i f) = value f.
Proof.
  unfold renameField. destruct (tag f); destruct (name f) as [nm|]; auto;
    destruct (negb (isEmpty nm) && includes nm (str "[")
              && includes nm (str "]")); reflexivity.
Qed.

Lemma renameField_rules (i : nat) (f : field) :
  data_validate (renameField i f) = data_validate f.
Proof.
  unfold renameField. destruct (tag f); destruct (name f) as [nm|]; auto;
    destruct (negb (isEmpty nm) && includes nm (str "[")
              && includes nm (str "]")); reflexivity.
Qed.

Lemma step_lengths (p : page) (o : operation) :
  length (testCases (step p o))
  = testCaseCountAfter o (length (testCases p))
  /\ length (languages (step p o))
     = languageCountAfter o (length (languages p)).
Proof.
  destruct o as [|k| |k]; cbn [step testCaseCountAfter languageCountAfter];
    unfold addTestCase, removeTestCase, addLanguage, removeLanguage,
      countAfter.
  - destruct (validateForm_fields
                (updateTestCaseIndexes
                   (mkPage (otherFields p)
                      (testCases p
                       ++ [createTestCaseHtml
                             (str "test_"
                              ++ decimal (length (testCases p) + 1))
                             (length (testCases p) + 1)])
                      (languages p) (saveDisabled p) (validationMessages p)
                      (notifications p)))) as (_ & -> & -> & _).
    cbn [updateTestCaseIndexes testCases languages].
    rewrite !length_map, eachIndexed_length, length_app. cbn. lia.
  - destruct (Nat.leb (length (testCases p)) 1); [auto|].
    destruct (validateForm_fields
                (updateTestCaseIndexes
                   (mkPage (otherFields p) (removeAt k (testCases p))
                      (languages p) (saveDisabled p) (validationMessages p)
                      (notifications p)))) as (_ & -> & -> & _).
    cbn [updateTestCaseIndexes testCases languages].
    rewrite !length_map, eachIndexed_length, removeAt_length. auto.
  - destruct (validateForm_fields
                (updateLanguageIndexes
                   (mkPage (otherFields p) (testCases p)
                      (languages p
                       ++ [createLanguageHtml
                             (str "language_"
                              ++ decimal (length (languages p) + 1))
                             (length (languages p) + 1)])
                      (saveDisabled p) (validationMessages p)
                      (notifications p)))) as (_ & -> & -> & _).
    cbn [updateLanguageIndexes testCases languages].
    rewrite !length_map, eachIndexed_length, length_app. cbn. lia.
  - destruct (Nat.leb (length (languages p)) 1); [auto|].
    destruct (validateForm_fields
                (updateLanguageIndexes
                   (mkPage (otherFields p) (testCases p)
                      (removeAt k (languages p)) (saveDisabled p)
                      (validationMessages p) (notifications p))))
      as (_ & -> & -> & _).
    cbn [updateLanguageIndexes testCases languages].
    rewrite !length_map, eachIndexed_length, removeAt_length. auto.
Qed.

(** X6: an addition adds one block to its group; a removal takes one
    block away when the group has at least two, and none when it has one
    (or none); no operation changes the number of blocks of the other
    group. *)
Theorem step_counts (p : page) (o : operation) :
  length (testCases (step p o))
  = testCaseCountAfter o (length (testCases p))
  /\ length (languages (step p o))
     = languageCountAfter o (length (languages p)).
Proof. apply step_lengths. Qed.

(** X7: a group that has a block never becomes empty: after every
    sequence of add and remove operations a page that had a test case
    still has one, and a page that had a language still has one. *)
Theorem groups_stay_nonempty (p : page) (ops : list operation) :
  (1 <= length (testCases p) -> 1 <= length (testCases (run ops p)))
  /\ (1 <= length (languages p) -> 1 <= length (languages (run ops p))).
Proof.
  unfold run. revert p. induction ops as [|o ops IH]; intros p; simpl; auto.
  destruct (IH (step p o)) as [IH1 IH2].
  destruct (step_lengths p o) as [H1 H2].
  split; intros H; [apply IH1; rewrite H1 | apply IH2; rewrite H2].
  - destruct o as [|k| |k]; cbn [testCaseCountAfter]; unfold countAfter;
      try lia.
    destruct (Nat.leb (length (testCases p)) 1) eqn:E; try lia.
    apply Nat.leb_gt in E.
    destruct (Nat.ltb k (length (testCases p))); lia.
  - destruct o as [|k| |k]; cbn [languageCountAfter]; unfold countAfter;
      try lia.
    destruct (Nat.leb (length (languages p)) 1) eqn:E; try lia.
    apply Nat.leb_gt in E.
    destruct (Nat.ltb k (length (languages p))); lia.
Qed.

Lemma groups_stay_nonempty_witness :
  1 <= length (testCases optionalRulesPage)
  /\ 1 <= length (languages optionalRulesPage)
  /\ 1 <= length (testCases
                   (run [RemoveTestCase 0; AddTestCase; RemoveTestCase 1;
                         RemoveTestCase 0; RemoveLanguage 0]
                        optionalRulesPage))
  /\ 1 <= length (languages
                   (run [RemoveTestCase 0; AddTestCase; RemoveTestCase 1;
                         RemoveTestCase 0; RemoveLanguage 0]
                        optionalRulesPage)).
Proof.
  assert (H1 : 1 <= length (testCases optionalRulesPage)) by (cbn; lia).
  assert (H2 : 1 <= length (languages optionalRulesPage)) by (cbn; lia).
  destruct (groups_stay_nonempty optionalRulesPage
              [RemoveTestCase 0; AddTestCase; RemoveTestCase 1;
               RemoveTestCase 0; RemoveLanguage 0]) as [G1 G2].
  repeat split; auto.
Defined.

Lemma forallb_false_In {A : Type} (P : A -> bool) (l : list A) (x : A) :
  In x l -> P x = false -> forallb P l = false.
Proof.
  intros Hin Hx. destruct (forallb P l) eqn:E; [|reflexivity].
  rewrite forallb_forall in E. rewrite (E x Hin) in Hx. discriminate.
Qed.

(** X8: adding a test case always disables the save button: the new
    block comes with an empty expected output, which is required. *)
Theorem addTestCase_disables_save (p : page) :
  saveDisabled (addTestCase p) = true
  /\ fieldPasses
       (plainField Textarea
          (testCaseFieldName (length (testCases p) + 1) "expected_output")
          [] (Some (str "required"))) = false.
Proof.
  split; [|reflexivity].
  unfold addTestCase.
  match goal with
  | |- saveDisabled (fst (validateForm ?q)) = _ =>
      destruct (validateForm_aggregates_parts q) as [Hv ->]; rewrite Hv
  end.
  apply negb_true_iff, andb_false_iff. left.
  set (n := length (testCases p)).
  set (f0 := plainField Textarea (testCaseFieldName (n + 1) "expected_output")
                        [] (Some (str "required"))).
  apply (forallb_false_In _ _ (renameField (0 + n) f0)).
  - apply filter_In. split.
    + unfold formFields. cbn [updateTestCaseIndexes otherFields testCases
        languages].
      rewrite eachIndexed_app, flat_map_app. cbn [flat_map fields].
      rewrite !in_app_iff. right. left. right. left. apply in_map.
      cbn. fold n. fold f0. tauto.
    + rewrite (selectsRequired_congr _ f0 (renameField_rules _ _)).
      reflexivity.
  - rewrite (fieldPasses_congr _ f0 (renameField_value _ _)
               (renameField_rules _ _)).
    reflexivity.
Qed.

(** X9: the titles of both groups stay numbered 1, 2, ... in visual
    order through every sequence of add and remove operations. *)
Theorem titles_stay_numbered (p : page) (ops : list operation) :
  titlesNumbered p -> titlesNumbered (run ops p).
Proof.
  unfold run. revert p. induction ops as [|o ops IH]; intros p H; simpl;
    [exact H|].
  apply IH. clear IH. destruct H as [H1 H2]. unfold titlesNumbered.
  destruct o as [|k| |k]; cbn [step];
    unfold addTestCase, removeTestCase, addLanguage, removeLanguage.
  - match goal with
    | |- context [validateForm ?q] =>
        destruct (validateForm_fields q) as (_ & -> & -> & _)
    end.
    cbn [updateTestCaseIndexes testCases languages].
    rewrite !revalidateItem_titles, !length_map, eachIndexed_length.
    split; [|exact H2]. now apply eachIndexed_titles.
  - destruct (Nat.leb (length (testCases p)) 1); [now split|].
    match goal with
    | |- context [validateForm ?q] =>
        destruct (validateForm_fields q) as (_ & -> & -> & _)
    end.
    cbn [updateTestCaseIndexes testCases languages].
    rewrite !revalidateItem_titles, !length_map, eachIndexed_length.
    split; [|exact H2]. now apply eachIndexed_titles.
  - match goal with
    | |- context [validateForm ?q] =>
        destruct (validateForm_fields q) as (_ & -> & -> & _)
    end.
    cbn [updateLanguageIndexes testCases languages].
    rewrite !revalidateItem_titles, !length_map, eachIndexed_length.
    split; [exact H1|]. now apply eachIndexed_titles.
  - destruct (Nat.leb (length (languages p)) 1); [now split|].
    match goal with
    | |- context [validateForm ?q] =>
        destruct (validateForm_fields q) as (_ & -> & -> & _)
    end.
    cbn [updateLanguageIndexes testCases languages].
    rewrite !revalidateItem_titles, !length_map, eachIndexed_length.
    split; [exact H1|]. now apply eachIndexed_titles.
Qed.

Lemma titles_stay_numbered_witness :
  titlesNumbered (run [AddTestCase; AddLanguage] emptyPage)
  /\ titlesNumbered
       (run [AddTestCase; RemoveTestCase 0; RemoveLanguage 0; AddLanguage]
            (run [AddTestCase; AddLanguage] emptyPage)).
Proof.
  assert (H : titlesNumbered (run [AddTestCase; AddLanguage] emptyPage))
    by (split; vm_compute; reflexivity).
  split; [exact H|].
  exact (@titles_stay_numbered
           (run [AddTestCase; AddLanguage] emptyPage)
           [AddTestCase; RemoveTestCase 0; RemoveLanguage 0; AddLanguage] H).
Defined.

Lemma blockValues_app (l : list item) (x : item) :
  blockValues (l ++ [x]) = blockValues l ++ [map value (fields x)].
Proof. unfold blockValues. now rewrite map_app. Qed.

Lemma blockValues_removeAt (k : nat) (l : list item) :
  blockValues (removeAt k l) = removeAt k (blockValues l).
Proof.
  unfold blockValues.
  revert k; induction l as [|it l IH]; intros [|k]; simpl; auto.
  now rewrite IH.
Qed.

Lemma blockValues_length (l : list item) :
  length (blockValues l) = length l.
Proof. unfold blockValues. apply length_map. Qed.

(** X10: no add or remove operation alters a value the instructor
    entered: the values of the controls of the blocks that stay, and of
    the controls outside the groups, are as they were; an addition
    appends the default values of the new block, a removal drops the
    values of the removed block. *)
Theorem step_keeps_values (p : page) (o : operation) :
  map value (otherFields (step p o)) = map value (otherFields p)
  /\ blockValues (testCases (step p o))
     = match o with
       | AddTestCase =>
           valuesAfter true 0
             [str "test_" ++ decimal (length (testCases p) + 1);
              str "Test Case " ++ decimal (length (testCases p) + 1);
              str "10"; str "2.0"; []; []; str "on"]
             (blockValues (testCases p))
       | RemoveTestCase k => valuesAfter false k [] (blockValues (testCases p))
       | _ => blockValues (testCases p)
       end
  /\ blockValues (languages (step p o))
     = match o with
       | AddLanguage =>
           valuesAfter true 0
             [str "language_" ++ decimal (length (languages p) + 1);
              str "Language " ++ decimal (length (languages p) + 1);
              str "71"; str "py";
              str "# Write your code here" ++ nl 0
              ++ str "print('Hello, World!')"]
             (blockValues (languages p))
       | RemoveLanguage k => valuesAfter false k [] (blockValues (languages p))
       | _ => blockValues (languages p)
       end.
Proof.
  assert (Hr : forall l, map value (map revalidate l) = map value l).
  { intros l. rewrite map_map. apply map_ext. intros f.
    apply revalidate_shape. }
  assert (Hn : forall i it,
             map value (fields (mkItem (str "Test Case " ++ decimal (i + 1))
                                       (map (renameField i) (fields it))))
             = map value (fields it)).
  { intros i it. cbn. rewrite map_map. apply map_ext, renameField_value. }
  unfold valuesAfter. rewrite !blockValues_length.
  destruct o as [|k| |k]; cbn [step];
    unfold addTestCase, removeTestCase, addLanguage, removeLanguage.
  - match goal with
    | |- context [validateForm ?q] =>
        destruct (validateForm_fields q) as (-> & -> & -> & _)
    end.
    cbn [updateTestCaseIndexes otherFields testCases languages].
    rewrite Hr, !revalidateItem_values, eachIndexed_values by exact Hn.
    rewrite blockValues_app. auto.
  - destruct (Nat.leb (length (testCases p)) 1); [auto|].
    match goal with
    | |- context [validateForm ?q] =>
        destruct (validateForm_fields q) as (-> & -> & -> & _)
    end.
    cbn [updateTestCaseIndexes otherFields testCases languages].
    rewrite Hr, !revalidateItem_values, eachIndexed_values by exact Hn.
    rewrite blockValues_removeAt. auto.
  - match goal with
    | |- context [validateForm ?q] =>
        destruct (validateForm_fields q) as (-> & -> & -> & _)
    end.
    cbn [updateLanguageIndexes otherFields testCases languages].
    rewrite Hr, !revalidateItem_values, eachIndexed_values by reflexivity.
    rewrite blockValues_app. auto.
  - destruct (Nat.leb (length (languages p)) 1); [auto|].
    match goal with
    | |- context [validateForm ?q] =>
        destruct (validateForm_fields q) as (-> & -> & -> & _)
    end.
    cbn [updateLanguageIndexes otherFields testCases languages].
    rewrite Hr, !revalidateItem_values, eachIndexed_values by reflexivity.
    rewrite blockValues_removeAt. auto.
Qed.

(** X11: the API key toggle alternates between two states in which the
    input type, the icon and the title of the button agree: after a
    toggle the input is either a text input with the icon [fa-eye-slash]
    and the title [Hide API key], or a password input with the icon
    [fa-eye] and the title [Show API key]; two more toggles come back to
    the same state. *)
Theorem toggleApiKeyVisibility_alternates (c : apiKeyControl) :
  (toggleApiKeyVisibility c
   = mkApiKey (Some (str "text")) false true (Some (str "Hide API key"))
   \/ toggleApiKeyVisibility c
      = mkApiKey (Some (str "password")) true false
                 (Some (str "Show API key")))
  /\ toggleApiKeyVisibility (toggleApiKeyVisibility c)
     <> toggleApiKeyVisibility c
  /\ toggleApiKeyVisibility
       (toggleApiKeyVisibility (toggleApiKeyVisibility c))
     = toggleApiKeyVisibility c.
Proof.
  assert (H : toggleApiKeyVisibility c
              = mkApiKey (Some (str "text")) false true
                         (Some (str "Hide API key"))
              \/ toggleApiKeyVisibility c
                 = mkApiKey (Some (str "password")) true false
                            (Some (str "Show API key"))).
  { unfold toggleApiKeyVisibility.
    destruct (match inputType c with
              | Some t => streq t (str "password")
              | None => false
              end); auto. }
  split; [exact H|].
  destruct H as [-> | ->]; split;
    solve [ intros H; vm_compute in H; discriminate
          | vm_compute; reflexivity ].
Qed.

End StudioLaws.
(** * Further properties of the student workspace *)

Module WorkspaceLaws.
Import JS Workspace JSFacts WorkspaceFacts.

Local Unset Implicit Arguments.

(** ** The execution life cycle *)

(** X12: once a run has started, the executing flag is set and no second
    execution can start: [runCode], [runCodeWithInput] and
    [submitSolution] then return at once, with no prompt, no call and no
    change. *)
Theorem execution_is_not_reentrant (s : state) (input : jsstring)
    (answer : jsstring -> bool) :
  isExecuting (stateAfter (runCode s)) = true
  /\ runCode (stateAfter (runCode s)) = (Normal tt, stateAfter (runCode s), [])
  /\ runCodeWithInput input (stateAfter (runCode s))
     = (Normal tt, stateAfter (runCode s), [])
  /\ submitSolution answer (stateAfter (runCode s))
     = (Normal tt, stateAfter (runCode s), []).
Proof.
  assert (H : isExecuting (stateAfter (runCode s)) = true).
  { unfold runCode, setExecutionState, switchOutputTab. run.
    destruct (isExecuting s) eqn:E; [exact E|reflexivity]. }
  split; [exact H|].
  unfold runCode at 1, runCodeWithInput, submitSolution. run.
  rewrite H. auto.
Qed.

Lemma settle_run_state (o : outcome) (now : nat -> jsstring) (s : state) :
  settle RunThen o now s
  = (Normal tt,
     set_consoleOutput
       (match o with
        | Fulfilled r => executionMarkup r
        | Rejected =>
            str "<div class=" ++ q "error-line" ++ str ">"
            ++ escapeHtml (JStr (str "Failed to execute code"))
            ++ str "</div>"
        end) s,
     match o with
     | Fulfilled _ => []
     | Rejected => [ConsoleError (str "Run code failed:")]
     end).
Proof. destruct o; reflexivity. Qed.

(** X13: a run, from the click to the settled call, touches neither the
    files nor the editor nor the tabs: whatever the outcome, afterwards
    the file map, the active file, the language, the editor, the file
    tabs and the notifications are as before.  The executing flag stays
    set, so that a further [runCode] returns at once; a run with custom
    input settles to the same state. *)
Theorem run_cycle_leaves_files_alone (s : state) (o : outcome)
    (now : nat -> jsstring) :
  let s2 := stateAfter (settle RunThen o now (stateAfter (runCode s))) in
  studentFiles s2 = studentFiles s
  /\ activeFile s2 = activeFile s
  /\ currentLanguage s2 = currentLanguage s
  /\ editor s2 = editor s
  /\ fileTabs s2 = fileTabs s
  /\ notifications s2 = notifications s
  /\ isExecuting s2 = true
  /\ runCode s2 = (Normal tt, s2, [])
  /\ stateAfter (settle RunWithInputThen o now (stateAfter (runCode s))) = s2.
Proof.
  intros s2. subst s2. rewrite settle_run_state.
  assert (H : isExecuting (stateAfter (runCode s)) = true).
  { unfold runCode, setExecutionState, switchOutputTab. run.
    destruct (isExecuting s) eqn:E; [exact E|reflexivity]. }
  assert (G : forall (A : Type) (f : state -> A),
             (forall v w x y z t,
                 f (set_outputContents v
                      (set_outputTabs w
                         (set_buttons x
                            (set_loadingDisplay y (set_isExecuting z t)))))
                 = f t) ->
             f (stateAfter (runCode s)) = f s).
  { intros A f Hf. unfold runCode, setExecutionState, switchOutputTab. run.
    destruct (isExecuting s); run; [reflexivity|]. apply Hf. }
  cbn [stateAfter fst snd].
  repeat split.
  - apply (G _ studentFiles). reflexivity.
  - apply (G _ activeFile). reflexivity.
  - apply (G _ currentLanguage). reflexivity.
  - apply (G _ editor). reflexivity.
  - apply (G _ fileTabs). reflexivity.
  - apply (G _ notifications). reflexivity.
  - exact H.
  - unfold runCode at 1. run. cbn [isExecuting set_consoleOutput].
    rewrite H. reflexivity.
  - destruct o; reflexivity.
Qed.

(** ** Rendering *)

Lemma tagCount_app (a b : jsstring) :
  tagCount (a ++ b) = tagCount a + tagCount b.
Proof. apply count_occ_app. Qed.

Lemma tagCount_escapeHtml (v : jsval) : tagCount (escapeHtml v) = 0.
Proof.
  unfold tagCount. apply count_occ_not_In.
  apply (proj1 (serializeText_no_angle (textContentOf v))).
Qed.

(** X14: for a response without status object, no text of the response
    adds a tag to the console: the number of opening angle brackets of
    the markup is the number of tags of the templates chosen, whatever
    the compile output, the output and the error text hold. *)
Theorem executionMarkup_without_status_adds_no_tag (r : response) :
  status r = None ->
  tagCount (executionMarkup r) = templateTags r.
Proof.
  intros Hs. unfold executionMarkup, templateTags, labelled, section.
  rewrite Hs.
  destruct (truthy (success r)); destruct (truthy (compile_output r));
    destruct (truthy (output r)); destruct (truthy (error r));
    rewrite ?tagCount_app, ?tagCount_escapeHtml; reflexivity.
Qed.

Lemma executionMarkup_without_status_adds_no_tag_witness :
  status failedResponse = None
  /\ tagCount (executionMarkup failedResponse) = templateTags failedResponse.
Proof.
  split; [reflexivity|].
  exact (executionMarkup_without_status_adds_no_tag failedResponse eq_refl).
Defined.

(** X15: [escapeHtml] yields a text without angle brackets, and returns
    a string without ampersand, angle bracket and no-break space as it
    is. *)
Theorem escapeHtml_plain_text (text : jsstring) :
  ~ In 60%N (escapeHtml (JStr text))
  /\ ~ In 62%N (escapeHtml (JStr text))
  /\ (forallb isPlain text = true -> escapeHtml (JStr text) = text).
Proof.
  destruct (serializeText_no_angle text) as [H1 H2].
  split; [exact H1|]. split; [exact H2|].
  unfold escapeHtml. cbn [textContentOf ToString]. unfold serializeText.
  induction text as [|c t IH]; simpl; [reflexivity|].
  intros H. apply andb_true_iff in H as [Hc Ht].
  assert (H1' : ~ In 60%N (flat_map escapeCodeUnit t)).
  { intros Hin. apply H1. unfold serializeText. simpl.
    apply in_or_app. now right. }
  assert (H2' : ~ In 62%N (flat_map escapeCodeUnit t)).
  { intros Hin. apply H2. unfold serializeText. simpl.
    apply in_or_app. now right. }
  rewrite (IH H1' H2' Ht).
  unfold isPlain in Hc. apply negb_true_iff in Hc.
  apply orb_false_iff in Hc as [Hc H160].
  apply orb_false_iff in Hc as [Hc H62].
  apply orb_false_iff in Hc as [H38 H60].
  unfold escapeCodeUnit. now rewrite H38, H60, H62, H160.
Qed.

Lemma escapeHtml_plain_text_witness :
  forallb isPlain (str "Compilation error") = true
  /\ escapeHtml (JStr (str "Compilation error")) = str "Compilation error".
Proof.
  split; [reflexivity|].
  exact (proj2 (proj2 (escapeHtml_plain_text (str "Compilation error")))
               eq_refl).
Defined.

(** ** Saving and switching *)

(** X16: a save that does not succeed (a response that reports failure,
    or a rejected call) adds an error notification and nothing else: the
    file map, the editor and the tabs, with the modified mark, are as
    they were, and no further call is issued. *)
Theorem failed_save_changes_nothing (content : jsstring) (o : outcome)
    (now : nat -> jsstring) (s : state) :
  failed o = true ->
  errorNotified s (stateAfter (settle (SaveThen content) o now s))
  /\ filter isCall (effectsOf (settle (SaveThen content) o now s)) = []
  /\ fileTabs (stateAfter (settle (SaveThen content) o now s)) = fileTabs s
  /\ studentFiles (stateAfter (settle (SaveThen content) o now s))
     = studentFiles s
  /\ editor (stateAfter (settle (SaveThen content) o now s)) = editor s.
Proof.
  intros H. unfold errorNotified.
  destruct o as [r|]; cbn in H |- *.
  - apply negb_true_iff in H. unfold saveThen. rewrite H. cbn.
    repeat split; eauto.
  - repeat split; eauto.
Qed.

Lemma failed_save_changes_nothing_witness :
  failed (Fulfilled failedResponse) = true
  /\ fileTabs (stateAfter (settle (SaveThen (str "print('b2')"))
                                  (Fulfilled failedResponse) isoDate
                                  editingB))
     = fileTabs editingB.
Proof.
  split; [reflexivity|].
  exact (proj1 (proj2 (proj2
           (failed_save_changes_nothing (str "print('b2')")
              (Fulfilled failedResponse) isoDate editingB eq_refl)))).
Defined.

(** X17: switching to a file other than the active one requests one
    save, of the editor text under the name and language of the file
    being left, makes the target the active file with the language
    given, shows in the editor the stored content of the target (the
    template of the language when it has none, or an empty one), marks
    as active exactly the tabs of the target, and leaves the file map
    untouched.  With the Monaco editor, setting the text raises the
    change notification, whose listener marks the tab of the target as
    modified.  The selector of the target is read as it stands, the
    close buttons carry the names of their tabs, and the language is no
    key of [Object.prototype]. *)
Theorem switchToFile_other_file (s : state) (filename : jsstring)
    (language : option jsstring) :
  filename <> activeFile s ->
  notInherited (keyOf language) = true ->
  literalSelector filename = true ->
  tabsAgree (fileTabs s) = true ->
  let s' := stateAfter (switchToFile filename language s) in
  completionOf (switchToFile filename language s) = Normal tt
  /\ effectsOf (switchToFile filename language s)
     = [CallHandler (save_file (activeFile s) (getCurrentEditorContent s)
                               (currentLanguage s))
                    (SaveThen (getCurrentEditorContent s))]
  /\ activeFile s' = filename
  /\ currentLanguage s' = language
  /\ languageSelect s' = language
  /\ studentFiles s' = studentFiles s
  /\ (exists text lang,
        contentOr (getProperty filename (studentFiles s))
                  (getTemplateForLanguage language s) = Some text
        /\ getMonacoLanguage language = Some lang
        /\ editor s'
           = match editor s with
             | Monaco _ _ => Monaco text lang
             | FallbackEditor _ => FallbackEditor text
             | NoEditor => NoEditor
             end)
  /\ fileTabs s'
     = map (activeFor filename)
           (match editor s with
            | Monaco _ _ => updateFirst filename marked (fileTabs s)
            | _ => fileTabs s
            end).
Proof.
  intros Hne Hlang Hg Ht s'. subst s'.
  destruct (getMonacoLanguage_Some _ Hlang) as [lang Hl].
  destruct (contentOr_Some (getProperty filename (studentFiles s))
              (getTemplateForLanguage language s)
              (getTemplateForLanguage_Some _ s Hlang)) as [text Hc].
  rewrite (switchToFile_run s filename language text lang Hne Hc Hl Hg Ht).
  run. repeat split; try reflexivity.
  exists text, lang. auto.
Qed.

Lemma switchToFile_other_file_witness :
  str "b.py" <> activeFile threeFiles
  /\ notInherited (keyOf (Some (str "python"))) = true
  /\ literalSelector (str "b.py") = true
  /\ tabsAgree (fileTabs threeFiles) = true
  /\ fileTabs (stateAfter (switchToFile (str "b.py") (Some (str "python"))
                                        threeFiles))
     = map (activeFor (str "b.py"))
           (updateFirst (str "b.py") marked (fileTabs threeFiles)).
Proof.
  assert (H : str "b.py" <> activeFile threeFiles)
    by (vm_compute; discriminate).
  split; [exact H|]. split; [reflexivity|]. split; [reflexivity|].
  split; [reflexivity|].
  pose proof (switchToFile_other_file threeFiles (str "b.py")
                (Some (str "python")) H eq_refl eq_refl eq_refl) as G.
  cbv zeta in G. exact (proj2 (proj2 (proj2 (proj2 (proj2 (proj2
                                (proj2 G))))))).
Defined.

(** A save that succeeds, where the lookup of the tab of the active file
    returns and the active name is a file or a free name. *)
Lemma saveThen_success_run (c : jsstring) (now : nat -> jsstring)
    (r : response) (s : state) :
  truthy (success r) = true ->
  literalSelector (activeFile s) = true ->
  tabsAgree (fileTabs s) = true ->
  getProperty (activeFile s) (studentFiles s) <> Inherited ->
  settle (SaveThen c) (Fulfilled r) now s
  = (Normal tt,
     set_studentFiles
       (setProperty (activeFile s)
          (mkFile (Some c) (currentLanguage s)
                  (match getOwnProperty (activeFile s) (studentFiles s) with
                   | Some f => created_at f
                   | None => None
                   end)
                  (Some (now 0)))
          (studentFiles s))
       (set_fileTabs (updateFirst (activeFile s) unmarked (fileTabs s)) s),
     []).
Proof.
  intros Hok Hg Ht Hn. unfold settle, thenCatch.
  apply tryCatch_Normal. unfold saveThen. rewrite Hok. run.
  rewrite (removeModifiedMark_run (activeFile s) s Hg Ht).
  unfold updateStudentFiles. run.
  destruct (getProperty (activeFile s) (studentFiles s)) as [f| |] eqn:E.
  - rewrite (getProperty_Own_inv _ _ _ _ E). reflexivity.
  - contradiction.
  - rewrite (proj1 (getProperty_Absent _ _ _ E)). reflexivity.
Qed.

(** X29: [saveCurrentFile] requests a save of the editor content [c]
    under the name [f] of the active file, and its continuation keeps
    [c] only.  When the response reports success while another file [g]
    is active, the continuation stores [c] as the content of [g], sets
    the language of [g] to the current language, clears the modified
    mark of the tab of [g] (the class, and the first asterisk of the
    label), and leaves every other file, [f] among them, as it was.  The
    selector of [g] is read as it stands, the close buttons carry the
    names of their tabs, and [g] is a file or no key of
    [Object.prototype]. *)
Theorem save_success_lands_on_active_file (s0 s : state) (r : response)
    (now : nat -> jsstring) :
  truthy (success r) = true ->
  activeFile s <> activeFile s0 ->
  literalSelector (activeFile s) = true ->
  tabsAgree (fileTabs s) = true ->
  getProperty (activeFile s) (studentFiles s) <> Inherited ->
  let c := getCurrentEditorContent s0 in
  let s' := stateAfter (settle (SaveThen c) (Fulfilled r) now s) in
  effectsOf (saveCurrentFile s0)
  = [CallHandler (save_file (activeFile s0) c (currentLanguage s0))
                 (SaveThen c)]
  /\ completionOf (settle (SaveThen c) (Fulfilled r) now s) = Normal tt
  /\ (exists d, getOwnProperty (activeFile s) (studentFiles s') = Some d
                /\ content d = Some c
                /\ language d = currentLanguage s)
  /\ fileTabs s' = updateFirst (activeFile s) unmarked (fileTabs s)
  /\ (forall t, tabNamed (activeFile s) (fileTabs s) = Some t ->
                modified t = true ->
                tabNamed (activeFile s) (fileTabs s')
                = Some (mkTab (data_filename t) (data_language t) (active t)
                              false (replaceFirst (str "*") [] (tab_name t))
                              (tab_close t)))
  /\ getOwnProperty (activeFile s0) (studentFiles s')
     = getOwnProperty (activeFile s0) (studentFiles s)
  /\ (forall h, h <> activeFile s ->
                getOwnProperty h (studentFiles s')
                = getOwnProperty h (studentFiles s)).
Proof.
  intros Hok Hne Hg Ht Hn c s'. subst s'.
  rewrite (saveThen_success_run c now r s Hok Hg Ht Hn). run.
  split; [reflexivity|]. split; [reflexivity|].
  split.
  { rewrite getOwnProperty_setProperty_same. eexists.
    split; [reflexivity|]. cbn. auto. }
  split; [reflexivity|].
  split.
  { intros t Ht0 Hm.
    rewrite (tabNamed_updateFirst _ _ _ data_filename_unmarked), Ht0.
    cbn [option_map]. unfold unmarked. now rewrite Hm. }
  split.
  { apply getOwnProperty_setProperty_other. congruence. }
  intros h Hh. now apply getOwnProperty_setProperty_other.
Qed.

Lemma save_success_lands_on_active_file_witness :
  truthy (success okResponse) = true
  /\ activeFile editingB <> activeFile threeFiles
  /\ literalSelector (activeFile editingB) = true
  /\ tabsAgree (fileTabs editingB) = true
  /\ getProperty (activeFile editingB) (studentFiles editingB) <> Inherited
  /\ fileTabs
       (stateAfter (settle (SaveThen (getCurrentEditorContent threeFiles))
                           (Fulfilled okResponse) isoDate editingB))
     = updateFirst (activeFile editingB) unmarked (fileTabs editingB).
Proof.
  assert (H1 : truthy (success okResponse) = true) by reflexivity.
  assert (H2 : activeFile editingB <> activeFile threeFiles)
    by (vm_compute; discriminate).
  assert (H3 : getProperty (activeFile editingB) (studentFiles editingB)
               <> Inherited) by (vm_compute; discriminate).
  split; [exact H1|]. split; [exact H2|]. split; [reflexivity|].
  split; [reflexivity|]. split; [exact H3|].
  pose proof (save_success_lands_on_active_file threeFiles editingB
                okResponse isoDate H1 H2 eq_refl eq_refl H3) as H.
  cbv zeta in H. destruct H as (_ & _ & _ & Hf & _). exact Hf.
Defined.

(** X18: a switch followed by the success of the save it requested
    stores the text of the file that was left as the content of the file
    switched to: the entry of the target then holds the editor text of
    the source, with the language of the target, and the entry of the
    source is not updated.  The selector of the target is read as it
    stands, the close buttons carry the names of their tabs, the target
    is a file or no key of [Object.prototype], and its language is no
    such key. *)
Theorem switch_then_save_overwrites_target (s : state) (filename : jsstring)
    (language : option jsstring) (r : response) (now : nat -> jsstring) :
  filename <> activeFile s ->
  truthy (success r) = true ->
  notInherited (keyOf language) = true ->
  literalSelector filename = true ->
  tabsAgree (fileTabs s) = true ->
  getProperty filename (studentFiles s) <> Inherited ->
  let c := getCurrentEditorContent s in
  let s1 := stateAfter (switchToFile filename language s) in
  let s2 := stateAfter (settle (SaveThen c) (Fulfilled r) now s1) in
  effectsOf (switchToFile filename language s)
  = [CallHandler (save_file (activeFile s) c (currentLanguage s))
                 (SaveThen c)]
  /\ completionOf (settle (SaveThen c) (Fulfilled r) now s1) = Normal tt
  /\ (exists d, getOwnProperty filename (studentFiles s2) = Some d
                /\ content d = Some c
                /\ Workspace.language d = language)
  /\ getOwnProperty (activeFile s) (studentFiles s2)
     = getOwnProperty (activeFile s) (studentFiles s).
Proof.
  intros Hne Hok Hlang Hg Ht Hn c s1 s2. subst s2 s1.
  destruct (getMonacoLanguage_Some _ Hlang) as [lang Hl].
  destruct (contentOr_Some (getProperty filename (studentFiles s))
              (getTemplateForLanguage language s)
              (getTemplateForLanguage_Some _ s Hlang)) as [text Hc].
  rewrite (switchToFile_run s filename language text lang Hne Hc Hl Hg Ht).
  cbn [stateAfter effectsOf fst snd].
  match goal with
  | |- context [settle (SaveThen c) (Fulfilled r) now ?S] =>
      assert (Ht1 : tabsAgree (fileTabs S) = true);
      [ cbn [fileTabs set_languageSelect set_fileTabs];
        rewrite tabsAgree_activeFor;
        destruct (editor s); try exact Ht;
        apply tabsAgree_updateFirst; [apply tabsAgree_marked|exact Ht]
      | rewrite (saveThen_success_run c now r S Hok Hg Ht1 Hn) ]
  end.
  run. split; [reflexivity|]. split; [reflexivity|]. split.
  - rewrite getOwnProperty_setProperty_same. eexists.
    split; [reflexivity|]. cbn. auto.
  - apply getOwnProperty_setProperty_other. congruence.
Qed.

Lemma switch_then_save_overwrites_target_witness :
  str "b.py" <> activeFile threeFiles
  /\ truthy (success okResponse) = true
  /\ notInherited (keyOf (Some (str "python"))) = true
  /\ literalSelector (str "b.py") = true
  /\ tabsAgree (fileTabs threeFiles) = true
  /\ getProperty (str "b.py") (studentFiles threeFiles) <> Inherited
  /\ exists d,
       getOwnProperty (str "b.py")
         (studentFiles
            (stateAfter
               (settle (SaveThen (getCurrentEditorContent threeFiles))
                       (Fulfilled okResponse) isoDate
                       (stateAfter (switchToFile (str "b.py")
                                      (Some (str "python")) threeFiles)))))
       = Some d
       /\ content d = Some (str "print('c')")
       /\ Workspace.language d = Some (str "python").
Proof.
  assert (H : str "b.py" <> activeFile threeFiles)
    by (vm_compute; discriminate).
  assert (H3 : getProperty (str "b.py") (studentFiles threeFiles)
               <> Inherited) by (vm_compute; discriminate).
  split; [exact H|]. split; [reflexivity|]. split; [reflexivity|].
  split; [reflexivity|]. split; [reflexivity|]. split; [exact H3|].
  pose proof (switch_then_save_overwrites_target threeFiles (str "b.py")
                (Some (str "python")) okResponse isoDate H eq_refl eq_refl
                eq_refl eq_refl H3) as G.
  cbv zeta in G. exact (proj1 (proj2 (proj2 G))).
Defined.

(** ** Deleting *)

(** X19: a deletion that is declined at the confirmation prompt issues
    no call and changes nothing; a deletion whose call does not succeed
    adds an error notification and nothing else. *)
Theorem unsuccessful_delete_changes_nothing (s : state)
    (filename : jsstring) (answer : jsstring -> bool) (o : outcome)
    (now : nat -> jsstring) :
  (2 <= length (studentFiles s) ->
   answer (str "Are you sure you want to delete '" ++ filename ++ str "'?")
   = false ->
   deleteFile filename answer s
   = (Normal tt, s,
      [Confirm (str "Are you sure you want to delete '" ++ filename
                ++ str "'?")]))
  /\ (failed o = true ->
      errorNotified s (stateAfter (settle (DeleteThen filename) o now s))
      /\ filter isCall (effectsOf (settle (DeleteThen filename) o now s))
         = []).
Proof.
  split.
  - intros Hlen Hans. unfold deleteFile. run. rewrite Object_keys_length.
    destruct (Nat.leb (length (studentFiles s)) 1) eqn:E.
    + apply Nat.leb_le in E. lia.
    + rewrite Hans. reflexivity.
  - intros H. unfold errorNotified.
    destruct o as [r|]; cbn in H |- *.
    + apply negb_true_iff in H. unfold deleteThen. rewrite H. cbn.
      split; eauto.
    + split; eauto.
Qed.

Lemma unsuccessful_delete_changes_nothing_witness :
  2 <= length (studentFiles threeFiles)
  /\ failed Rejected = true
  /\ deleteFile (str "b.py") (fun _ => false) threeFiles
     = (Normal tt, threeFiles,
        [Confirm (str "Are you sure you want to delete '" ++ str "b.py"
                  ++ str "'?")])
  /\ filter isCall
       (effectsOf (settle (DeleteThen (str "b.py")) Rejected isoDate
                          threeFiles)) = [].
Proof.
  assert (H : 2 <= length (studentFiles threeFiles)) by (cbn; lia).
  destruct (unsuccessful_delete_changes_nothing threeFiles (str "b.py")
              (fun _ => false) Rejected isoDate) as [G1 G2].
  split; [exact H|]. split; [reflexivity|]. split.
  - exact (G1 H eq_refl).
  - exact (proj2 (G2 eq_refl)).
Defined.

(** X20: the successful deletion of a file that is not the active one
    removes its entry and its tab, shows the message of the server, and
    leaves the active file, the language and the editor as they are; it
    issues no call.  The selector of the name is read as it stands and
    the close buttons carry the names of their tabs. *)
Theorem delete_of_inactive_file (s : state) (filename : jsstring)
    (r : response) (now : nat -> jsstring) :
  truthy (success r) = true ->
  filename <> activeFile s ->
  literalSelector filename = true ->
  tabsAgree (fileTabs s) = true ->
  settle (DeleteThen filename) (Fulfilled r) now s
  = (Normal tt,
     set_notifications
       (notifications s ++ [(str "success", textContentOf (message r))])
       (set_fileTabs (removeFirst filename (fileTabs s))
          (set_studentFiles (deleteProperty filename (studentFiles s)) s)),
     []).
Proof.
  intros Hok Hne Hg Ht.
  assert (Hf : streq (activeFile s) filename = false)
    by (apply streq_false_iff; congruence).
  unfold settle, thenCatch. apply tryCatch_Normal.
  unfold deleteThen. rewrite Hok. run.
  match goal with
  | |- context [removeFileTab ?G ?S] =>
      rewrite (removeFileTab_run G S Hg Ht)
  end.
  unfold showNotification. run. rewrite Hf. run. reflexivity.
Qed.

Lemma delete_of_inactive_file_witness :
  truthy (success okResponse) = true
  /\ str "a.py" <> activeFile threeFiles
  /\ literalSelector (str "a.py") = true
  /\ tabsAgree (fileTabs threeFiles) = true
  /\ effectsOf (settle (DeleteThen (str "a.py")) (Fulfilled okResponse)
                       isoDate threeFiles) = [].
Proof.
  assert (H : str "a.py" <> activeFile threeFiles)
    by (vm_compute; discriminate).
  split; [reflexivity|]. split; [exact H|]. split; [reflexivity|].
  split; [reflexivity|].
  rewrite (delete_of_inactive_file threeFiles (str "a.py") okResponse
             isoDate eq_refl H eq_refl eq_refl).
  reflexivity.
Defined.

(** X21: the successful deletion of the active file requests a save
    under the name of the file just deleted: the switch to the first
    remaining file saves the editor text, still that of the deleted
    file, before the active file changes.  The names of the files are
    such that the selector of a tab is read as it stands, the close
    buttons carry the names of their tabs, and no language is a key of
    [Object.prototype]. *)
Theorem delete_of_active_file_saves_it_again (s : state) (r : response)
    (now : nat -> jsstring) :
  NoDup (map fst (studentFiles s)) ->
  2 <= length (studentFiles s) ->
  truthy (success r) = true ->
  literalSelector (activeFile s) = true ->
  tabsAgree (fileTabs s) = true ->
  forallb ordinaryFile (studentFiles s) = true ->
  effectsOf (settle (DeleteThen (activeFile s)) (Fulfilled r) now s)
  = [CallHandler (save_file (activeFile s) (getCurrentEditorContent s)
                            (currentLanguage s))
                 (SaveThen (getCurrentEditorContent s))]
  /\ getOwnProperty (activeFile s)
       (studentFiles
          (stateAfter (settle (DeleteThen (activeFile s)) (Fulfilled r)
                              now s))) = None.
Proof.
  intros Hnd Hlen Hok Hg Ht Hord.
  pose proof (deleteProperty_length _ (activeFile s) (studentFiles s) Hnd)
    as Hl.
  pose proof (Object_keys_length _
                (deleteProperty (activeFile s) (studentFiles s))) as Hk.
  destruct (Object_keys (deleteProperty (activeFile s) (studentFiles s)))
    as [|first rest] eqn:Ek; [simpl in Hk; lia|].
  destruct (deleteThen_active_run s r first rest Hok Hg Ht Hord Ek)
    as (d & text & lang & Hd & Hrun).
  unfold settle, thenCatch.
  rewrite (tryCatch_Normal _ _ _ _ _ _ _ Hrun). run.
  split; [reflexivity|]. apply getOwnProperty_deleteProperty.
Qed.

Lemma delete_of_active_file_saves_it_again_witness :
  NoDup (map fst (studentFiles threeFiles))
  /\ 2 <= length (studentFiles threeFiles)
  /\ truthy (success okResponse) = true
  /\ literalSelector (activeFile threeFiles) = true
  /\ tabsAgree (fileTabs threeFiles) = true
  /\ forallb ordinaryFile (studentFiles threeFiles) = true
  /\ effectsOf (settle (DeleteThen (activeFile threeFiles))
                       (Fulfilled okResponse) isoDate threeFiles)
     = [CallHandler
          (save_file (activeFile threeFiles)
                     (getCurrentEditorContent threeFiles)
                     (currentLanguage threeFiles))
          (SaveThen (getCurrentEditorContent threeFiles))].
Proof.
  assert (H1 : NoDup (map fst (studentFiles threeFiles))).
  { vm_compute. repeat constructor; cbn; intuition discriminate. }
  assert (H2 : 2 <= length (studentFiles threeFiles)) by (cbn; lia).
  split; [exact H1|]. split; [exact H2|]. split; [reflexivity|].
  split; [reflexivity|]. split; [reflexivity|]. split; [reflexivity|].
  exact (proj1 (delete_of_active_file_saves_it_again threeFiles okResponse
                  isoDate H1 H2 eq_refl eq_refl eq_refl eq_refl)).
Defined.

(** ** Creating a file *)

Lemma setProperty_nonempty (V : Type) (k : jsstring) (v : V)
    (o : list (jsstring * V)) :
  1 <= length (setProperty k v o).
Proof.
  destruct o as [|[k' v'] o]; simpl; [lia|].
  destruct (streq k k'); simpl; lia.
Qed.

(** X22: when the call of [createNewFile] succeeds and the new name is
    not the active file, the continuation registers the file with the
    template as content and the two time stamps, appends a tab with a
    close button, makes the new file the active one, closes the dialog
    and requests a save of the file that was active.  With the Monaco
    editor the new tab is marked as modified at once, by the change
    notification of the text the switch sets.  The name and the language
    are put in the markup of the tab and in its selector as they stand
    (no double quote, ampersand, backslash, line break, NUL or
    surrogate), the name is not [__proto__] and the language is no key
    of [Object.prototype]. *)
Theorem created_file_becomes_active (s : state)
    (filename content language : jsstring) (r : response)
    (now : nat -> jsstring) :
  truthy (success r) = true ->
  filename <> activeFile s ->
  attributeSafe filename = true ->
  attributeSafe language = true ->
  literalSelector filename = true ->
  notInherited language = true ->
  tabsAgree (fileTabs s) = true ->
  assignable filename (studentFiles s) = true ->
  let s' := stateAfter (settle (CreateThen filename content language)
                               (Fulfilled r) now s) in
  let newTab := mkTab filename language false false filename
                      (Some filename) in
  completionOf (settle (CreateThen filename content language) (Fulfilled r)
                       now s) = Normal tt
  /\ effectsOf (settle (CreateThen filename content language) (Fulfilled r)
                       now s)
     = [CallHandler (save_file (activeFile s) (getCurrentEditorContent s)
                               (currentLanguage s))
                    (SaveThen (getCurrentEditorContent s))]
  /\ getOwnProperty filename (studentFiles s')
     = Some (mkFile (Some content) (Some language) (Some (now 0))
                    (Some (now 1)))
  /\ (forall h, h <> filename ->
        getOwnProperty h (studentFiles s')
        = getOwnProperty h (studentFiles s))
  /\ activeFile s' = filename
  /\ currentLanguage s' = Some language
  /\ fileTabs s'
     = map (activeFor filename)
           (match editor s with
            | Monaco _ _ =>
                updateFirst filename marked (fileTabs s ++ [newTab])
            | _ => fileTabs s ++ [newTab]
            end)
  /\ currentModal s' = None
  /\ modalDisplay s' = str "none"
  /\ notifications s'
     = notifications s
       ++ [(str "success",
            str "File '" ++ filename ++ str "' created successfully")].
Proof.
  intros Hok Hne Hsafe Hsafel Hg Hlang Ht Has s' newTab. subst s'.
  set (file := mkFile (Some content) (Some language) (Some (now 0))
                      (Some (now 1))).
  set (s1 := set_studentFiles (setProperty filename file (studentFiles s))
                              s).
  set (s2 := set_fileTabs (fileTabs s ++ [newTab]) s1).
  assert (Hne2 : filename <> activeFile s2) by exact Hne.
  assert (Ht2 : tabsAgree (fileTabs s2) = true).
  { cbn. rewrite tabsAgree_app, Ht. cbn. now rewrite streq_refl. }
  assert (Hlang' : notInherited (keyOf (Some language)) = true)
    by exact Hlang.
  destruct (getMonacoLanguage_Some _ Hlang') as [lang Hl].
  destruct (contentOr_Some (getProperty filename (studentFiles s2))
              (getTemplateForLanguage (Some language) s2)
              (getTemplateForLanguage_Some _ s2 Hlang')) as [text Hc].
  pose proof (switchToFile_run s2 filename (Some language) text lang Hne2
                Hc Hl Hg Ht2) as Hsw.
  assert (Hrun : createThen filename content language now r s
                 = (Normal tt,
                    set_notifications
                      (notifications s
                       ++ [(str "success",
                            str "File '" ++ filename
                            ++ str "' created successfully")])
                      (set_currentModal None
                         (set_modalLanguageDisabled false
                            (set_modalDisplay (str "none")
                               (stateAfter
                                  (switchToFile filename (Some language)
                                                s2))))),
                    [CallHandler
                       (save_file (activeFile s) (getCurrentEditorContent s)
                                  (currentLanguage s))
                       (SaveThen (getCurrentEditorContent s))])).
  { unfold createThen. rewrite Hok. run. rewrite Has. run.
    unfold addFileTab. run.
    pose proof (setProperty_nonempty _ filename file (studentFiles s))
      as Hlen.
    rewrite <- Object_keys_length in Hlen. apply Nat.ltb_lt in Hlen.
    fold file. rewrite Hlen, Hsafe, Hsafel. run.
    fold newTab. fold s1. fold s2. rewrite Hsw.
    unfold hideModal, showNotification. run. reflexivity. }
  unfold settle, thenCatch. rewrite (tryCatch_Normal _ _ _ _ _ _ _ Hrun).
  rewrite Hsw. run.
  split; [reflexivity|]. split; [reflexivity|].
  split; [apply getOwnProperty_setProperty_same|].
  split; [intros h Hh; now apply getOwnProperty_setProperty_other|].
  repeat split; reflexivity.
Qed.

Lemma created_file_becomes_active_witness :
  truthy (success okResponse) = true
  /\ str "new.py" <> activeFile threeFiles
  /\ attributeSafe (str "new.py") = true
  /\ attributeSafe (str "python") = true
  /\ literalSelector (str "new.py") = true
  /\ notInherited (str "python") = true
  /\ tabsAgree (fileTabs threeFiles) = true
  /\ assignable (str "new.py") (studentFiles threeFiles) = true
  /\ activeFile
       (stateAfter (settle (CreateThen (str "new.py") (str "pass")
                                       (str "python"))
                           (Fulfilled okResponse) isoDate threeFiles))
     = str "new.py".
Proof.
  assert (H : str "new.py" <> activeFile threeFiles)
    by (vm_compute; discriminate).
  split; [reflexivity|]. split; [exact H|].
  do 6 (split; [reflexivity|]).
  pose proof (created_file_becomes_active threeFiles (str "new.py")
                (str "pass") (str "python") okResponse isoDate eq_refl H
                eq_refl eq_refl eq_refl eq_refl eq_refl eq_refl) as G.
  cbv zeta in G. exact (proj1 (proj2 (proj2 (proj2 (proj2 G))))).
Defined.

(** ** The modified mark *)

Lemma includes_star_app (l : jsstring) :
  includes (l ++ str "*") (str "*") = true.
Proof.
  change (str "*") with [42%N].
  induction l as [|c l IH]; [reflexivity|].
  simpl. simpl in IH. rewrite IH. apply orb_true_r.
Qed.

Lemma replaceFirst_star_app (l : jsstring) :
  includes l (str "*") = false ->
  replaceFirst (str "*") [] (l ++ str "*") = l.
Proof.
  change (str "*") with [42%N].
  induction l as [|c l IH]; [reflexivity|].
  simpl. intros H. apply orb_false_iff in H as [H1 H2].
  rewrite H1. simpl in IH. now rewrite (IH H2).
Qed.

Lemma updateFirst_twice (g : jsstring) (F G : tab -> tab) (l : list tab) :
  (forall t, data_filename (G t) = data_filename t) ->
  updateFirst g F (updateFirst g G l)
  = updateFirst g (fun t => F (G t)) l.
Proof.
  intros HG. induction l as [|t l IH]; simpl; [reflexivity|].
  destruct (streq (data_filename t) g) eqn:E; simpl.
  - now rewrite HG, E.
  - now rewrite E, IH.
Qed.

Lemma updateFirst_id (g : jsstring) (F : tab -> tab) (l : list tab) :
  (forall t, tabNamed g l = Some t -> F t = t) ->
  updateFirst g F l = l.
Proof.
  induction l as [|t l IH]; simpl; [reflexivity|].
  destruct (streq (data_filename t) g) eqn:E; intros H.
  - now rewrite (H t eq_refl).
  - now rewrite (IH H).
Qed.

(** X23: marking a file as modified and removing the mark again gives
    the page back, when the tab of the file was unmarked and its label
    holds no asterisk: the mark adds one asterisk to the label and the
    class, the removal takes both away.  The selector of the name is
    read as it stands and the close buttons carry the names of their
    tabs. *)
Theorem modified_mark_round_trip (s : state) (filename : jsstring) :
  literalSelector filename = true ->
  tabsAgree (fileTabs s) = true ->
  (forall t, tabNamed filename (fileTabs s) = Some t ->
             modified t = false /\ includes (tab_name t) (str "*") = false) ->
  completionOf (markFileAsModified filename s) = Normal tt
  /\ (forall t, tabNamed filename
                  (fileTabs (stateAfter (markFileAsModified filename s)))
                = Some t ->
                modified t = true /\ exists t0,
                  tabNamed filename (fileTabs s) = Some t0
                  /\ tab_name t = tab_name t0 ++ str "*")
  /\ removeModifiedMark filename
       (stateAfter (markFileAsModified filename s))
     = (Normal tt, s, []).
Proof.
  intros Hg Ht H.
  rewrite (markFileAsModified_run filename s Hg Ht).
  cbn [completionOf stateAfter fst snd].
  split; [reflexivity|]. split.
  - intros t. cbn [fileTabs set_fileTabs].
    rewrite (tabNamed_updateFirst _ _ _ data_filename_marked).
    destruct (tabNamed filename (fileTabs s)) as [t0|] eqn:E;
      [|discriminate].
    destruct (H t0 eq_refl) as [Hm Hi].
    cbn [option_map]. unfold marked. rewrite Hm, Hi.
    intros [= <-]. cbn [modified tab_name]. eauto.
  - match goal with
    | |- removeModifiedMark _ ?S = _ =>
        assert (Ht1 : tabsAgree (fileTabs S) = true);
        [ cbn [fileTabs set_fileTabs];
          apply tabsAgree_updateFirst; [apply tabsAgree_marked|exact Ht]
        | rewrite (removeModifiedMark_run filename S Hg Ht1) ]
    end.
    cbn [fileTabs set_fileTabs].
    rewrite (updateFirst_twice _ _ _ _ data_filename_marked).
    rewrite updateFirst_id.
    + destruct s; reflexivity.
    + intros t Htn. destruct (H t Htn) as [Hm Hi].
      unfold marked. rewrite Hm, Hi. unfold unmarked.
      cbn [modified tab_name data_filename data_language active tab_close].
      rewrite (replaceFirst_star_app _ Hi), <- Hm.
      destruct t; reflexivity.
Qed.

Lemma modified_mark_round_trip_witness :
  literalSelector (str "b.py") = true
  /\ tabsAgree (fileTabs threeFiles) = true
  /\ (forall t, tabNamed (str "b.py") (fileTabs threeFiles) = Some t ->
                modified t = false
                /\ includes (tab_name t) (str "*") = false)
  /\ removeModifiedMark (str "b.py")
       (stateAfter (markFileAsModified (str "b.py") threeFiles))
     = (Normal tt, threeFiles, []).
Proof.
  assert (H : forall t,
             tabNamed (str "b.py") (fileTabs threeFiles) = Some t ->
             modified t = false /\ includes (tab_name t) (str "*") = false).
  { intros t Ht. vm_compute in Ht. injection Ht as <-.
    split; reflexivity. }
  split; [reflexivity|]. split; [reflexivity|]. split; [exact H|].
  exact (proj2 (proj2 (modified_mark_round_trip threeFiles (str "b.py")
                         eq_refl eq_refl H))).
Defined.

(** X30: a save that succeeds while the selector built from the active
    name is no selector stores nothing: the lookup of the tab throws
    before the file map is updated, and the [catch] closure reports a
    failed save. *)
Theorem save_under_malformed_selector_is_lost (c : jsstring)
    (now : nat -> jsstring) (r : response) (s : state) :
  truthy (success r) = true ->
  readSelector (activeFile s) = Malformed ->
  settle (SaveThen c) (Fulfilled r) now s
  = (Normal tt,
     set_notifications
       (notifications s ++ [(str "error", str "Failed to save file")]) s,
     [ConsoleError (str "Save failed:")]).
Proof.
  intros Hok Hm. unfold settle, thenCatch, saveThen. rewrite Hok. run.
  unfold removeModifiedMark. run.
  rewrite (querySelector_Malformed _ s Hm). reflexivity.
Qed.

Lemma save_under_malformed_selector_is_lost_witness :
  truthy (success okResponse) = true
  /\ readSelector (activeFile quotedActive) = Malformed
  /\ studentFiles
       (stateAfter (settle (SaveThen (str "print('c')"))
                           (Fulfilled okResponse) isoDate quotedActive))
     = studentFiles quotedActive.
Proof.
  split; [reflexivity|]. split; [reflexivity|].
  rewrite (save_under_malformed_selector_is_lost (str "print('c')") isoDate
             okResponse quotedActive eq_refl eq_refl).
  reflexivity.
Defined.

(** ** Language *)

(** X24: choosing the language that is already current does nothing;
    choosing another one records it as the current language and as the
    language of the active file, whose content and time stamps stay, sets
    the language attribute of the tab of the file and requests a save
    that carries the new language with the editor text, which is not
    changed.  Where the selector built from the active name is no
    selector, the lookup of the tab throws and no save is requested.  The
    new language is no key of [Object.prototype], the active name is a
    file or no such key, and the close buttons carry the names of their
    tabs. *)
Theorem changeLanguage_records_and_saves (s : state)
    (newLanguage : jsstring) :
  (currentLanguage s = Some newLanguage ->
   changeLanguage newLanguage s = (Normal tt, s, []))
  /\ (currentLanguage s <> Some newLanguage ->
      notInherited newLanguage = true ->
      getProperty (activeFile s) (studentFiles s) <> Inherited ->
      (literalSelector (activeFile s) = true ->
       tabsAgree (fileTabs s) = true ->
       let s' := stateAfter (changeLanguage newLanguage s) in
       completionOf (changeLanguage newLanguage s) = Normal tt
       /\ effectsOf (changeLanguage newLanguage s)
          = [CallHandler (save_file (activeFile s)
                                    (getCurrentEditorContent s)
                                    (Some newLanguage))
                         (SaveThen (getCurrentEditorContent s))]
       /\ currentLanguage s' = Some newLanguage
       /\ activeFile s' = activeFile s
       /\ getCurrentEditorContent s' = getCurrentEditorContent s
       /\ getOwnProperty (activeFile s) (studentFiles s')
          = match getOwnProperty (activeFile s) (studentFiles s) with
            | Some f => Some (mkFile (content f) (Some newLanguage)
                                     (created_at f) (modified_at f))
            | None => None
            end
       /\ (forall h, h <> activeFile s ->
             getOwnProperty h (studentFiles s')
             = getOwnProperty h (studentFiles s))
       /\ fileTabs s'
          = updateFirst (activeFile s)
              (fun t => mkTab (data_filename t) newLanguage (active t)
                              (modified t) (tab_name t) (tab_close t))
              (fileTabs s))
      /\ (readSelector (activeFile s) = Malformed ->
          completionOf (changeLanguage newLanguage s) = Throw SyntaxError
          /\ effectsOf (changeLanguage newLanguage s) = [])).
Proof.
  split.
  - intros H. unfold changeLanguage. run. rewrite H, streq_refl.
    reflexivity.
  - intros Hne Hlang Hn.
    assert (Hc : match currentLanguage s with
                 | Some l => streq l newLanguage
                 | None => false
                 end = false).
    { destruct (currentLanguage s) as [l|]; [|reflexivity].
      apply streq_false_iff. congruence. }
    assert (Hlang' : notInherited (keyOf (Some newLanguage)) = true)
      by exact Hlang.
    destruct (getMonacoLanguage_Some _ Hlang') as [lang Hl].
    split.
    + intros Hg Ht s'. subst s'.
      unfold changeLanguage, saveCurrentFile, getCurrentEditorContent.
      run. rewrite Hc. run.
      rewrite Hl.
      assert (Hq : forall S, fileTabs S = fileTabs s ->
                     querySelector (activeFile s) S
                     = (Normal (tabNamed (activeFile s) (fileTabs s)), S,
                        [])).
      { intros S HS. rewrite <- HS. apply querySelector_run; [exact Hg|].
        now rewrite HS. }
      destruct (getProperty (activeFile s) (studentFiles s)) as [f| |] eqn:E;
        [|contradiction|].
      * rewrite (getProperty_Own_inv _ _ _ _ E).
        destruct (editor s) eqn:Ee; run;
          (rewrite Hq by reflexivity);
          (destruct (tabNamed (activeFile s) (fileTabs s)) eqn:Et; run;
           rewrite ?Ee; run;
           rewrite ?getOwnProperty_setProperty_same,
             ?(updateFirst_None _ _ _ Et);
           repeat split; try reflexivity;
           intros h Hh; now apply getOwnProperty_setProperty_other).
      * rewrite (proj1 (getProperty_Absent _ _ _ E)).
        destruct (editor s) eqn:Ee; run;
          (rewrite Hq by reflexivity);
          (destruct (tabNamed (activeFile s) (fileTabs s)) eqn:Et; run;
           rewrite ?Ee; run;
           rewrite ?(proj1 (getProperty_Absent _ _ _ E)),
             ?(updateFirst_None _ _ _ Et);
           repeat split; reflexivity).
    + intros Hm. unfold changeLanguage. run. rewrite Hc. run. rewrite Hl.
      destruct (getProperty (activeFile s) (studentFiles s)) as [f| |] eqn:E;
        [|contradiction|];
        destruct (editor s); run;
        match goal with
        | |- context [querySelector ?G ?S] =>
            rewrite (querySelector_Malformed G S Hm)
        end; split; reflexivity.
Qed.

Lemma changeLanguage_records_and_saves_witness :
  currentLanguage threeFiles <> Some (str "java")
  /\ notInherited (str "java") = true
  /\ getProperty (activeFile threeFiles) (studentFiles threeFiles)
     <> Inherited
  /\ literalSelector (activeFile threeFiles) = true
  /\ tabsAgree (fileTabs threeFiles) = true
  /\ effectsOf (changeLanguage (str "java") threeFiles)
     = [CallHandler (save_file (activeFile threeFiles)
                               (getCurrentEditorContent threeFiles)
                               (Some (str "java")))
                    (SaveThen (getCurrentEditorContent threeFiles))].
Proof.
  assert (H1 : currentLanguage threeFiles <> Some (str "java"))
    by (vm_compute; discriminate).
  assert (H3 : getProperty (activeFile threeFiles) (studentFiles threeFiles)
               <> Inherited) by (vm_compute; discriminate).
  split; [exact H1|]. split; [reflexivity|]. split; [exact H3|].
  split; [reflexivity|]. split; [reflexivity|].
  pose proof (proj1 (proj2 (changeLanguage_records_and_saves threeFiles
                              (str "java")) H1 eq_refl H3)
                    eq_refl eq_refl) as G.
  cbv zeta in G. exact (proj1 (proj2 G)).
Defined.

(** ** Renaming *)

Lemma getOwnProperty_existsb (V : Type) (k : jsstring)
    (o : list (jsstring * V)) :
  match getOwnProperty k o with Some _ => true | None => false end
  = existsb (streq k) (map fst o).
Proof.
  induction o as [|[k' v'] o IH]; simpl; [reflexivity|].
  destruct (streq k k'); [reflexivity|exact IH].
Qed.

(** X25: [renameCurrentFile] returns and changes neither the file map
    nor the active file nor the tabs; it issues a [rename_file] call,
    from the active name to the trimmed new name, exactly when the new
    name is not empty, is not the active name, is not the name of a file
    and is no key of [Object.prototype]. *)
Theorem renameCurrentFile_asks_only_for_free_names (s : state) :
  let n := trim (filenameInput s) in
  completionOf (renameCurrentFile s) = Normal tt
  /\ studentFiles (stateAfter (renameCurrentFile s)) = studentFiles s
  /\ activeFile (stateAfter (renameCurrentFile s)) = activeFile s
  /\ fileTabs (stateAfter (renameCurrentFile s)) = fileTabs s
  /\ effectsOf (renameCurrentFile s)
     = (if negb (isEmpty n) && negb (streq n (activeFile s))
           && negb (existsb (streq n) (map fst (studentFiles s)))
           && notInherited n
        then [CallHandler (rename_file (activeFile s) n) (RenameThen n)]
        else []).
Proof.
  intros n. subst n. unfold renameCurrentFile, hideModal, showNotification.
  run.
  destruct (isEmpty (trim (filenameInput s))); run;
    [repeat split; reflexivity|].
  destruct (streq (trim (filenameInput s)) (activeFile s)); run;
    [repeat split; reflexivity|].
  rewrite <- getOwnProperty_existsb. unfold getProperty, notInherited.
  destruct (getOwnProperty (trim (filenameInput s)) (studentFiles s)); run;
    [repeat split; reflexivity|].
  destruct (arrayIncludes prototypeKeys (trim (filenameInput s))); run;
    repeat split; reflexivity.
Qed.

Lemma setProperty_new (V : Type) (k : jsstring) (v : V)
    (o : list (jsstring * V)) :
  ~ In k (map fst o) -> setProperty k v o = o ++ [(k, v)].
Proof.
  induction o as [|[k' v'] o IH]; simpl; [reflexivity|]. intros H.
  destruct (streq k k') eqn:E.
  - apply streq_true_iff in E. subst. tauto.
  - rewrite IH; tauto.
Qed.

Lemma deleteProperty_app (V : Type) (k : jsstring)
    (o o' : list (jsstring * V)) :
  deleteProperty k (o ++ o') = deleteProperty k o ++ deleteProperty k o'.
Proof. apply filter_app. Qed.

Lemma deleteProperty_present_length (V : Type) (k : jsstring)
    (o : list (jsstring * V)) :
  NoDup (map fst o) -> In k (map fst o) ->
  S (length (deleteProperty k o)) = length o.
Proof.
  induction o as [|[k' v'] o IH]; simpl; [intros _ []|].
  intros Hnd Hin. inversion Hnd as [|? ? Hnin Hnd']; subst.
  unfold deleteProperty in *. simpl.
  destruct (streq k k') eqn:E; simpl.
  - apply streq_true_iff in E. subst k'.
    fold (deleteProperty k o). rewrite deleteProperty_absent; auto.
  - apply streq_false_iff in E.
    destruct Hin as [->|Hin]; [congruence|].
    now rewrite (IH Hnd' Hin).
Qed.

Lemma indexKeys_app_other (ks : list jsstring) (k : jsstring) :
  arrayIndex k = None -> indexKeys (ks ++ [k]) = indexKeys ks.
Proof.
  intros H. induction ks as [|x ks IH]; simpl.
  - now rewrite H.
  - now rewrite IH.
Qed.

(** A key that is no array index, added to an object, comes last in the
    order of [Object.keys]. *)
Lemma Object_keys_app_other (V : Type) (o : list (jsstring * V))
    (k : jsstring) (v : V) :
  arrayIndex k = None -> Object_keys (o ++ [(k, v)]) = Object_keys o ++ [k].
Proof.
  intros H. unfold Object_keys. rewrite map_app. cbn [map fst].
  rewrite (indexKeys_app_other _ _ H), filter_app. cbn [filter].
  rewrite H. now rewrite app_assoc.
Qed.

(** X26: when a rename succeeds while the active file has an entry and
    the new name is free, the entry moves to the new name: the new name
    holds the data of the active file, the old name holds nothing, every
    other file is as it was, the number of files is the same, the tab of
    the file carries the new name, the new name is the active file and
    the dialog is closed.  A new name that is no array index comes last
    in the order of [Object.keys].  A rename that does not succeed adds
    an error notification and nothing else.  The new name is not
    [__proto__], the selector of the old name is read as it stands and
    the close buttons carry the names of their tabs. *)
Theorem renameThen_moves_the_entry (s : state) (newFilename : jsstring)
    (o : outcome) (r : response) (d : fileData) (now : nat -> jsstring) :
  (failed o = true ->
   errorNotified s (stateAfter (settle (RenameThen newFilename) o now s))
   /\ filter isCall (effectsOf (settle (RenameThen newFilename) o now s))
      = [])
  /\ (truthy (success r) = true ->
      NoDup (map fst (studentFiles s)) ->
      getOwnProperty (activeFile s) (studentFiles s) = Some d ->
      ~ In newFilename (map fst (studentFiles s)) ->
      streq newFilename (str "__proto__") = false ->
      literalSelector (activeFile s) = true ->
      tabsAgree (fileTabs s) = true ->
      exists s',
        settle (RenameThen newFilename) (Fulfilled r) now s
        = (Normal tt, s', [])
        /\ getOwnProperty newFilename (studentFiles s') = Some d
        /\ getOwnProperty (activeFile s) (studentFiles s') = None
        /\ (forall h, h <> activeFile s -> h <> newFilename ->
              getOwnProperty h (studentFiles s')
              = getOwnProperty h (studentFiles s))
        /\ (arrayIndex newFilename = None ->
            Object_keys (studentFiles s')
            = Object_keys (deleteProperty (activeFile s) (studentFiles s))
              ++ [newFilename])
        /\ length (studentFiles s') = length (studentFiles s)
        /\ fileTabs s'
           = updateFirst (activeFile s)
               (fun t => mkTab newFilename (data_language t) (active t)
                               (modified t) newFilename
                               (match tab_close t with
                                | Some _ => Some newFilename
                                | None => None
                                end))
               (fileTabs s)
        /\ activeFile s' = newFilename
        /\ currentModal s' = None
        /\ modalDisplay s' = str "none"
        /\ notifications s'
           = notifications s
             ++ [(str "success", textContentOf (message r))]).
Proof.
  split.
  - intros H. unfold errorNotified.
    destruct o as [r0|]; cbn in H |- *.
    + apply negb_true_iff in H. unfold renameThen. rewrite H. cbn.
      split; eauto.
    + split; eauto.
  - intros Hok Hnd Hd Hnin Hproto Hg Ht.
    assert (Hin : In (activeFile s) (map fst (studentFiles s)))
      by (eapply getOwnProperty_Some_In; eassumption).
    assert (Hne : newFilename <> activeFile s) by congruence.
    assert (Hf : streq (activeFile s) newFilename = false)
      by (apply streq_false_iff; congruence).
    assert (Has : assignable newFilename (studentFiles s) = true).
    { unfold assignable. now rewrite Hproto. }
    eexists. split.
    { unfold settle, thenCatch. apply tryCatch_Normal.
      unfold renameThen. rewrite Hok. run.
      rewrite (getProperty_Own _ _ _ _ Hd), Has. run.
      match goal with
      | |- context [updateFileTab ?G ?N ?S] =>
          rewrite (updateFileTab_run G N S Hg Ht)
      end.
      unfold hideModal, showNotification. run. reflexivity. }
    run.
    split; [|split; [|split; [|split; [|split]]]].
    + rewrite getOwnProperty_deleteProperty_other by exact Hne.
      apply getOwnProperty_setProperty_same.
    + apply getOwnProperty_deleteProperty.
    + intros h H1 H2.
      rewrite getOwnProperty_deleteProperty_other by exact H1.
      now apply getOwnProperty_setProperty_other.
    + intros Hidx. rewrite (setProperty_new _ _ _ _ Hnin), deleteProperty_app.
      unfold deleteProperty at 2. cbn [filter fst]. rewrite Hf. cbn [negb].
      apply Object_keys_app_other, Hidx.
    + assert (Hl : S (length (deleteProperty (activeFile s)
                        (setProperty newFilename d (studentFiles s))))
                   = length (setProperty newFilename d (studentFiles s))).
      { apply deleteProperty_present_length;
          rewrite (setProperty_new _ _ _ _ Hnin), map_app.
        - apply NoDup_app; [exact Hnd | repeat constructor; intros [] |].
          intros x Hx [<-|[]]. tauto.
        - apply in_or_app. auto. }
      assert (Hl2 : length (setProperty newFilename d (studentFiles s))
                    = S (length (studentFiles s))).
      { rewrite (setProperty_new _ _ _ _ Hnin), length_app.
        cbn [length]. lia. }
      lia.
    + repeat split; reflexivity.
Qed.

Lemma renameThen_moves_the_entry_witness :
  failed Rejected = true
  /\ truthy (success okResponse) = true
  /\ NoDup (map fst (studentFiles renamingC))
  /\ getOwnProperty (activeFile renamingC) (studentFiles renamingC)
     = Some (pythonFile "print('c')")
  /\ ~ In (str "renamed.py") (map fst (studentFiles renamingC))
  /\ streq (str "renamed.py") (str "__proto__") = false
  /\ literalSelector (activeFile renamingC) = true
  /\ tabsAgree (fileTabs renamingC) = true
  /\ exists s',
       settle (RenameThen (str "renamed.py")) (Fulfilled okResponse) isoDate
              renamingC
       = (Normal tt, s', [])
       /\ getOwnProperty (str "renamed.py") (studentFiles s')
          = Some (pythonFile "print('c')").
Proof.
  assert (H1 : NoDup (map fst (studentFiles renamingC))).
  { vm_compute. repeat constructor; cbn; intuition discriminate. }
  assert (H2 : ~ In (str "renamed.py") (map fst (studentFiles renamingC))).
  { vm_compute. intuition discriminate. }
  split; [reflexivity|]. split; [reflexivity|]. split; [exact H1|].
  split; [reflexivity|]. split; [exact H2|]. split; [reflexivity|].
  split; [reflexivity|]. split; [reflexivity|].
  destruct (proj2 (renameThen_moves_the_entry renamingC (str "renamed.py")
                     Rejected okResponse (pythonFile "print('c')") isoDate)
                  eq_refl H1 eq_refl H2 eq_refl eq_refl eq_refl)
    as (s' & G1 & G2 & _).
  exists s'. split; [exact G1|exact G2].
Defined.

(** ** Submission *)

(** X27: however a [submit_solution] call settles, the continuation
    returns and leaves the executing flag, the buttons and the loading
    indicator as they are: nothing that follows the call restores them.
    When the call does not succeed, the summary, the list of results and
    the score shown stay as they were and an error notification is
    added. *)
Theorem submit_settled_keeps_controls (o : outcome)
    (now : nat -> jsstring) (s : state) :
  let s' := stateAfter (settle SubmitThen o now s) in
  completionOf (settle SubmitThen o now s) = Normal tt
  /\ isExecuting s' = isExecuting s
  /\ buttons s' = buttons s
  /\ loadingDisplay s' = loadingDisplay s
  /\ (failed o = true ->
      testSummary s' = testSummary s
      /\ testResults s' = testResults s
      /\ currentScoreEl s' = currentScoreEl s
      /\ exists text,
           notifications s' = notifications s ++ [(str "error", text)]).
Proof.
  intros s'. subst s'.
  destruct o as [r|].
  - unfold settle, thenCatch, submitThen, submitCatch, showNotification,
      displaySubmissionResult, updateScoreDisplay.
    cbn [failed].
    destruct (truthy (success r)); run.
    + destruct (numberValue (score r)) as [x|]; run.
      * destruct (test_results r) as [tests|]; run.
        -- destruct (currentScoreEl s); run;
             repeat split; try reflexivity; discriminate.
        -- repeat split; try reflexivity; discriminate.
      * repeat split; try reflexivity; discriminate.
    + repeat split; try reflexivity. eauto.
  - cbn. repeat split; eauto.
Qed.

Lemma submit_settled_keeps_controls_witness :
  failed (Fulfilled failedResponse) = true
  /\ testResults (stateAfter (settle SubmitThen (Fulfilled failedResponse)
                                     isoDate editingB))
     = testResults editingB.
Proof.
  split; [reflexivity|].
  pose proof (submit_settled_keeps_controls (Fulfilled failedResponse)
                isoDate editingB) as G.
  cbv zeta in G.
  exact (proj1 (proj2 (proj2 (proj2 (proj2 (proj2 G))) eq_refl))).
Defined.

(** X28: a response that reports success but cannot be displayed is
    handled as an error.  With a score that is no number nothing is
    displayed; with a number but without the array of test results the
    summary is already rewritten when the error occurs, and the list of
    results and the score shown stay as they were.  In both cases the
    notification [Failed to submit solution] is added. *)
Theorem submit_undisplayable_success (r : response)
    (now : nat -> jsstring) (s : state) :
  truthy (success r) = true ->
  test_results r = None ->
  let s' := stateAfter (settle SubmitThen (Fulfilled r) now s) in
  completionOf (settle SubmitThen (Fulfilled r) now s) = Normal tt
  /\ effectsOf (settle SubmitThen (Fulfilled r) now s)
     = [ConsoleError (str "Submit solution failed:")]
  /\ testSummary s'
     = match numberValue (score r) with
       | Some x => summaryMarkup r x
       | None => testSummary s
       end
  /\ testResults s' = testResults s
  /\ currentScoreEl s' = currentScoreEl s
  /\ notifications s'
     = notifications s
       ++ [(str "error", str "Failed to submit solution")].
Proof.
  intros Hok Hnone s'. subst s'.
  unfold settle, thenCatch, submitThen, submitCatch, showNotification,
    displaySubmissionResult.
  rewrite Hok, Hnone.
  destruct (numberValue (score r)) as [x|]; run; repeat split; reflexivity.
Qed.

Lemma submit_undisplayable_success_witness :
  truthy (success okResponse) = true
  /\ test_results okResponse = None
  /\ notifications (stateAfter (settle SubmitThen (Fulfilled okResponse)
                                       isoDate threeFiles))
     = notifications threeFiles
       ++ [(str "error", str "Failed to submit solution")].
Proof.
  split; [reflexivity|]. split; [reflexivity|].
  pose proof (submit_undisplayable_success okResponse isoDate threeFiles
                eq_refl eq_refl) as G.
  cbv zeta in G. exact (proj2 (proj2 (proj2 (proj2 (proj2 G))))).
Defined.

End WorkspaceLaws.
